(** * DARG Market Intelligence: tier registry and resilient data gateway

    A shallow embedding of
      - [github_export/utils/tier_control.py]   (module [TierControl]),
      - [darg_github_export_updated/utils/data_access.py] (module [DataAccess]),
      - the opportunity-score step of
        [darg_github_export_updated/components/opportunity_map.py]
        (module [OpportunityMap]),
    followed by the properties of the specification, one theorem each,
    and by further properties that the code itself shows.

    Python values are modelled by [pyval]; dictionaries are association
    lists in insertion order; exceptions are explicit ([outcome]); the
    Streamlit session, the clock and the remote calls are threaded through
    a state-and-exception monad [M]. *)

From stdpp Require Import base strings list gmap.
From Stdlib Require Import ZArith QArith Qround Lia.

Set Warnings "-register-all".
Local Open Scope string_scope.
Local Open Scope Z_scope.

(** ** Python prelude *)

Module Py.

(** Exceptions.  [StopException] and [RerunException] are Streamlit's
    script-control exceptions; they derive from [BaseException], so an
    [except Exception] clause does not catch them. *)
Inductive exn :=
| KeyError (key : string)
| AttributeError (attr : string)
| TypeError (msg : string)
| ValueError (msg : string)
| ExternalError (msg : string)
| StopException
| RerunException.

Definition is_Exception (e : exn) : bool :=
  match e with
  | StopException | RerunException => false
  | _ => true
  end.

(** [str(e)] *)
Definition str_exn (e : exn) : string :=
  match e with
  | KeyError k => "'" +:+ k +:+ "'"
  | AttributeError a => a
  | TypeError m | ValueError m | ExternalError m => m
  | StopException | RerunException => EmptyString
  end.

Inductive outcome (A : Type) :=
| Returns (a : A)
| Raises (e : exn).
Arguments Returns {A} a.
Arguments Raises {A} e.

Definition obind {A B : Type} (o : outcome A) (k : A -> outcome B) : outcome B :=
  match o with
  | Returns a => k a
  | Raises e => Raises e
  end.

Notation "'let+' x ':=' c1 'in' c2" := (obind c1 (fun x => c2))
  (at level 10, x name, c1 at level 100, c2 at level 200).

(** Values.  Numbers (int and finite float alike) are rationals; [PNaN] is
    the float NaN that pandas uses for a missing cell. *)
Inductive pyval :=
| PNone
| PNaN
| PBool (b : bool)
| PNum (q : Q)
| PStr (s : string)
| PList (l : list pyval)
| PDict (d : list (string * pyval)).

Definition pydict := list (string * pyval).

(** Dictionaries keyed by strings, in insertion order. *)
Section Dict.
Context {V : Type}.

Fixpoint dict_get (k : string) (d : list (string * V)) : option V :=
  match d with
  | [] => None
  | (k', v) :: d' => if String.eqb k k' then Some v else dict_get k d'
  end.

(** [k in d] *)
Definition dict_in (k : string) (d : list (string * V)) : bool :=
  match dict_get k d with Some _ => true | None => false end.

(** [d[k]] *)
Definition dict_subscript (k : string) (d : list (string * V)) : outcome V :=
  match dict_get k d with
  | Some v => Returns v
  | None => Raises (KeyError k)
  end.

(** [d.get(k, dflt)] *)
Definition dict_get_default (k : string) (dflt : V) (d : list (string * V)) : V :=
  match dict_get k d with Some v => v | None => dflt end.

(** [d[k] = v]: an existing key keeps its position, a new key goes last. *)
Fixpoint dict_set (k : string) (v : V) (d : list (string * V)) : list (string * V) :=
  match d with
  | [] => [(k, v)]
  | (k', v') :: d' =>
      if String.eqb k k' then (k, v) :: d' else (k', v') :: dict_set k v d'
  end.

Definition dict_keys (d : list (string * V)) : list string := map fst d.
End Dict.

(** [s in l] for a list of strings *)
Definition str_in (s : string) (l : list string) : bool :=
  existsb (String.eqb s) l.

(** [l[:n]] on a list: a negative bound counts from the end. *)
Definition slice_to {A : Type} (n : Z) (l : list A) : list A :=
  if 0 <=? n then take (Z.to_nat n) l
  else take (length l - Z.to_nat (- n))%nat l.

(** [int(n * p / 100)] for integers [n], [p]: the float quotient is
    truncated towards zero.  For [|n * p| < 2^53] the float quotient of
    the two integers truncates to the same integer as the exact one. *)
Definition int_percent (n p : Z) : Z := Z.quot (n * p) 100.

Definition len {A : Type} (l : list A) : Z := Z.of_nat (length l).

(** [len(v)] and [v[:n]] on a value *)
Definition py_len (v : pyval) : outcome Z :=
  match v with
  | PList l => Returns (len l)
  | PDict d => Returns (len d)
  | PStr s => Returns (Z.of_nat (String.length s))
  | _ => Raises (TypeError "object has no len()")
  end.

(** [k in s] for two strings: [k] occurs in [s]. *)
Fixpoint contains (k s : string) : bool :=
  String.prefix k s ||
  match s with
  | EmptyString => false
  | String _ s' => contains k s'
  end.

(** [k in v] for a string [k]: a key of a dictionary, a piece of a string,
    an element of a list; any other value is not iterable. *)
Definition py_in (k : string) (v : pyval) : outcome bool :=
  match v with
  | PDict d => Returns (dict_in k d)
  | PStr s => Returns (contains k s)
  | PList l =>
      Returns (existsb (fun x => match x with PStr s => String.eqb k s | _ => false end) l)
  | _ => Raises (TypeError "argument is not iterable")
  end.

(** [v[k]] for a string [k]: only a dictionary takes a string index. *)
Definition py_subscript (k : string) (v : pyval) : outcome pyval :=
  match v with
  | PDict d => dict_subscript k d
  | PStr _ | PList _ => Raises (TypeError "indices must be integers")
  | _ => Raises (TypeError "object is not subscriptable")
  end.

(** [v.get(k)]: a method of dictionaries only. *)
Definition py_get (k : string) (v : pyval) : outcome pyval :=
  match v with
  | PDict d => Returns (dict_get_default k PNone d)
  | _ => Raises (AttributeError "get")
  end.

Definition py_slice_to (n : Z) (v : pyval) : outcome pyval :=
  match v with
  | PList l => Returns (PList (slice_to n l))
  | PStr s =>
      let stop := if 0 <=? n then Z.to_nat n
                  else (String.length s - Z.to_nat (- n))%nat in
      Returns (PStr (String.substring 0 stop s))
  | _ => Raises (TypeError "object is not subscriptable by a slice")
  end.

End Py.
Export Py.

(** ** The world: session state, clock, remote effects *)

(** A tier as the session holds it: a name, or [None], which a profile row
    with a NULL tier leaves there. *)
Definition tier_value : Type := option string.

(** One entry of [user_info["tier_history"]]. *)
Record TierChange := mkTierChange {
  tc_from : tier_value;
  tc_to : string;
  tc_timestamp : string }.

(** [st.session_state.user_info]: a field is [None] when its key is absent. *)
Record UserInfo := mkUserInfo {
  ui_tier : option tier_value;
  ui_name : option string;
  ui_email : option string;
  ui_id : option string;
  ui_last_active : option string;
  ui_login_time : option string;
  ui_feature_usage : option (gmap string Z);
  ui_data_access_count : option Z;
  ui_tier_change_time : option string;
  ui_tier_history : option (list TierChange) }.

(** [{}] *)
Definition empty_user_info : UserInfo :=
  mkUserInfo None None None None None None None None None None.

(** Parameters of a remote call: [metric_column] is absent for the map and
    demographic functions. *)
Record RpcParams := mkRpcParams {
  tier_percentage : Z;
  state_filter : option (list string);
  metric_column : option string }.

Record World := mkWorld {
  user_info : option UserInfo;            (* "user_info" in st.session_state *)
  clock : nat;                            (* readings of datetime.now() so far *)
  profile_writes : list (string * string);(* (id, tier) rows written to user_profiles *)
  rpc_log : list (string * RpcParams) }.     (* requests given to execute_supabase_function *)

Definition M (A : Type) : Type := World -> outcome A * World.

Definition ret {A} (a : A) : M A := fun w => (Returns a, w).
Definition raise {A} (e : exn) : M A := fun w => (Raises e, w).
Definition bind {A B} (m : M A) (k : A -> M B) : M B :=
  fun w => match m w with
           | (Returns a, w') => k a w'
           | (Raises e, w') => (Raises e, w')
           end.
Definition lift {A} (o : outcome A) : M A := fun w => (o, w).

(** [try: body  except Exception as e: handler e] *)
Definition try_except {A} (body : M A) (handler : exn -> M A) : M A :=
  fun w => match body w with
           | (Raises e, w') => if is_Exception e then handler e w' else (Raises e, w')
           | r => r
           end.

Notation "'let*' x ':=' c1 'in' c2" := (bind c1 (fun x => c2))
  (at level 10, x name, c1 at level 100, c2 at level 200).
Notation "c1 ';;;' c2" := (bind c1 (fun _ => c2))
  (at level 100, c2 at level 200, right associativity).

Definition get_world : M World := fun w => (Returns w, w).
Definition put_user_info (u : option UserInfo) : M unit :=
  fun w => (Returns tt, mkWorld u (clock w) (profile_writes w) (rpc_log w)).
Definition log_profile_write (id t : string) : M unit :=
  fun w => (Returns tt, mkWorld (user_info w) (clock w) (profile_writes w ++ [(id, t)]) (rpc_log w)).
Definition log_rpc (fn : string) (p : RpcParams) : M unit :=
  fun w => (Returns tt, mkWorld (user_info w) (clock w) (profile_writes w) (rpc_log w ++ [(fn, p)])).

(** [for x in l: body x] *)
Fixpoint for_each {A} (l : list A) (body : A -> M unit) : M unit :=
  match l with
  | [] => ret tt
  | x :: l' => body x ;;; for_each l' body
  end.

(** ** External collaborators *)

(** The answer of a collaborator outside the repository (the Supabase
    client, the sample-data module as imported, [json.loads]): a value, or
    a failure, which reaches the code as an ordinary [Exception]. *)
Inductive external (A : Type) :=
| Ok (a : A)
| Failed (msg : string).
Arguments Ok {A} a.
Arguments Failed {A} msg.

Definition call {A} (x : external A) : M A :=
  match x with
  | Ok a => ret a
  | Failed msg => raise (ExternalError msg)
  end.

(** The signed-in user together with their row of [user_profiles], as
    [select("tier")] returns it: the row always has the "tier" key, and its
    value is a name or, for a NULL column, [None]. *)
Record Profile := mkProfile {
  p_id : string;
  p_email : string;
  p_tier : tier_value }.

(** The module-level Supabase client of [tier_control.py]. *)
Record SupabaseClient := mkSupabaseClient {
  (* auth.get_user() followed by the user_profiles query: the signed-in
     user's row, [None] when there is no user or no row *)
  fetch_profile : external (option Profile);
  (* table("user_profiles").update({"tier": t}).eq("id", id).execute() *)
  update_profile_tier : string -> string -> external unit }.

(** Everything the code reads from outside itself. *)
Record Env := mkEnv {
  (* datetime.datetime.now().isoformat() at the n-th reading *)
  isoformat_at : nat -> string;
  (* widgets of the current script run, by label *)
  st_button : string -> bool;
  st_checkbox : string -> bool;
  (* tier_control.supabase *)
  supabase : option SupabaseClient;
  (* pandas' parser of numeric strings; [None] when the text is no number *)
  str_to_numeric : string -> option Q;
  (* binary64 product, quotient and rounding to one decimal, on the values *)
  float_mul : Q -> Q -> Q;
  float_div : Q -> Q -> Q;
  float_round1 : Q -> Q;
  (* json.loads *)
  json_loads : string -> external pyval;
  (* data_access.get_supabase_client() and its rpc(fn, params).execute().data:
     the rows returned, each whatever JSON value the remote function gives *)
  get_supabase_client : option (string -> RpcParams -> external (list pyval));
  (* utils.sample_data; for the map data, the list under the "data" key *)
  get_sample_map_data : external (list pydict);
  get_sample_demographic_data : external pydict;
  get_sample_market_insights : external pydict }.

(** ** pandas, as far as [clean_lat_lon] and the score column use it *)

Module Pandas.

(** Rows are dictionaries over the frame's columns, in column order. *)
Record DataFrame := mkDataFrame {
  df_columns : list string;
  df_rows : list pydict }.

Definition add_column (cols : list string) (c : string) : list string :=
  if str_in c cols then cols else cols ++ [c].

(** Columns of [pd.DataFrame(records)]: the keys in order of first appearance. *)
Definition all_columns (records : list pydict) : list string :=
  fold_left (fun cols r => fold_left add_column (dict_keys r) cols) records [].

(** The records are laid out on the columns, a missing key becoming NaN,
    and pandas infers a type for each column of cells.  A column whose
    cells are all numbers, [None] or NaN, with a number or NaN among them,
    becomes a numeric column: its [None] cells become NaN (and, beside a
    float or a NaN, its integers become floats of the same value, which
    the rationals do not tell apart; integers are taken within the range
    that binary64 holds exactly).  Every other column (text, booleans,
    lists, dictionaries, or nothing but [None]) stays a column of objects
    and keeps its cells. *)
Definition float_cell (v : pyval) : bool :=
  match v with PNum _ | PNone | PNaN => true | _ => false end.
Definition float_seen (v : pyval) : bool :=
  match v with PNum _ | PNaN => true | _ => false end.
Definition is_float_column (cells : list pyval) : bool :=
  forallb float_cell cells && existsb float_seen cells.

Definition as_float (v : pyval) : pyval :=
  match v with PNone => PNaN | _ => v end.

(** The cells of column [c] over the records. *)
Definition column_cells (c : string) (records : list pydict) : list pyval :=
  map (dict_get_default c PNaN) records.

(** The cell of record [r] in column [c] of the frame built from
    [records]; a missing key is NaN. *)
Definition frame_cell (records : list pydict) (c : string) (r : pydict) : pyval :=
  let v := dict_get_default c PNaN r in
  if is_float_column (column_cells c records) then as_float v else v.

(** A record as a row of the frame built from [records]. *)
Definition lay_out (records : list pydict) (cols : list string) (r : pydict) : pydict :=
  map (fun c => (c, frame_cell records c r)) cols.

Definition from_records (records : list pydict) : DataFrame :=
  let cols := all_columns records in
  mkDataFrame cols (map (lay_out records cols) records).

Fixpoint as_records (l : list pyval) : option (list pydict) :=
  match l with
  | [] => Some []
  | PDict d :: l' => option_map (cons d) (as_records l')
  | _ :: _ => None
  end.

(** [pd.DataFrame(l)] for a list.  A list of dictionaries gives one row per
    dictionary; when the first element is a dictionary and a later one is
    not, the constructor fails; when the first element is no dictionary
    the columns are positions, so the frame has no named column. *)
Definition frame_of_list (l : list pyval) : outcome DataFrame :=
  match l with
  | PDict _ :: _ =>
      match as_records l with
      | Some records => Returns (from_records records)
      | None => Raises (AttributeError "keys")
      end
  | [] => Returns (from_records [])
  | _ :: _ => Returns (mkDataFrame [] (map (fun _ => []) l))
  end.

(** What [clean_lat_lon] and [apply_tier_limit] are given: a plain value or
    a DataFrame. *)
Inductive dataset :=
| DVal (v : pyval)
| DFrame (df : DataFrame).

(** [df[c]]: the column must exist. *)
Definition column (c : string) (df : DataFrame) : outcome (list pyval) :=
  if str_in c (df_columns df)
  then Returns (map (fun r => dict_get_default c PNaN r) (df_rows df))
  else Raises (KeyError c).

(** A cell of a row *)
Definition cell (c : string) (r : pydict) : pyval := dict_get_default c PNaN r.

(** [df[c] = e] where the series [e] is computed row by row; a new column
    goes last. *)
Definition assign (c : string) (e : pydict -> pyval) (df : DataFrame) : DataFrame :=
  mkDataFrame (add_column (df_columns df) c)
    (map (fun r => dict_set c (e r) r) (df_rows df)).

(** [df[mask]] with the mask computed row by row. *)
Definition select_rows (keep : pydict -> bool) (df : DataFrame) : DataFrame :=
  mkDataFrame (df_columns df) (List.filter keep (df_rows df)).

Definition isna (v : pyval) : bool :=
  match v with PNone | PNaN => true | _ => false end.

(** [df.dropna(subset=cols)] *)
Definition dropna (subset : list string) (df : DataFrame) : DataFrame :=
  select_rows (fun r => forallb (fun c => negb (isna (cell c r))) subset) df.

(** [pd.to_numeric(x, errors='coerce')] on one cell.  A bool counts as 0 or
    1; text goes through the parser; anything else is NaN.  Infinite
    floats are not represented: the parser answers [None] for them, and
    they fail the range tests of [clean_lat_lon] just as NaN fails
    [dropna]. *)
Definition to_numeric (env : Env) (v : pyval) : pyval :=
  match v with
  | PNum q => PNum q
  | PBool b => PNum (if b then 1 else 0)%Q
  | PStr s => match str_to_numeric env s with Some q => PNum q | None => PNaN end
  | _ => PNaN
  end.

(** [cell >= c], [cell <= c] on a numeric column: false on NaN. *)
Definition cell_ge (c : Q) (v : pyval) : bool :=
  match v with PNum q => Qle_bool c q | _ => false end.
Definition cell_le (c : Q) (v : pyval) : bool :=
  match v with PNum q => Qle_bool q c | _ => false end.

(** [df.to_dict(orient="records")] *)
Definition to_records (df : DataFrame) : pyval := PList (map PDict (df_rows df)).

End Pandas.
Export Pandas.

(** ** [github_export/utils/tier_control.py] *)

Module TierControl.

(** A feature flag: a boolean, or a text describing the limitation. *)
Inductive FeatureAccess :=
| FBool (b : bool)
| FText (s : string).

Record TierDef := mkTierDef {
  level : Z;
  price : string;
  description : string;
  data_percentage : Z;
  features : list (string * FeatureAccess);
  color : string;
  icon : string }.

Definition TIER_DEFINITIONS : list (string * TierDef) :=
  [ ("Free",
     mkTierDef 0 "Free" "Basic access to explore market intelligence" 10
       [ ("market_map", FText "Limited to 10% of data points");
         ("export", FBool false);
         ("detailed_analysis", FBool false);
         ("api_access", FBool false);
         ("support", FText "Community forum") ]
       "#3498db" "🔹");
    ("Accelerate",
     mkTierDef 1 "$49/month" "Enhanced access for growing businesses" 50
       [ ("market_map", FText "Access to 50% of data points");
         ("export", FBool true);
         ("detailed_analysis", FBool true);
         ("api_access", FBool false);
         ("support", FText "Email support") ]
       "#f39c12" "🔸");
    ("Scale",
     mkTierDef 2 "$199/month" "Full enterprise access with advanced features" 100
       [ ("market_map", FText "Full access to all data points");
         ("export", FBool true);
         ("detailed_analysis", FBool true);
         ("api_access", FBool true);
         ("support", FText "Priority support & training") ]
       "#27ae60" "⭐") ].

(** Field updates of [user_info]. *)
Definition with_tier (v : tier_value) (u : UserInfo) : UserInfo :=
  mkUserInfo (Some v) (ui_name u) (ui_email u) (ui_id u) (ui_last_active u)
    (ui_login_time u) (ui_feature_usage u) (ui_data_access_count u)
    (ui_tier_change_time u) (ui_tier_history u).
Definition with_email (v : string) (u : UserInfo) : UserInfo :=
  mkUserInfo (ui_tier u) (ui_name u) (Some v) (ui_id u) (ui_last_active u)
    (ui_login_time u) (ui_feature_usage u) (ui_data_access_count u)
    (ui_tier_change_time u) (ui_tier_history u).
Definition with_id (v : string) (u : UserInfo) : UserInfo :=
  mkUserInfo (ui_tier u) (ui_name u) (ui_email u) (Some v) (ui_last_active u)
    (ui_login_time u) (ui_feature_usage u) (ui_data_access_count u)
    (ui_tier_change_time u) (ui_tier_history u).
Definition with_last_active (v : string) (u : UserInfo) : UserInfo :=
  mkUserInfo (ui_tier u) (ui_name u) (ui_email u) (ui_id u) (Some v)
    (ui_login_time u) (ui_feature_usage u) (ui_data_access_count u)
    (ui_tier_change_time u) (ui_tier_history u).
Definition with_login_time (v : string) (u : UserInfo) : UserInfo :=
  mkUserInfo (ui_tier u) (ui_name u) (ui_email u) (ui_id u) (ui_last_active u)
    (Some v) (ui_feature_usage u) (ui_data_access_count u)
    (ui_tier_change_time u) (ui_tier_history u).
Definition with_feature_usage (v : gmap string Z) (u : UserInfo) : UserInfo :=
  mkUserInfo (ui_tier u) (ui_name u) (ui_email u) (ui_id u) (ui_last_active u)
    (ui_login_time u) (Some v) (ui_data_access_count u)
    (ui_tier_change_time u) (ui_tier_history u).
Definition with_data_access_count (v : Z) (u : UserInfo) : UserInfo :=
  mkUserInfo (ui_tier u) (ui_name u) (ui_email u) (ui_id u) (ui_last_active u)
    (ui_login_time u) (ui_feature_usage u) (Some v)
    (ui_tier_change_time u) (ui_tier_history u).
Definition with_tier_change_time (v : string) (u : UserInfo) : UserInfo :=
  mkUserInfo (ui_tier u) (ui_name u) (ui_email u) (ui_id u) (ui_last_active u)
    (ui_login_time u) (ui_feature_usage u) (ui_data_access_count u)
    (Some v) (ui_tier_history u).
Definition with_tier_history (v : list TierChange) (u : UserInfo) : UserInfo :=
  mkUserInfo (ui_tier u) (ui_name u) (ui_email u) (ui_id u) (ui_last_active u)
    (ui_login_time u) (ui_feature_usage u) (ui_data_access_count u)
    (ui_tier_change_time u) (Some v).

Section WithEnv.
Context (env : Env).

(** [datetime.datetime.now().isoformat()] *)
Definition now : M string :=
  fun w => (Returns (isoformat_at env (clock w)),
            mkWorld (user_info w) (S (clock w)) (profile_writes w) (rpc_log w)).

(** The module-level initialisation of [st.session_state.user_info]. *)
Definition init_session : M unit :=
  let* w := get_world in
  match user_info w with
  | Some _ => ret tt
  | None =>
      let* t1 := now in
      let* t2 := now in
      put_user_info (Some (mkUserInfo (Some (Some "Free")) (Some "Demo User")
        (Some "demo@example.com") None (Some t1) (Some t2) (Some ∅) (Some 0)
        None None))
  end.

(** [user_info] once [if "user_info" not in st.session_state: ... = {}] ran *)
Definition user_info_or_empty : M UserInfo :=
  let* w := get_world in
  match user_info w with
  | Some u => ret u
  | None => put_user_info (Some empty_user_info) ;;; ret empty_user_info
  end.

(** The tier of the signed-in user's profile row, after recording it in the
    session; [None] when there is no client, user or row, or the lookup
    raised.  The row comes from [select("tier")], so it has the "tier" key
    and [.get("tier", "Free")] reads its value, be it a name or [None]. *)
Definition tier_from_supabase : M (option tier_value) :=
  match supabase env with
  | None => ret None
  | Some client =>
      try_except
        (let* found := call (fetch_profile client) in
         match found with
         | None => ret None
         | Some p =>
             let tier := p_tier p in
             let* u := user_info_or_empty in
             let u := with_email (p_email p) (with_id (p_id p) (with_tier tier u)) in
             let* t := now in
             let u := with_last_active t u in
             let* u :=
               match ui_login_time u with
               | Some _ => ret u
               | None => let* t' := now in ret (with_login_time t' u)
               end in
             put_user_info (Some u) ;;;
             ret (Some tier)
         end)
        (fun _ => ret None)
  end.

Definition get_user_tier : M tier_value :=
  let* w := get_world in
  match user_info w with
  | Some u =>
      match ui_tier u with
      | Some tier =>
          let* t := now in
          put_user_info (Some (with_last_active t u)) ;;;
          ret tier
      | None =>
          let* found := tier_from_supabase in
          ret (default (Some "Free") found)
      end
  | None =>
      let* found := tier_from_supabase in
      ret (default (Some "Free") found)
  end.

(** [TIER_DEFINITIONS.get(tier, TIER_DEFINITIONS["Free"])] *)
Definition tier_info (tier : string) : M TierDef :=
  let* free := lift (dict_subscript "Free" TIER_DEFINITIONS) in
  ret (dict_get_default tier free TIER_DEFINITIONS).

(** The same lookup with the session's tier: [None] is no key of the table. *)
Definition tier_info_of (tier : tier_value) : M TierDef :=
  match tier with
  | Some name => tier_info name
  | None => lift (dict_subscript "Free" TIER_DEFINITIONS)
  end.

Definition get_tier_percentage : M Z :=
  let* user_tier := get_user_tier in
  let* info := tier_info_of user_tier in
  ret (data_percentage info).

Definition set_user_tier (tier : string) : M bool :=
  if negb (dict_in tier TIER_DEFINITIONS) then ret false
  else
    let* u := user_info_or_empty in
    let previous_tier := default (Some "Free") (ui_tier u) in
    let u := with_tier (Some tier) u in
    let* t := now in
    let u := with_tier_change_time t u in
    let u := match ui_tier_history u with
             | Some _ => u
             | None => with_tier_history [] u
             end in
    let* t' := now in
    let u := with_tier_history
               (default [] (ui_tier_history u) ++ [mkTierChange previous_tier tier t']) u in
    put_user_info (Some u) ;;;
    match supabase env, ui_id u with
    | Some client, Some user_id =>
        try_except
          (call (update_profile_tier client user_id tier) ;;;
           log_profile_write user_id tier)
          (fun _ => ret tt)
    | _, _ => ret tt
    end ;;;
    ret true.

Definition track_feature_usage (feature_name : string) : M unit :=
  let* u := user_info_or_empty in
  let usage := default ∅ (ui_feature_usage u) in
  let usage := match usage !! feature_name with
               | Some _ => usage
               | None => <[feature_name := 0]> usage
               end in
  let usage := <[feature_name := default 0 (usage !! feature_name) + 1]> usage in
  let u := with_feature_usage usage u in
  let u := match ui_data_access_count u with
           | Some _ => u
           | None => with_data_access_count 0 u
           end in
  let u := with_data_access_count (default 0 (ui_data_access_count u) + 1) u in
  put_user_info (Some u).

Definition can_access_feature (feature_name : string) : M bool :=
  let* user_tier := get_user_tier in
  let* info := tier_info_of user_tier in
  if dict_in feature_name (features info) then
    let* feature_access := lift (dict_subscript feature_name (features info)) in
    match feature_access with
    | FBool b => ret b
    | FText _ => ret true
    end
  else ret false.

Definition get_feature_limitations (feature_name : string) : M (option string) :=
  let* user_tier := get_user_tier in
  let* info := tier_info_of user_tier in
  if dict_in feature_name (features info) then
    let* feature_access := lift (dict_subscript feature_name (features info)) in
    match feature_access with
    | FBool _ => ret None
    | FText s => ret (Some s)
    end
  else ret None.

(** [hex_color.lstrip('#')] *)
Fixpoint lstrip_hash (s : string) : string :=
  match s with
  | String c s' => if Ascii.eqb c (Ascii.ascii_of_nat 35) then lstrip_hash s' else s
  | EmptyString => EmptyString
  end.

Definition hex_digit (c : Ascii.ascii) : option Z :=
  let n := Z.of_N (Ascii.N_of_ascii c) in
  if (48 <=? n) && (n <=? 57) then Some (n - 48)
  else if (97 <=? n) && (n <=? 102) then Some (n - 87)
  else if (65 <=? n) && (n <=? 70) then Some (n - 55)
  else None.

Fixpoint hex_digits (acc : Z) (s : string) : option Z :=
  match s with
  | EmptyString => Some acc
  | String c s' =>
      match hex_digit c with
      | Some d => hex_digits (16 * acc + d) s'
      | None => None
      end
  end.

(** [int(s, 16)] on a string of hexadecimal digits; the signed, spaced and
    underscored spellings that [int] also reads are not modelled. *)
Definition int16 (s : string) : outcome Z :=
  match s with
  | EmptyString => Raises (ValueError "invalid literal for int() with base 16")
  | _ => match hex_digits 0 s with
         | Some n => Returns n
         | None => Raises (ValueError "invalid literal for int() with base 16")
         end
  end.

(** The three channels as the fractions [n / 255]. *)
Definition hex_to_rgb (hex_color : string) : outcome (Q * Q * Q) :=
  let hex_color := lstrip_hash hex_color in
  match int16 (String.substring 0 2 hex_color),
        int16 (String.substring 2 2 hex_color),
        int16 (String.substring 4 2 hex_color) with
  | Returns r, Returns g, Returns b =>
      Returns ((r # 255)%Q, (g # 255)%Q, (b # 255)%Q)
  | Raises e, _, _ | _, Raises e, _ | _, _, Raises e => Raises e
  end.

(** [tier_name == user_tier] *)
Definition is_tier (tier_name : string) (user_tier : tier_value) : bool :=
  match user_tier with
  | Some name => String.eqb tier_name name
  | None => false
  end.

(** One column of the plan comparison.  The markup is not modelled; what
    remains is what can raise and what the upgrade button does. *)
Definition upgrade_column (user_tier : tier_value) (required_tier : string)
    (required_level : Z) (item : string * TierDef) : M unit :=
  let tier_name := fst item in
  let tier_data := snd item in
  (if is_tier tier_name user_tier then ret tt
   else if String.eqb tier_name required_tier then
     let* _ := lift (hex_to_rgb (color tier_data)) in ret tt
   else ret tt) ;;;
  let* this := lift (dict_subscript tier_name TIER_DEFINITIONS) in
  if required_level <=? level this then
    if st_button env ("Upgrade to " +:+ tier_name) then
      set_user_tier tier_name ;;; raise RerunException
    else ret tt
  else ret tt.

(** A button of the demo controls. *)
Definition switch_button (label tier : string) : M unit :=
  if st_button env label then set_user_tier tier ;;; raise RerunException
  else ret tt.

Definition enforce_tier (required_tier : string) : M bool :=
  let* user_tier := get_user_tier in
  let* user_def := tier_info_of user_tier in
  let user_level := level user_def in
  let* required_def := tier_info required_tier in
  let required_level := level required_def in
  (if user_level <? required_level then
     (* the upgrade page; its heading reads
        TIER_DEFINITIONS[required_tier]['color'] *)
     let* _ := lift (dict_subscript required_tier TIER_DEFINITIONS) in
     for_each TIER_DEFINITIONS (upgrade_column user_tier required_tier required_level) ;;;
     switch_button "Switch to Free Tier" "Free" ;;;
     switch_button "Switch to Accelerate Tier" "Accelerate" ;;;
     switch_button "Switch to Scale Tier" "Scale" ;;;
     (if st_checkbox env "View Session Info" then
        (* st.session_state.user_info.copy() *)
        let* w := get_world in
        match user_info w with
        | Some _ => ret tt
        | None => raise (AttributeError "user_info")
        end
      else ret tt) ;;;
     (* st.stop() *)
     raise StopException
   else ret tt) ;;;
  track_feature_usage ("access_" +:+ required_tier +:+ "_feature") ;;;
  ret true.

(** [bool(v)] *)
Definition truthy (v : pyval) : bool :=
  match v with
  | PNone => false
  | PNaN => true
  | PBool b => b
  | PNum q => negb (Qeq_bool q 0)
  | PStr s => match s with EmptyString => false | _ => true end
  | PList l => match l with [] => false | _ => true end
  | PDict d => match d with [] => false | _ => true end
  end.

Definition limit_size (n tier_percentage : Z) : Z :=
  Z.max 1 (int_percent n tier_percentage).

Definition PInt (n : Z) : pyval := PNum (inject_Z n).

(** The [meta] note of an API-style response.  In the source an existing
    [meta] dictionary is shared with the caller's response and updated in
    place; here the updated copy is returned. *)
Definition tier_meta (d : pydict) (tier_percentage showing total : Z) : outcome pydict :=
  let d := if dict_in "meta" d then d else dict_set "meta" (PDict []) d in
  match dict_get "meta" d with
  | Some (PDict meta) =>
      let meta := dict_set "tier_limited" (PBool true) meta in
      let meta := dict_set "tier_percentage" (PInt tier_percentage) meta in
      let meta := dict_set "showing" (PInt showing) meta in
      let meta := dict_set "total" (PInt total) meta in
      Returns (dict_set "meta" (PDict meta) d)
  | _ => Raises (TypeError "object does not support item assignment")
  end.

Definition apply_tier_limit (data : dataset) (tier_percentage : option Z) : M dataset :=
  let* tier_percentage :=
    match tier_percentage with
    | Some p => ret p
    | None => get_tier_percentage
    end in
  match data with
  | DFrame df =>
      (* [not data] on a DataFrame *)
      raise (ValueError "The truth value of a DataFrame is ambiguous")
  | DVal v =>
      if negb (truthy v) then ret data
      else if 100 <=? tier_percentage then ret data
      else
        match v with
        | PList l =>
            ret (DVal (PList (slice_to (limit_size (len l) tier_percentage) l)))
        | PDict d =>
            match dict_get "data" d with
            | Some (PList l) =>
                let limit := limit_size (len l) tier_percentage in
                let data_copy := dict_set "data" (PList (slice_to limit l)) d in
                let* data_copy := lift (tier_meta data_copy tier_percentage limit (len l)) in
                ret (DVal (PDict data_copy))
            | _ => ret data
            end
        | _ => ret data
        end
  end.

(** The wrapper that [tier_limited] puts around [func]: [required_tier] and
    [feature_name] are the popped keyword arguments ([None] when absent),
    [func_name] is [func.__name__], and [func] the call of the wrapped
    function on the arguments that remain. *)
Definition tier_limited {A} (func_name : string) (func : M A)
    (required_tier feature_name : option string) : M A :=
  let required_tier := default "Free" required_tier in
  let feature_name := default func_name feature_name in
  (* Track attempted usage *)
  track_feature_usage ("attempt_" +:+ feature_name) ;;;
  let* allowed := enforce_tier required_tier in
  if allowed then
    (* Track successful usage *)
    track_feature_usage feature_name ;;;
    func
  else
    (* If enforce_tier doesn't stop execution, stop here *)
    raise StopException.

(** [container] only chooses where the button is drawn; the widget is read
    by its label. *)
Definition render_upgrade_button (required_tier : string) (button_text : option string)
    : M bool :=
  let* user_tier := get_user_tier in
  let* user_def := tier_info_of user_tier in
  let user_level := level user_def in
  let* required_def := tier_info required_tier in
  let required_level := level required_def in
  (* Only show the button if an upgrade is needed *)
  if user_level <? required_level then
    let button_text :=
      match button_text with
      | Some (String c t) => String c t
      | _ => "Upgrade to " +:+ required_tier +:+ " Tier"
      end in
    ret (st_button env button_text)
  else ret false.

End WithEnv.
End TierControl.

(** ** [darg_github_export_updated/utils/data_access.py] *)

Module DataAccess.
Section WithEnv.
Context (env : Env).

Definition clean_lat_lon (data : dataset) (lat_col lon_col : string) : outcome DataFrame :=
  let+ df :=
    match data with
    | DVal (PList l) => frame_of_list l
    | DFrame df => Returns df
    | DVal _ => Raises (ValueError "Input must be a list of dicts or a DataFrame")
    end in
  (* Convert to numeric, force errors to NaN *)
  let+ _ := column lat_col df in
  let df := assign lat_col (fun r => to_numeric env (cell lat_col r)) df in
  let+ _ := column lon_col df in
  let df := assign lon_col (fun r => to_numeric env (cell lon_col r)) df in
  (* Drop rows with missing or out-of-bounds coordinates *)
  let df := dropna [lat_col; lon_col] df in
  let df := select_rows (fun r => cell_ge (-90) (cell lat_col r) && cell_le 90 (cell lat_col r)) df in
  let df := select_rows (fun r => cell_ge (-180) (cell lon_col r) && cell_le 180 (cell lon_col r)) df in
  Returns df.

(** Tier access percentages *)
Definition TIER_ACCESS : list (string * Z) :=
  [ ("Free", 33); ("Accelerate", 66); ("Scale", 100) ].

(** [get_user_tier] is imported from the package's own [utils.tier_control];
    the one of [github_export] is the one among the sources. *)
Definition get_tier_percentage : M Z :=
  let* tier := TierControl.get_user_tier env in
  ret (match tier with
       | Some name => dict_get_default name 33 TIER_ACCESS
       | None => 33
       end).

Definition error_dict (reason : string) : pyval := PDict [("error", PStr reason)].

(** [isinstance(result, dict) and "error" in result] *)
Definition is_error_dict (v : pyval) : bool :=
  match v with
  | PDict d => dict_in "error" d
  | _ => false
  end.

(** The first row of the answer is returned whatever it is. *)
Definition execute_supabase_function (function_name : string) (params : RpcParams) : M pyval :=
  log_rpc function_name params ;;;
  match get_supabase_client env with
  | None => ret (error_dict "Supabase client not available")
  | Some rpc =>
      try_except
        (let* data := call (rpc function_name params) in
         match data with
         | row :: _ => ret row
         | [] => ret (error_dict "No data returned from Supabase function")
         end)
        (fun e => ret (error_dict (str_exn e)))
  end.

(** [json.loads(data)] when [data] is a string; kept as it is when parsing
    fails (the bare [except]) *)
Definition parse_if_str (data : pyval) : pyval :=
  match data with
  | PStr s => match json_loads env s with
              | Ok v => v
              | Failed _ => data
              end
  | _ => data
  end.

(** [result.get(name) if name in result else result] *)
Definition extract (name : string) (result : pyval) : outcome pyval :=
  let+ wrapped := py_in name result in
  if wrapped then py_get name result else Returns result.

(** [city["state"] in state_filter] *)
Definition state_matches (state : pyval) (state_filter : list string) : bool :=
  match state with
  | PStr s => str_in s state_filter
  | _ => false
  end.

(** [[city for city in cities if city["state"] in state_filter]] *)
Fixpoint filter_by_state (state_filter : list string) (cities : list pydict)
    : outcome (list pydict) :=
  match cities with
  | [] => Returns []
  | city :: rest =>
      let+ state := dict_subscript "state" city in
      let+ kept := filter_by_state state_filter rest in
      Returns (if state_matches state state_filter then city :: kept else kept)
  end.

Definition records_val (records : list pydict) : pyval := PList (map PDict records).

(** The sample-data branch of [get_map_data], inside the outer [try] *)
Definition map_fallback (state_filter : option (list string)) (tier_percentage : Z)
    : M pyval :=
  let* sample_data := call (get_sample_map_data env) in
  (* Apply state filter if provided *)
  let* sample_data :=
    match state_filter with
    | Some (s :: l) => lift (filter_by_state (s :: l) sample_data)
    | _ => ret sample_data
    end in
  (* Apply tier-based filtering *)
  let sample_data :=
    if tier_percentage <? 100
    then slice_to (int_percent (len sample_data) tier_percentage) sample_data
    else sample_data in
  (* Clean fallback data before returning *)
  try_except
    (let* df := lift (clean_lat_lon (DVal (records_val sample_data)) "latitude" "longitude") in
     ret (PDict [("data", to_records df)]))
    (fun _ => ret (PDict [("data", records_val sample_data);
                          ("error", PStr "Lat/lon cleaning failed")])).

Definition get_map_data (state_filter : option (list string)) : M pyval :=
  let* tier_percentage := get_tier_percentage in
  let params := mkRpcParams tier_percentage state_filter None in
  let* result := execute_supabase_function "get_map_data_with_tooltips" params in
  (* If that doesn't work, try alternative function names *)
  let* result :=
    if is_error_dict result
    then execute_supabase_function "get_enhanced_map_data" params
    else ret result in
  (* Process the result: this test and the reading of the reason in the
     warning come before the [try] *)
  let* failed := lift (py_in "error" result) in
  if failed then
    let* reason := lift (py_subscript "error" result) in
    try_except
      (map_fallback state_filter tier_percentage)
      (fun _ => ret (PDict [("data", PList []); ("error", reason)]))
  else
    (* Extract the data from the result *)
    let* data := lift (extract "get_map_data_with_tooltips" result) in
    let data := parse_if_str data in
    try_except
      (let* df := lift (clean_lat_lon (DVal data) "latitude" "longitude") in
       ret (PDict [("data", to_records df)]))
      (fun _ => ret (PDict [("data", data); ("error", PStr "Lat/lon cleaning failed")])).

(** [if key in d: limit = max(1, int(len(d[key]) * p / 100)); d[key] = d[key][:limit]] *)
Definition limit_field (key : string) (tier_percentage : Z) (d : pydict) : outcome pydict :=
  if dict_in key d then
    let+ v := dict_subscript key d in
    let+ n := py_len v in
    let limit := Z.max 1 (int_percent n tier_percentage) in
    let+ v' := py_slice_to limit v in
    Returns (dict_set key v' d)
  else Returns d.

(** The sample-data branch of [get_demographic_summary], inside the [try] *)
Definition demographic_fallback (tier_percentage : Z) : M pyval :=
  let* sample_data := call (get_sample_demographic_data env) in
  let* sample_data :=
    if tier_percentage <? 100
    then lift (limit_field "summary" tier_percentage sample_data)
    else ret sample_data in
  ret (PDict sample_data).

Definition get_demographic_summary (state_filter : option (list string)) : M pyval :=
  let* tier_percentage := get_tier_percentage in
  let params := mkRpcParams tier_percentage state_filter None in
  let* result := execute_supabase_function "get_demographic_summary" params in
  (* If that fails, try alternative function name *)
  let* result :=
    if is_error_dict result
    then execute_supabase_function "get_demographic_and_psychographic_metrics" params
    else ret result in
  (* Process the result *)
  let* failed := lift (py_in "error" result) in
  if failed then
    let* reason := lift (py_subscript "error" result) in
    try_except
      (demographic_fallback tier_percentage)
      (fun _ => ret (PDict [("summary", PList []); ("error", reason)]))
  else
    let* data := lift (extract "get_demographic_summary" result) in
    ret (parse_if_str data).

(** The sample-data branch of [get_market_insights], inside the [try] *)
Definition insights_fallback (tier_percentage : Z) : M pyval :=
  let* sample_data := call (get_sample_market_insights env) in
  let* sample_data :=
    if tier_percentage <? 100 then
      let* sample_data := lift (limit_field "by_state" tier_percentage sample_data) in
      lift (limit_field "by_segment" tier_percentage sample_data)
    else ret sample_data in
  ret (PDict sample_data).

Definition get_market_insights (state_filter : option (list string)) (metric_column : string)
    : M pyval :=
  let* tier_percentage := get_tier_percentage in
  let params := mkRpcParams tier_percentage state_filter (Some metric_column) in
  let* result := execute_supabase_function "generate_market_insights" params in
  (* Process the result *)
  let* failed := lift (py_in "error" result) in
  if failed then
    let* reason := lift (py_subscript "error" result) in
    try_except
      (insights_fallback tier_percentage)
      (fun _ => ret (PDict [("by_state", PList []); ("by_segment", PList []);
                            ("error", reason)]))
  else
    let* data := lift (extract "generate_market_insights" result) in
    ret (parse_if_str data).

End WithEnv.

(** *** The dashboard helpers *)

Section Dashboard.
Context (env : Env).
(** [sorted(l, key=lambda x: x.get("avg_value", 0), reverse=True)] on a list
    of dictionaries; [None] when comparing two keys raises [TypeError]. *)
Context (sorted_by_avg_value : list pydict -> option (list pydict)).
(** [round(x, 1)] on a float or an int *)
Context (round1 : Q -> Q).

(** The region shown when nothing better is known *)
Definition SAMPLE_REGION : pyval :=
  PDict [ ("region_name", PStr "Southwest Region");
          ("growth_rate", PNum (24 # 1));
          ("market_value", PNum (142 # 10));
          ("state_code", PStr "TX");
          ("_source", PStr "sample") ].

Definition state_region_map : list (string * string) :=
  [ ("CA", "West Coast"); ("OR", "Pacific Northwest"); ("WA", "Pacific Northwest");
    ("NY", "Northeast"); ("MA", "Northeast"); ("CT", "Northeast");
    ("TX", "Southwest"); ("AZ", "Southwest"); ("NM", "Southwest");
    ("FL", "Southeast"); ("GA", "Southeast"); ("NC", "Southeast");
    ("IL", "Midwest"); ("OH", "Midwest"); ("MI", "Midwest") ].

(** [v.get]: only a dictionary has it. *)
Definition as_dict (v : pyval) : outcome pydict :=
  match v with
  | PDict d => Returns d
  | _ => Raises (AttributeError "get")
  end.

Fixpoint as_dicts (l : list pyval) : outcome (list pydict) :=
  match l with
  | [] => Returns []
  | v :: l' =>
      let+ d := as_dict v in
      let+ ds := as_dicts l' in
      Returns (d :: ds)
  end.

(** [sorted(v, key=lambda x: x.get("avg_value", 0), reverse=True)] for a
    truthy [v]: the key is taken of every element first; the elements of
    a dictionary or a string are strings, which have no [get]; anything
    else is not iterable. *)
Definition sorted_desc (v : pyval) : outcome (list pydict) :=
  match v with
  | PList l =>
      let+ ds := as_dicts l in
      match sorted_by_avg_value ds with
      | Some sorted => Returns sorted
      | None => Raises (TypeError "'<' not supported")
      end
  | PDict _ | PStr _ => Raises (AttributeError "get")
  | _ => Raises (TypeError "object is not iterable")
  end.

(** [l[0]]; the [IndexError] of an empty list is a [LookupError] like
    [KeyError]. *)
Definition first_of {A} (l : list A) : outcome A :=
  match l with
  | x :: _ => Returns x
  | [] => Raises (KeyError "0")
  end.

(** [state_region_map.get(state_code, "Other Region")]: a list or a dict is
    unhashable. *)
Definition region_of (state_code : pyval) : outcome string :=
  match state_code with
  | PStr s => Returns (dict_get_default s "Other Region" state_region_map)
  | PList _ | PDict _ => Raises (TypeError "unhashable type")
  | _ => Returns "Other Region"
  end.

(** [v / k] for a positive number [k] *)
Definition divided_by (k : Q) (v : pyval) : outcome pyval :=
  match v with
  | PNum q => Returns (PNum (float_div env q k))
  | PBool b => Returns (PNum (float_div env (if b then 1 else 0) k))
  | PNaN => Returns PNaN
  | _ => Raises (TypeError "unsupported operand type(s) for /")
  end.

(** [round(v, 1)] *)
Definition rounded (v : pyval) : outcome pyval :=
  match v with
  | PNum q => Returns (PNum (round1 q))
  | PBool b => Returns (PNum (if b then 1 else 0))
  | PNaN => Returns PNaN
  | _ => Raises (TypeError "type doesn't define __round__ method")
  end.

(** The [try] block of [get_region_growth_data]: [None] when it ends without
    a [return]. *)
Definition region_growth_body : M (option pyval) :=
  let* insights := get_market_insights env None "growth_rate" in
  if is_error_dict insights then ret (Some SAMPLE_REGION)
  else
    (* Extract region with highest growth from the insights *)
    let* d := lift (as_dict insights) in
    let state_insights := dict_get_default "by_state" (PList []) d in
    if TierControl.truthy state_insights then
      let* sorted_states := lift (sorted_desc state_insights) in
      let* top_state := lift (first_of sorted_states) in
      let state_code := dict_get_default "state" (PStr EmptyString) top_state in
      let* region_name := lift (region_of state_code) in
      let growth_rate := dict_get_default "avg_value" (PNum 0) top_state in
      let* market_value := lift (divided_by 2 growth_rate) in
      let* growth_rate' := lift (rounded growth_rate) in
      let* market_value' := lift (rounded market_value) in
      ret (Some (PDict [ ("region_name", PStr region_name);
                         ("growth_rate", growth_rate');
                         ("market_value", market_value');
                         ("state_code", state_code);
                         ("_source", PStr "api") ]))
    else ret None.

Definition get_region_growth_data : M pyval :=
  let* returned := try_except region_growth_body (fun _ => ret None) in
  (* Default return if anything fails *)
  ret (default SAMPLE_REGION returned).

Definition sample_segment (name : string) (rate : Q) : pyval :=
  PDict [ ("segment_name", PStr name); ("conversion_rate", PNum rate);
          ("_source", PStr "sample") ].

Definition SAMPLE_SEGMENTS : list pyval :=
  [ sample_segment "Empathetic Dreamers" (32 # 1);
    sample_segment "Practical Realists" (285 # 10);
    sample_segment "Analytical Thinkers" (242 # 10);
    sample_segment "Community Builders" (197 # 10);
    sample_segment "Innovation Seekers" (183 # 10) ].

(** [min(100, max(1, v))] for a number [v]: [max] keeps 1 unless [v > 1],
    [min] keeps 100 unless the result is below 100; NaN compares false. *)
Definition clamp_rate (v : pyval) : pyval :=
  let m := match v with
           | PNum q => if Qle_bool q 1 then PNum 1 else PNum q
           | _ => PNum 1
           end in
  match m with
  | PNum q => if Qle_bool 100 q then PNum 100 else PNum q
  | _ => m
  end.

(** One entry of the simplified format for the dashboard *)
Definition segment_entry (segment : pydict) : outcome pyval :=
  let segment_name := dict_get_default "segment_name" (PStr "Unknown") segment in
  let avg_value := dict_get_default "avg_value" (PNum 0) segment in
  let+ third := divided_by 3 avg_value in
  let+ r := rounded third in
  Returns (PDict [ ("segment_name", segment_name);
                   ("conversion_rate", clamp_rate r);
                   ("_source", PStr "api") ]).

Fixpoint segment_entries (segments : list pydict) : outcome (list pyval) :=
  match segments with
  | [] => Returns []
  | segment :: rest =>
      let+ e := segment_entry segment in
      let+ es := segment_entries rest in
      Returns (e :: es)
  end.

(** The [try] block of [get_top_segments] *)
Definition top_segments_body (limit : Z) : M (option pyval) :=
  let* insights := get_market_insights env None "value" in
  if is_error_dict insights then ret (Some (PList (slice_to limit SAMPLE_SEGMENTS)))
  else
    let* d := lift (as_dict insights) in
    let segment_insights := dict_get_default "by_segment" (PList []) d in
    if TierControl.truthy segment_insights then
      let* sorted_segments := lift (sorted_desc segment_insights) in
      let top_segments := slice_to limit sorted_segments in
      let* result := lift (segment_entries top_segments) in
      ret (Some (PList result))
    else ret None.

Definition get_top_segments (limit : Z) : M pyval :=
  let* returned := try_except (top_segments_body limit) (fun _ => ret None) in
  ret (default (PList [sample_segment "Empathetic Dreamers" (32 # 1)]) returned).

End Dashboard.
End DataAccess.

(** ** The opportunity score of [components/opportunity_map.py] *)

Module OpportunityMap.
Section WithEnv.
Context (env : Env).

(** A cell as a float operand: a number, NaN, or something arithmetic
    rejects. *)
Definition operand (v : pyval) : outcome (option Q) :=
  match v with
  | PNum q => Returns (Some q)
  | PBool b => Returns (Some (if b then 1 else 0)%Q)
  | PNaN | PNone => Returns None
  | _ => Raises (TypeError "unsupported operand type(s)")
  end.

(** [(growth_rate * market_size / 1000).round(1)] on one row; NaN stays NaN *)
Definition opportunity_score (growth_rate market_size : option Q) : pyval :=
  match growth_rate, market_size with
  | Some g, Some m =>
      PNum (float_round1 env (float_div env (float_mul env g m) 1000))
  | _, _ => PNaN
  end.

Definition row_score (r : pydict) : outcome pyval :=
  let+ g := operand (cell "growth_rate" r) in
  let+ m := operand (cell "market_size" r) in
  Returns (opportunity_score g m).

Fixpoint with_scores (rows : list pydict) : outcome (list pydict) :=
  match rows with
  | [] => Returns []
  | r :: rest =>
      let+ score := row_score r in
      let+ rest' := with_scores rest in
      Returns (dict_set "opportunity_score" score r :: rest')
  end.

(** Lines 123-125 of [render_opportunity_map]:
    [if 'opportunity_score' not in df.columns: df['opportunity_score'] = ...] *)
Definition add_opportunity_score (df : DataFrame) : outcome DataFrame :=
  if str_in "opportunity_score" (df_columns df) then Returns df
  else
    let+ _ := column "growth_rate" df in
    let+ _ := column "market_size" df in
    let+ rows := with_scores (df_rows df) in
    Returns (mkDataFrame (add_column (df_columns df) "opportunity_score") rows).

(** [df[c] != 0] on one cell: NaN, [None] and text differ from 0. *)
Definition cell_nonzero (v : pyval) : bool :=
  match v with
  | PNum q => negb (Qeq_bool q 0)
  | PBool b => b
  | _ => true
  end.

Definition required_columns : list string :=
  ["latitude"; "longitude"; "city"; "state"; "market_size"; "growth_rate"].

(** [pd.DataFrame(map_data)] for the truthy "data" of an answer of
    [get_map_data]; an answer without an "error" key carries a list of
    records there, and only lists are modelled. *)
Definition frame_of_data (map_data : pyval) : outcome DataFrame :=
  match map_data with
  | PList l => frame_of_list l
  | _ => Raises (ValueError "DataFrame constructor not properly called!")
  end.

(** Lines 97-132 of [render_opportunity_map]: the frame the map is drawn
    from, [None] where the function returns [None, None]. *)
Definition load_map_frame (state_filter : option (list string)) : M (option DataFrame) :=
  let* map_data_response := DataAccess.get_map_data env state_filter in
  match map_data_response with
  | PDict response =>
      if dict_in "error" response then ret None
      else
        (* Extract the data portion *)
        let map_data := dict_get_default "data" (PList []) response in
        if negb (TierControl.truthy map_data) then ret None
        else
          let* df := lift (frame_of_data map_data) in
          (* Check if required columns exist *)
          if negb (forallb (fun col => str_in col (df_columns df)) required_columns)
          then ret None
          else
            let* df := lift (add_opportunity_score df) in
            (* Remove any rows with invalid coordinates *)
            let df := select_rows (fun r => cell_nonzero (cell "latitude" r)
                                            && cell_nonzero (cell "longitude" r)) df in
            if (len (df_rows df) =? 0) then ret None else ret (Some df)
  | _ => raise (TypeError "argument of type is not iterable")
  end.

End WithEnv.
End OpportunityMap.

(** * Vocabulary of the properties *)

Section Vocabulary.
Import TierControl DataAccess.
Context (env : Env).

(** ** Tiers and sessions *)

Definition defined_tier (t : string) : Prop :=
  t = "Free" \/ t = "Accelerate" \/ t = "Scale".

(** The record a tier name stands for: an unknown name stands for Free. *)
Definition tier_def (t : string) : TierDef :=
  match dict_get t TIER_DEFINITIONS, dict_get "Free" TIER_DEFINITIONS with
  | Some d, _ => d
  | None, Some d => d
  | None, None => mkTierDef 0 "-" "-" 0 [] "-" "-"
  end.

(** The record the session's tier stands for: [None] stands for Free too. *)
Definition tier_def_of (t : tier_value) : TierDef :=
  match t with
  | Some name => tier_def name
  | None => tier_def "Free"
  end.

(** The session's active tier is [t]. *)
Definition active_tier_is (w : World) (t : string) : Prop :=
  exists u, user_info w = Some u /\ ui_tier u = Some (Some t).

(** The world with the session's tier set to [t]. *)
Definition session_with_tier (t : string) (w : World) : World :=
  mkWorld (Some (with_tier (Some t) (default empty_user_info (user_info w))))
    (clock w) (profile_writes w) (rpc_log w).

Definition previous_tier (w : World) : tier_value :=
  default (Some "Free") (user_info w ≫= ui_tier).
Definition previous_history (w : World) : list TierChange :=
  default [] (user_info w ≫= ui_tier_history).

(** The value of a feature flag as [can_access_feature] and
    [get_feature_limitations] read it. *)
Definition feature_allowed (v : option FeatureAccess) : bool :=
  match v with
  | Some (FBool b) => b
  | Some (FText _) => true
  | None => false
  end.

Definition feature_text (v : option FeatureAccess) : option string :=
  match v with
  | Some (FText s) => Some s
  | _ => None
  end.

(** ** The upgrade page *)

(** The upgrade button of a plan column is shown and pressed. *)
Definition upgrade_pressed (required_level : Z) (item : string * TierDef) : bool :=
  (required_level <=? level (snd item)) && st_button env ("Upgrade to " +:+ fst item).

(** Some button of the upgrade page is pressed. *)
Definition page_button_pressed (required_level : Z) : bool :=
  existsb (upgrade_pressed required_level) TIER_DEFINITIONS
  || st_button env "Switch to Free Tier"
  || st_button env "Switch to Accelerate Tier"
  || st_button env "Switch to Scale Tier".

(** How the upgrade page ends the script run. *)
Definition page_exit (required_level : Z) : exn :=
  if page_button_pressed required_level then RerunException else StopException.

(** [m] reruns the script when [pressed], and otherwise returns without
    touching the world. *)
Definition reruns_iff (pressed : bool) (m : M unit) (w : World) : Prop :=
  if pressed then exists w', m w = (Raises RerunException, w')
  else m w = (Returns tt, w).

(** [m] ends the script run: by a rerun when [pressed], by a stop otherwise. *)
Definition exits {A} (pressed : bool) (m : M A) (w : World) : Prop :=
  exists w', m w = (Raises (if pressed then RerunException else StopException), w').

Definition raises_only_exceptions {A} (o : outcome A) : Prop :=
  forall e, o = Raises e -> is_Exception e = true.

(** ** Coordinates *)

(** Both coordinates read as numbers, within range. *)
Definition valid_coordinates (r : pydict) : bool :=
  match to_numeric env (cell "latitude" r), to_numeric env (cell "longitude" r) with
  | PNum lat, PNum lon =>
      Qle_bool (-90) lat && Qle_bool lat 90 && Qle_bool (-180) lon && Qle_bool lon 180
  | _, _ => false
  end.

(** A kept record as it leaves the sanitizer: a row of the frame built
    from [records], with the coordinates coerced. *)
Definition cleaned (records : list pydict) (r : pydict) : pydict :=
  dict_set "longitude" (to_numeric env (cell "longitude" r))
    (dict_set "latitude" (to_numeric env (cell "latitude" r))
       (lay_out records (all_columns records) r)).

Definition sanitized (records : list pydict) : list pydict :=
  map (cleaned records) (List.filter valid_coordinates records).

(** A record comes back with every field it had, other than its
    coordinates, as it was. *)
Definition keeps_other_fields (r r' : pydict) : Prop :=
  forall c, c <> "latitude" -> c <> "longitude" ->
            dict_in c r = true -> dict_get c r' = dict_get c r.

(** The claim of the specification read literally: the valid records come
    back, their coordinates coerced to numbers and their other field values
    intact. *)
Definition sanitizer_keeps_records_intact (records : list pydict) : Prop :=
  exists df,
    clean_lat_lon env (DVal (records_val records)) "latitude" "longitude" = Returns df /\
    Forall2 keeps_other_fields (List.filter valid_coordinates records) (df_rows df).

(** A sample record carries the keys the map fallback reads. *)
Definition has_map_keys (r : pydict) : Prop :=
  dict_in "state" r = true /\ dict_in "latitude" r = true /\ dict_in "longitude" r = true.

(** The sample list after the state filter. *)
Definition state_filtered (state_filter : option (list string)) (sample : list pydict)
    : list pydict :=
  match state_filter with
  | Some (s :: l) =>
      List.filter (fun city => state_matches (cell "state" city) (s :: l)) sample
  | _ => sample
  end.

(** The tier's quota of a list in the map fallback. *)
Definition truncated (p : Z) (records : list pydict) : list pydict :=
  if p <? 100 then slice_to (int_percent (len records) p) records else records.

(** ** Remote calls *)

(** What [execute_supabase_function] answers: a pure function of the client. *)
Definition rpc_result (function_name : string) (params : RpcParams) : pyval :=
  match get_supabase_client env with
  | None => error_dict "Supabase client not available"
  | Some rpc =>
      match rpc function_name params with
      | Ok (row :: _) => row
      | Ok [] => error_dict "No data returned from Supabase function"
      | Failed msg => error_dict msg
      end
  end.

(** The remote call failed: its answer is a dictionary with an "error" key. *)
Definition remote_failed (function_name : string) (params : RpcParams) : bool :=
  is_error_dict (rpc_result function_name params).

(** The world after one more request was logged. *)
Definition logged (function_name : string) (params : RpcParams) (w : World) : World :=
  mkWorld (user_info w) (clock w) (profile_writes w)
    (rpc_log w ++ [(function_name, params)]).

(** The value under the "error" key of a remote answer. *)
Definition reason_of (result : pyval) : pyval :=
  match result with
  | PDict d => dict_get_default "error" PNone d
  | _ => PNone
  end.

(** The answers when the remote call and the sample data both fail. *)
Definition map_total_failure (reason : pyval) : pyval :=
  PDict [("data", PList []); ("error", reason)].
Definition demographic_total_failure (reason : pyval) : pyval :=
  PDict [("summary", PList []); ("error", reason)].
Definition insights_total_failure (reason : pyval) : pyval :=
  PDict [("by_state", PList []); ("by_segment", PList []); ("error", reason)].

(** The sample list of the map fallback after the state filter and the
    tier's truncation, as the code computes it. *)
Definition map_quota (state_filter : option (list string)) (p : Z) (sample : list pydict)
    : outcome (list pydict) :=
  let+ filtered :=
    match state_filter with
    | Some (s :: l) => filter_by_state (s :: l) sample
    | _ => Returns sample
    end in
  Returns (if p <? 100 then slice_to (int_percent (len filtered) p) filtered
           else filtered).

(** The answer of the cleaning step, clean or not. *)
Definition cleaned_answer (data : pyval) : pyval :=
  match clean_lat_lon env (DVal data) "latitude" "longitude" with
  | Returns df => PDict [("data", to_records df)]
  | Raises _ => PDict [("data", data); ("error", PStr "Lat/lon cleaning failed")]
  end.

(** The payload of a row that is a dictionary: what is under the
    function's name, or else the row itself. *)
Definition unwrapped (name : string) (row : pydict) : pyval :=
  if dict_in name row then dict_get_default name PNone row else PDict row.

(** The payload of such a row as the fetches go on with it. *)
Definition payload (name : string) (row : pydict) : pyval :=
  parse_if_str env (unwrapped name row).

(** How a fetch reads the remote's answer, before any [try]: the answer
    carries an error with a reason, or a payload, or reading it raises. *)
Inductive verdict :=
| Failure (reason : pyval)
| Payload (data : pyval)
| Escapes (e : exn).

Definition judge (name : string) (result : pyval) : verdict :=
  match py_in "error" result with
  | Raises e => Escapes e
  | Returns true =>
      match py_subscript "error" result with
      | Returns reason => Failure reason
      | Raises e => Escapes e
      end
  | Returns false =>
      match extract name result with
      | Returns data => Payload (parse_if_str env data)
      | Raises e => Escapes e
      end
  end.

(** The answer the map and demographic fetches go on with, and the world
    then: the alternate function is asked when the primary one failed. *)
Definition last_answer (primary alternate : string) (params : RpcParams) : pyval :=
  if remote_failed primary params then rpc_result alternate params
  else rpc_result primary params.

Definition after_requests (primary alternate : string) (params : RpcParams) (w : World)
    : World :=
  if remote_failed primary params
  then logged alternate params (logged primary params w)
  else logged primary params w.

(** The answer is a dictionary without an error that wraps its payload
    under the function's name. *)
Definition wraps (name : string) (result : pyval) : bool :=
  match result with
  | PDict row => negb (dict_in "error" row) && dict_in name row
  | _ => false
  end.

(** Every answer of the remote is a JSON object. *)
Definition object_rows : Prop :=
  forall function_name params, exists row, rpc_result function_name params = PDict row.

(** The percentage the gateway resolves in world [w]. *)
Definition current_percentage (w : World) : Z :=
  match fst (DataAccess.get_tier_percentage env w) with
  | Returns p => p
  | Raises _ => 33
  end.

(** ** Two sentences of the specification read literally *)

(** "The demographic fetch falls back directly to sample data on the first
    remote failure": after a failure of the primary function no other
    request is issued. *)
Definition demographic_falls_back_directly (state_filter : option (list string))
    (w : World) : Prop :=
  let params := mkRpcParams (current_percentage w) state_filter None in
  remote_failed "get_demographic_summary" params = true ->
  rpc_log (snd (get_demographic_summary env state_filter w))
  = (rpc_log w ++ [("get_demographic_summary", params)])%list.

(** "When the remote call and the sample fallback both fail, the answer is
    a dict whose data field is the empty list", for the demographic fetch. *)
Definition demographic_failure_has_empty_data (state_filter : option (list string))
    (w : World) : Prop :=
  let params := mkRpcParams (current_percentage w) state_filter None in
  remote_failed "get_demographic_summary" params = true ->
  remote_failed "get_demographic_and_psychographic_metrics" params = true ->
  (exists msg, get_sample_demographic_data env = Failed msg) ->
  exists d,
    fst (get_demographic_summary env state_filter w) = Returns (PDict d) /\
    dict_get "data" d = Some (PList []).

(** "Every fetch returns a structured dict", for the demographic fetch. *)
Definition demographic_answer_is_dict (state_filter : option (list string))
    (w : World) : Prop :=
  exists d, fst (get_demographic_summary env state_filter w) = Returns (PDict d).

End Vocabulary.

(** * Vocabulary of the further properties *)

Section FurtherVocabulary.
Import TierControl DataAccess.
Context (env : Env).

(** ** The account side of the session *)

(** [st.session_state.user_info], read as [{}] while it is absent. *)
Definition session_of (w : World) : UserInfo := default empty_user_info (user_info w).

(** [user_info["feature_usage"].get(feature_name, 0)] *)
Definition usage_of (feature_name : string) (w : World) : Z :=
  default 0 (default ∅ (ui_feature_usage (session_of w)) !! feature_name).

(** [user_info.get("data_access_count", 0)] *)
Definition access_count (w : World) : Z :=
  default 0 (ui_data_access_count (session_of w)).

(** The sum of the feature counters. *)
Definition usage_total (usage : gmap string Z) : Z :=
  map_fold (fun _ n total => n + total) 0 usage.

(** The access count is the sum of the feature counters. *)
Definition usage_consistent (w : World) : Prop :=
  access_count w = usage_total (default ∅ (ui_feature_usage (session_of w))).

(** The two keys that [track_feature_usage] writes. *)
Definition usage_fields (w : World) : option (gmap string Z) * option Z :=
  (ui_feature_usage (session_of w), ui_data_access_count (session_of w)).

(** The session after [track_feature_usage feature_name]: the feature's
    counter and the access count are one higher. *)
Definition tracked (feature_name : string) (u : UserInfo) : UserInfo :=
  let usage := default ∅ (ui_feature_usage u) in
  with_data_access_count (default 0 (ui_data_access_count u) + 1)
    (with_feature_usage
       (<[feature_name := default 0 (usage !! feature_name) + 1]> usage) u).

(** The session after a successful [set_user_tier tier] whose two readings
    of the clock were [t] and [t']. *)
Definition tier_set (tier t t' : string) (u : UserInfo) : UserInfo :=
  with_tier_history
    (default [] (ui_tier_history u)
     ++ [mkTierChange (default (Some "Free") (ui_tier u)) tier t'])%list
    (with_tier_change_time t (with_tier (Some tier) u)).

(** Every history entry starts from the tier the entry before it ended at. *)
Fixpoint chained (h : list TierChange) : Prop :=
  match h with
  | a :: (b :: _) as rest => Some (tc_to a) = tc_from b /\ chained rest
  | _ => True
  end.

(** The tier history is an unbroken chain that ends at the active tier. *)
Definition history_linked (w : World) : Prop :=
  match ui_tier_history (session_of w) with
  | Some h =>
      chained h /\
      match last h with
      | Some e => ui_tier (session_of w) = Some (Some (tc_to e))
      | None => True
      end
  | None => True
  end.

(** The account side of the session is in [w] as it is in [w0]: the usage
    counters, the tier history, the rows written to the profile table, and
    the tier once the session has one. *)
Definition same_account (w0 w : World) : Prop :=
  usage_fields w = usage_fields w0 /\
  ui_tier_history (session_of w) = ui_tier_history (session_of w0) /\
  profile_writes w = profile_writes w0 /\
  (forall tier, ui_tier (session_of w0) = Some tier -> ui_tier (session_of w) = Some tier).

(** ** Running a computation *)

(** [m] keeps [P], however it ends. *)
Definition preserves {A} (P : World -> Prop) (m : M A) : Prop :=
  forall w, P w -> P (snd (m w)).

(** [m] always ends by raising. *)
Definition never_returns {A} (m : M A) : Prop :=
  forall w, exists e w', m w = (Raises e, w').

(** [m] returns a value that satisfies [Q], or raises an ordinary
    exception, which a [try] around it catches. *)
Definition yields {A} (m : M A) (Q : A -> Prop) : Prop :=
  forall w, match m w with
            | (Returns a, _) => Q a
            | (Raises e, _) => is_Exception e = true
            end.

(** ** The upgrade page *)

(** The branch of [enforce_tier] taken below the required level, from the
    heading to [st.stop()]. *)
Definition upgrade_page (user_tier : tier_value) (required_tier : string)
    (required_level : Z) : M unit :=
  let* _ := lift (dict_subscript required_tier TIER_DEFINITIONS) in
  for_each TIER_DEFINITIONS (upgrade_column env user_tier required_tier required_level) ;;;
  switch_button env "Switch to Free Tier" "Free" ;;;
  switch_button env "Switch to Accelerate Tier" "Accelerate" ;;;
  switch_button env "Switch to Scale Tier" "Scale" ;;;
  (if st_checkbox env "View Session Info" then
     let* w := get_world in
     match user_info w with
     | Some _ => ret tt
     | None => raise (AttributeError "user_info")
     end
   else ret tt) ;;;
  raise StopException.

(** ** Records *)

(** Both coordinates are numbers, within range. *)
Definition numeric_in_range (r : pydict) : bool :=
  match cell "latitude" r, cell "longitude" r with
  | PNum lat, PNum lon =>
      Qle_bool (-90) lat && Qle_bool lat 90 && Qle_bool (-180) lon && Qle_bool lon 180
  | _, _ => false
  end.

(** An entry of the dashboard's segment list: a name, a rate between 1 and
    100, and the label of its origin. *)
Definition segment_within_bounds (entry : pyval) : Prop :=
  exists name rate source,
    entry = PDict [ ("segment_name", name); ("conversion_rate", PNum rate);
                    ("_source", PStr source) ] /\
    (1 <= rate)%Q /\ (rate <= 100)%Q.

(** A value that is neither a dictionary, a list nor a string: [None], a
    boolean or a number. *)
Definition scalar (v : pyval) : bool :=
  match v with
  | PNone | PNaN | PBool _ | PNum _ => true
  | _ => false
  end.

(** The keys of the dashboard's region summary. *)
Definition region_keys : list string :=
  ["region_name"; "growth_rate"; "market_value"; "state_code"; "_source"].

End FurtherVocabulary.

(** * Fixtures *)

(** A reader of plain decimals ("40.7128", "-74"), standing in for pandas'
    parser in the examples. *)
Definition decimal_digit (c : Ascii.ascii) : option Z :=
  let n := Z.of_N (Ascii.N_of_ascii c) in
  if (48 <=? n) && (n <=? 57) then Some (n - 48) else None.

Fixpoint decimal_digits (s : string) (acc : Z) (scale : positive) (in_fraction seen : bool)
    : option Q :=
  match s with
  | EmptyString => if seen then Some (acc # scale) else None
  | String c s' =>
      if Ascii.eqb c (Ascii.ascii_of_nat 46) then
        if in_fraction then None else decimal_digits s' acc scale true seen
      else
        match decimal_digit c with
        | Some d =>
            decimal_digits s' (10 * acc + d)
              (if in_fraction then (10 * scale)%positive else scale) in_fraction true
        | None => None
        end
  end.

Definition parse_decimal (s : string) : option Q :=
  match s with
  | String c s' =>
      if Ascii.eqb c (Ascii.ascii_of_nat 45)
      then option_map Qopp (decimal_digits s' 0 1 false false)
      else decimal_digits s 0 1 false false
  | EmptyString => None
  end.

(** Rounding to one decimal, half to even, on exact values. *)
Definition exact_round1 (q : Q) : Q :=
  let x := (q * 10)%Q in
  let f := Qfloor x in
  let twice_rest := ((x - inject_Z f) * 2)%Q in
  let n :=
    match Qcompare twice_rest 1 with
    | Lt => f
    | Gt => f + 1
    | Eq => if Z.even f then f else f + 1
    end in
  (n # 10)%Q.

(** An environment with no Supabase client at all, no pressed widget, exact
    arithmetic, and the given sample data. *)
Definition offline (map_sample : external (list pydict))
    (demographic_sample insights_sample : external pydict) : Env :=
  mkEnv (fun _ => "2025-01-01T00:00:00") (fun _ => false) (fun _ => false) None
    parse_decimal Qmult Qdiv exact_round1 (fun _ => Failed "not JSON") None
    map_sample demographic_sample insights_sample.

(** An environment whose remote knows only the alternate demographic
    function. *)
Definition only_alternate_demographic : Env :=
  mkEnv (fun _ => "2025-01-01T00:00:00") (fun _ => false) (fun _ => false) None
    parse_decimal Qmult Qdiv exact_round1 (fun _ => Failed "not JSON")
    (Some (fun fn _ =>
       if String.eqb fn "get_demographic_and_psychographic_metrics"
       then Ok [PDict [("age", PDict [("25-34", PNum (31 # 1))])]]
       else Failed "function not found"))
    (Failed "no sample") (Failed "no sample") (Failed "no sample").

(** The session as the module sets it up, with the given tier. *)
Definition demo_session (tier : string) : World :=
  mkWorld
    (Some (mkUserInfo (Some (Some tier)) (Some "Demo User") (Some "demo@example.com") None
             (Some "2025-01-01T00:00:00") (Some "2025-01-01T00:00:00")
             (Some ∅) (Some 0) None None))
    2 [] [].

Definition city (name state : string) (latitude longitude : Q) (population : Z) : pydict :=
  [ ("city", PStr name); ("state", PStr state); ("latitude", PNum latitude);
    ("longitude", PNum longitude); ("population", PNum (inject_Z population)) ].

(** The cities of [get_sample_map_data], without the market fields that the
    loader draws at random. *)
Definition sample_cities : list pydict :=
  [
    city "New York" "NY" (407128 # 10000) (-740060 # 10000) 8804190;
    city "Los Angeles" "CA" (340522 # 10000) (-1182437 # 10000) 3898747;
    city "Chicago" "IL" (418781 # 10000) (-876298 # 10000) 2746388;
    city "Houston" "TX" (297604 # 10000) (-953698 # 10000) 2304580;
    city "Phoenix" "AZ" (334484 # 10000) (-1120740 # 10000) 1608139;
    city "Philadelphia" "PA" (399526 # 10000) (-751652 # 10000) 1603797;
    city "San Antonio" "TX" (294241 # 10000) (-984936 # 10000) 1434625;
    city "San Diego" "CA" (327157 # 10000) (-1171611 # 10000) 1386932;
    city "Dallas" "TX" (327767 # 10000) (-967970 # 10000) 1304379;
    city "San Jose" "CA" (373382 # 10000) (-1218863 # 10000) 1013240;
    city "Austin" "TX" (302672 # 10000) (-977431 # 10000) 961855;
    city "Jacksonville" "FL" (303322 # 10000) (-816557 # 10000) 911507;
    city "Fort Worth" "TX" (327555 # 10000) (-973308 # 10000) 895008;
    city "Columbus" "OH" (399612 # 10000) (-829988 # 10000) 878553;
    city "Indianapolis" "IN" (397684 # 10000) (-861581 # 10000) 863002;
    city "Charlotte" "NC" (352271 # 10000) (-808431 # 10000) 874579;
    city "San Francisco" "CA" (377749 # 10000) (-1224194 # 10000) 873965;
    city "Seattle" "WA" (476062 # 10000) (-1223321 # 10000) 737015;
    city "Denver" "CO" (397392 # 10000) (-1049903 # 10000) 715522;
    city "Washington" "DC" (389072 # 10000) (-770369 # 10000) 689545;
    city "Boston" "MA" (423601 # 10000) (-710589 # 10000) 675647;
    city "Nashville" "TN" (361627 # 10000) (-867816 # 10000) 689447;
    city "Portland" "OR" (455051 # 10000) (-1226750 # 10000) 641162;
    city "Las Vegas" "NV" (361699 # 10000) (-1151398 # 10000) 641903;
    city "Detroit" "MI" (423314 # 10000) (-830458 # 10000) 639111;
    city "Atlanta" "GA" (337490 # 10000) (-843880 # 10000) 498715;
    city "Miami" "FL" (257617 # 10000) (-801918 # 10000) 454279;
    city "Minneapolis" "MN" (449778 # 10000) (-932650 # 10000) 420324;
    city "New Orleans" "LA" (299511 # 10000) (-900715 # 10000) 390144;
    city "St. Louis" "MO" (386270 # 10000) (-901994 # 10000) 308174
  ].

(** Records with one coordinate out of range, one unreadable, one given as
    text. *)
Definition mixed_records : list pydict :=
  [ city "Austin" "TX" (302672 # 10000) (-977431 # 10000) 961855;
    city "Nowhere" "ZZ" (950000 # 10000) (100000 # 10000) 1;
    [ ("city", PStr "Broken"); ("state", PStr "ZZ"); ("latitude", PStr "n/a");
      ("longitude", PNum (10 # 1)); ("population", PNum (5 # 1)) ];
    [ ("city", PStr "Boston"); ("state", PStr "MA"); ("latitude", PStr "42.3601");
      ("longitude", PStr "-71.0589"); ("population", PNum (675647 # 1)) ] ].

(** Map records with their market fields and no opportunity score. *)
Definition scored_input : list pydict :=
  [ [ ("city", PStr "Austin"); ("growth_rate", PNum (125 # 10));
      ("market_size", PNum (20000 # 1)) ];
    [ ("city", PStr "Boston"); ("growth_rate", PNum (81 # 10));
      ("market_size", PNum (1234 # 1)) ] ].

(** Sample data of the other two datasets, cut down to their lists. *)
Definition sample_segments : pydict :=
  [ ("summary", PList [PStr "Empathetic Dreamers"; PStr "Practical Realists";
                       PStr "Analytical Thinkers"; PStr "Community Builders";
                       PStr "Innovation Seekers"]) ].

(** A signed-in user whose profile row carries the given tier: a name, or
    [None] for a NULL column. *)
Definition signed_in (tier : tier_value) : Env :=
  mkEnv (fun _ => "2025-01-01T00:00:00") (fun _ => false) (fun _ => false)
    (Some (mkSupabaseClient
             (Ok (Some (mkProfile "user-1" "ada@example.com" tier)))
             (fun _ _ => Ok tt)))
    parse_decimal Qmult Qdiv exact_round1 (fun _ => Failed "not JSON") None
    (Failed "no sample") (Failed "no sample") (Failed "no sample").

(** A session without [user_info]: one that started after the module's
    initialisation had run for another session of the process. *)
Definition no_session : World := mkWorld None 0 [] [].

(** No Supabase client, no sample data, and the "View Session Info" box of
    the upgrade page ticked. *)
Definition viewing_session_info : Env :=
  mkEnv (fun _ => "2025-01-01T00:00:00") (fun _ => false)
    (fun label => String.eqb label "View Session Info") None
    parse_decimal Qmult Qdiv exact_round1 (fun _ => Failed "not JSON") None
    (Failed "no sample") (Failed "no sample") (Failed "no sample").

(** An environment whose remote answers the named function with the given
    rows and knows no other function. *)
Definition remote_answering (name : string) (rows : list pyval) : Env :=
  mkEnv (fun _ => "2025-01-01T00:00:00") (fun _ => false) (fun _ => false) None
    parse_decimal Qmult Qdiv exact_round1 (fun _ => Failed "not JSON")
    (Some (fun fn _ => if String.eqb fn name then Ok rows else Failed "function not found"))
    (Failed "no sample") (Failed "no sample") (Failed "no sample").

(** A row that wraps a list of segments under the function's name. *)
Definition wrapped_segments : list pyval :=
  [ PDict [ ("get_demographic_summary",
             PList [PStr "Empathetic Dreamers"; PStr "Practical Realists"]) ] ].

(** Two valid records; the population of the first is not known. *)
Definition unknown_population : list pydict :=
  [ [ ("city", PStr "Austin"); ("latitude", PNum (302672 # 10000));
      ("longitude", PNum (-977431 # 10000)); ("population", PNone) ];
    [ ("city", PStr "Boston"); ("latitude", PNum (423601 # 10000));
      ("longitude", PNum (-710589 # 10000)); ("population", PNum (675647 # 1)) ] ].

(** The key [x.get("avg_value", 0)] of a dictionary, when it is a number. *)
Definition avg_value_of (d : pydict) : option Q :=
  match dict_get_default "avg_value" (PNum 0) d with
  | PNum q => Some q
  | PBool b => Some (if b then 1 else 0)%Q
  | _ => None
  end.

Fixpoint insert_descending (k : Q) (d : pydict) (sorted : list (Q * pydict))
    : list (Q * pydict) :=
  match sorted with
  | [] => [(k, d)]
  | (k', d') :: rest =>
      if Qle_bool k k' then (k', d') :: insert_descending k d rest
      else (k, d) :: sorted
  end.

Fixpoint keyed_by_avg_value (l : list pydict) : option (list (Q * pydict)) :=
  match l with
  | [] => Some []
  | d :: l' =>
      match avg_value_of d, keyed_by_avg_value l' with
      | Some k, Some rest => Some ((k, d) :: rest)
      | _, _ => None
      end
  end.

(** A stable sort by decreasing [avg_value], standing in for [sorted] in
    the examples, whose values are all numbers. *)
Definition descending_by_avg_value (l : list pydict) : option (list pydict) :=
  option_map
    (fun keyed => map snd (fold_left (fun sorted kd => insert_descending (fst kd) (snd kd) sorted)
                             keyed []))
    (keyed_by_avg_value l).

(** Insights in the shape of [get_sample_market_insights], cut down to the
    keys the dashboard reads. *)
Definition state_rows : list pydict :=
  [ [("state", PStr "TX"); ("avg_value", PNum (125 # 10))];
    [("state", PStr "CA"); ("avg_value", PNum (20 # 1))];
    [("state", PStr "NY"); ("avg_value", PNum (81 # 10))] ].

Definition segment_rows : list pydict :=
  [ [("segment_name", PStr "Empathetic Dreamers"); ("avg_value", PNum (96 # 1))];
    [("segment_name", PStr "Practical Realists"); ("avg_value", PNum (450 # 1))];
    [("segment_name", PStr "Analytical Thinkers"); ("avg_value", PNum (1 # 1))] ].

Definition sample_insights : pydict :=
  [ ("by_state", PList (map PDict state_rows));
    ("by_segment", PList (map PDict segment_rows)) ].

(** Map records with their market fields: one of them on the equator. *)
Definition market_cities : list pydict :=
  [ [ ("city", PStr "Austin"); ("state", PStr "TX"); ("latitude", PNum (302672 # 10000));
      ("longitude", PNum (-977431 # 10000)); ("market_size", PNum (20000 # 1));
      ("growth_rate", PNum (125 # 10)) ];
    [ ("city", PStr "Quito"); ("state", PStr "EC"); ("latitude", PNum 0);
      ("longitude", PNum (-785 # 10)); ("market_size", PNum (9000 # 1));
      ("growth_rate", PNum (40 # 10)) ] ].

(** An API-style response of three rows that already carries a note. *)
Definition paged_response : pydict :=
  [ ("data", PList [PStr "a"; PStr "b"; PStr "c"]);
    ("meta", PDict [("page", PNum 1)]);
    ("status", PStr "ok") ].

(** * Properties *)

#[local] Arguments String.eqb : simpl nomatch.

(** ** Running the monad *)

Lemma bind_returns {A B} (m : M A) (k : A -> M B) w a w' :
  m w = (Returns a, w') -> bind m k w = k a w'.
Proof. intros H. unfold bind. now rewrite H. Qed.

Lemma bind_raises {A B} (m : M A) (k : A -> M B) w e w' :
  m w = (Raises e, w') -> bind m k w = (Raises e, w').
Proof. intros H. unfold bind. now rewrite H. Qed.

(** ** Dictionaries and frames *)

Section DictFacts.
Context {V : Type}.
Implicit Types (d : list (string * V)) (k : string) (v : V).

Lemma dict_get_set_eq k v d : dict_get k (dict_set k v d) = Some v.
Proof.
  induction d as [|[k' v'] d IH]; simpl.
  - now rewrite String.eqb_refl.
  - destruct (String.eqb k k') eqn:E; simpl; rewrite ?String.eqb_refl, ?E; auto.
Qed.

Lemma dict_get_set_ne k k' v d : k <> k' -> dict_get k (dict_set k' v d) = dict_get k d.
Proof.
  intros Hne. induction d as [|[k0 v0] d IH]; simpl.
  - apply String.eqb_neq in Hne. now rewrite Hne.
  - destruct (String.eqb k' k0) eqn:E; simpl.
    + apply String.eqb_eq in E. subst k0.
      apply String.eqb_neq in Hne. now rewrite Hne.
    + destruct (String.eqb k k0); auto.
Qed.

Lemma dict_in_keys k d : dict_in k d = true <-> In k (dict_keys d).
Proof.
  unfold dict_in, dict_keys. induction d as [|[k' v'] d IH]; simpl.
  - split; [discriminate | tauto].
  - destruct (String.eqb_spec k k') as [->|Hne].
    + split; auto.
    + rewrite IH. split; [tauto | intros [H|H]; [congruence | assumption]].
Qed.
End DictFacts.

Lemma str_in_In s l : str_in s l = true <-> In s l.
Proof.
  unfold str_in. rewrite existsb_exists. split.
  - intros (x & Hx & E). apply String.eqb_eq in E. now subst.
  - intros H. exists s. split; [assumption | apply String.eqb_refl].
Qed.

Lemma In_add_column cols c x : In x (add_column cols c) <-> In x cols \/ x = c.
Proof.
  unfold add_column. destruct (str_in c cols) eqn:E.
  - apply str_in_In in E. split; [tauto | intros [H | ->]; assumption].
  - rewrite in_app_iff. simpl. intuition (subst; auto).
Qed.

Lemma In_fold_add_column keys cols x :
  In x (fold_left add_column keys cols) <-> In x cols \/ In x keys.
Proof.
  revert cols. induction keys as [|k keys IH]; intros cols; simpl.
  - tauto.
  - rewrite IH, In_add_column. split; intros H; intuition auto.
Qed.

Lemma In_all_columns_from (records : list pydict) cols x :
  In x (fold_left (fun cols r => fold_left add_column (dict_keys r) cols) records cols)
  <-> In x cols \/ exists r, In r records /\ In x (dict_keys r).
Proof.
  revert cols. induction records as [|r records IH]; intros cols; simpl.
  - split; [tauto | intros [H | (r & [] & _)]; assumption].
  - rewrite IH, In_fold_add_column. split.
    + intros [[H | H] | (r' & Hr' & Hx)];
        [auto | right; exists r; auto | right; exists r'; auto].
    + intros [H | (r' & [<- | Hr'] & Hx)];
        [auto | auto | right; exists r'; auto].
Qed.

Lemma In_all_columns (records : list pydict) x :
  In x (all_columns records) <-> exists r, In r records /\ In x (dict_keys r).
Proof.
  unfold all_columns. rewrite In_all_columns_from. simpl. tauto.
Qed.

Lemma dict_get_lay_out records cols r c :
  In c cols -> dict_get c (lay_out records cols r) = Some (frame_cell records c r).
Proof.
  unfold lay_out. induction cols as [|c' cols IH]; simpl; [tauto|].
  intros [-> | H].
  - now rewrite String.eqb_refl.
  - destruct (String.eqb_spec c c') as [->|Hne]; auto.
Qed.

Lemma cell_lay_out records cols r c :
  In c cols -> cell c (lay_out records cols r) = frame_cell records c r.
Proof. intros H. unfold cell, dict_get_default. now rewrite dict_get_lay_out. Qed.

Lemma frame_cell_cases records c r :
  frame_cell records c r = cell c r \/
  (cell c r = PNone /\ frame_cell records c r = PNaN).
Proof.
  unfold frame_cell, cell.
  destruct (is_float_column _); [|now left].
  destruct (dict_get_default c PNaN r); simpl; auto.
Qed.

Lemma as_records_map records : as_records (map PDict records) = Some records.
Proof.
  induction records as [|r records IH]; simpl; [reflexivity|].
  now rewrite IH.
Qed.

Lemma frame_of_records records :
  frame_of_list (map PDict records) = Returns (from_records records).
Proof.
  destruct records as [|r records]; [reflexivity|].
  pose proof (as_records_map (r :: records)) as H.
  unfold frame_of_list. cbn [map] in H |- *. now rewrite H.
Qed.


(** ** The tier registry *)

Section TierFacts.
Import TierControl.
Context (env : Env).

Lemma dict_in_defined t : dict_in t TIER_DEFINITIONS = true <-> defined_tier t.
Proof.
  unfold dict_in, defined_tier; simpl.
  destruct (String.eqb_spec t "Free") as [->|H1]; [tauto|].
  destruct (String.eqb_spec t "Accelerate") as [->|H2]; [tauto|].
  destruct (String.eqb_spec t "Scale") as [->|H3]; [tauto|].
  split; [discriminate | tauto].
Qed.

Lemma dict_in_undefined t : ~ defined_tier t -> dict_in t TIER_DEFINITIONS = false.
Proof.
  intros H. destruct (dict_in t TIER_DEFINITIONS) eqn:E; [|reflexivity].
  apply dict_in_defined in E. contradiction.
Qed.

Lemma tier_def_undefined t : ~ defined_tier t -> tier_def t = tier_def "Free".
Proof.
  intros H. apply dict_in_undefined in H. unfold dict_in in H.
  unfold tier_def. destruct (dict_get t TIER_DEFINITIONS); [discriminate | reflexivity].
Qed.

Lemma tier_info_returns t w : tier_info t w = (Returns (tier_def t), w).
Proof.
  unfold tier_info, tier_def, dict_get_default. simpl.
  destruct (dict_get t TIER_DEFINITIONS); reflexivity.
Qed.

Lemma tier_info_of_returns t w : tier_info_of t w = (Returns (tier_def_of t), w).
Proof. destruct t; [apply tier_info_returns | reflexivity]. Qed.

Lemma level_of_nonneg t : 0 <= level (tier_def_of t).
Proof.
  assert (H : forall name, 0 <= level (tier_def name)).
  { intros name. unfold tier_def. simpl.
    destruct (String.eqb name "Free"); [simpl; lia|].
    destruct (String.eqb name "Accelerate"); [simpl; lia|].
    destruct (String.eqb name "Scale"); simpl; lia. }
  destruct t; apply H.
Qed.

Lemma get_user_tier_active w u t :
  user_info w = Some u -> ui_tier u = Some t ->
  get_user_tier env w =
    (Returns t, mkWorld (Some (with_last_active (isoformat_at env (clock w)) u))
                  (S (clock w)) (profile_writes w) (rpc_log w)).
Proof.
  intros Hu Ht. unfold get_user_tier, bind, get_world. rewrite Hu, Ht.
  reflexivity.
Qed.

Lemma set_user_tier_returns tier w :
  exists b w', set_user_tier env tier w = (Returns b, w').
Proof.
  unfold set_user_tier.
  destruct (dict_in tier TIER_DEFINITIONS); simpl; [|do 2 eexists; reflexivity].
  destruct w as [[u|] c pw rl];
    unfold user_info_or_empty, get_world, now, put_user_info, ret,
      try_except, call, log_profile_write, raise, bind; simpl.
  - destruct u as [t0 n0 e0 i0 la lt fu dc tct th]; simpl.
    destruct th as [h|], (supabase env) as [client|]; simpl;
      try destruct i0 as [uid|]; simpl;
      try destruct (update_profile_tier client uid tier); simpl;
      do 2 eexists; reflexivity.
  - destruct (supabase env); do 2 eexists; reflexivity.
Qed.

Lemma set_then_rerun tier w :
  exists w', (set_user_tier env tier ;;; raise RerunException) w
             = (Raises (A:=unit) RerunException, w').
Proof.
  destruct (set_user_tier_returns tier w) as (b & w' & H).
  exists w'. unfold bind. now rewrite H.
Qed.

Lemma switch_button_flow label tier w :
  reruns_iff (st_button env label) (switch_button env label tier) w.
Proof.
  unfold reruns_iff, switch_button.
  destruct (st_button env label); [apply set_then_rerun | reflexivity].
Qed.

Lemma upgrade_column_flow user_tier required_tier required_level item w :
  In item TIER_DEFINITIONS ->
  reruns_iff (upgrade_pressed env required_level item)
    (upgrade_column env user_tier required_tier required_level item) w.
Proof.
  intros Hin. unfold reruns_iff, upgrade_pressed.
  simpl in Hin.
  destruct Hin as [<- | [<- | [<- | []]]]; unfold upgrade_column; simpl;
    match goal with
    | |- context [is_tier ?a user_tier] => destruct (is_tier a user_tier)
    end;
    try match goal with
    | |- context [String.eqb ?a required_tier] => destruct (String.eqb a required_tier)
    end;
    unfold bind; simpl;
    match goal with
    | |- context [required_level <=? ?l] => destruct (required_level <=? l)
    end; simpl;
    try reflexivity;
    match goal with
    | |- context [st_button env ?l] => destruct (st_button env l)
    end;
    try reflexivity;
    apply set_then_rerun.
Qed.

Lemma for_each_flow {A} (pressed : A -> bool) (body : A -> M unit) l w :
  (forall x w, In x l -> reruns_iff (pressed x) (body x) w) ->
  reruns_iff (existsb pressed l) (for_each l body) w.
Proof.
  induction l as [|x l IH]; intros Hbody; simpl.
  - reflexivity.
  - specialize (Hbody x w (or_introl eq_refl)) as Hx.
    unfold reruns_iff in Hx |- *.
    destruct (pressed x); simpl.
    + destruct Hx as [w' Hx]. exists w'. now apply bind_raises.
    + rewrite (bind_returns _ _ _ _ _ Hx).
      apply IH. intros y w0 Hy. apply Hbody. now right.
Qed.

Lemma exits_after {A} p q (m : M unit) (k : M A) w :
  reruns_iff p m w -> exits q k w -> exits (p || q) (m ;;; k) w.
Proof.
  unfold reruns_iff, exits. destruct p; simpl.
  - intros [w' H] _. exists w'. now apply bind_raises.
  - intros H Hk. now rewrite (bind_returns _ _ _ _ _ H).
Qed.

Lemma track_feature_usage_returns feature_name w :
  exists w', track_feature_usage feature_name w = (Returns tt, w').
Proof.
  unfold track_feature_usage, user_info_or_empty, get_world, put_user_info, ret, bind.
  destruct (user_info w); simpl; eexists; reflexivity.
Qed.

Lemma subscript_defined t :
  defined_tier t -> dict_subscript t TIER_DEFINITIONS = Returns (tier_def t).
Proof. intros [-> | [-> | ->]]; reflexivity. Qed.

Lemma level_nonneg t : 0 <= level (tier_def t).
Proof.
  unfold tier_def. simpl.
  destruct (String.eqb t "Free"); [simpl; lia|].
  destruct (String.eqb t "Accelerate"); [simpl; lia|].
  destruct (String.eqb t "Scale"); simpl; lia.
Qed.

Lemma positive_level_defined t : 0 < level (tier_def t) -> defined_tier t.
Proof.
  intros H. destruct (dict_in t TIER_DEFINITIONS) eqn:E.
  - now apply dict_in_defined.
  - assert (Hn : ~ defined_tier t)
      by (intros Hd; apply dict_in_defined in Hd; congruence).
    rewrite (tier_def_undefined _ Hn) in H. simpl in H. lia.
Qed.

(** What [enforce_tier] does in a session whose tier is [active]. *)
Lemma enforce_tier_outcome required active w :
  active_tier_is w active ->
  exists w',
    enforce_tier env required w =
      (if level (tier_def active) <? level (tier_def required)
       then Raises (page_exit env (level (tier_def required)))
       else Returns true, w').
Proof.
  intros (u & Hu & Ht).
  unfold enforce_tier.
  rewrite (bind_returns _ _ _ _ _ (get_user_tier_active w u (Some active) Hu Ht)).
  rewrite (bind_returns _ _ _ _ _ (tier_info_of_returns _ _)).
  rewrite (bind_returns _ _ _ _ _ (tier_info_returns _ _)).
  cbn [tier_def_of].
  set (w1 := mkWorld _ _ _ _).
  destruct (level (tier_def active) <? level (tier_def required)) eqn:Hlev.
  - apply Z.ltb_lt in Hlev.
    assert (Hreq : defined_tier required).
    { apply positive_level_defined. pose proof (level_nonneg active). lia. }
    assert (Hsub : lift (dict_subscript required TIER_DEFINITIONS) w1
                   = (Returns (tier_def required), w1))
      by (unfold lift; now rewrite subscript_defined).
    set (rl := level (tier_def required)).
    assert (Hpage : exits (page_button_pressed env rl)
      (for_each TIER_DEFINITIONS (upgrade_column env (Some active) required rl) ;;;
       switch_button env "Switch to Free Tier" "Free" ;;;
       switch_button env "Switch to Accelerate Tier" "Accelerate" ;;;
       switch_button env "Switch to Scale Tier" "Scale" ;;;
       (if st_checkbox env "View Session Info"
        then let* w := get_world in
             match user_info w with
             | Some _ => ret tt
             | None => raise (AttributeError "user_info")
             end
        else ret tt) ;;;
       raise (A:=unit) StopException) w1).
    { unfold page_button_pressed.
      rewrite <- (orb_false_r (st_button env "Switch to Scale Tier")), <- !orb_assoc.
      apply exits_after.
      { apply for_each_flow. intros x w0 Hx. now apply upgrade_column_flow. }
      do 3 (apply exits_after; [apply switch_button_flow|]).
      exists w1. destruct (st_checkbox env "View Session Info"); reflexivity. }
    destruct Hpage as [w' Hpage]. exists w'.
    apply bind_raises. rewrite (bind_returns _ _ _ _ _ Hsub). exact Hpage.
  - destruct (track_feature_usage_returns ("access_" +:+ required +:+ "_feature") w1)
      as (w' & H).
    exists w'. unfold bind at 1. simpl. unfold bind. now rewrite H.
Qed.

(** C5: for every pair of defined tiers, [enforce_tier] ends the script run
    (by [st.stop()], or by [st.rerun()] when a button of the upgrade page
    is pressed) whenever the active tier's level is below the required
    one, and returns [True] whenever it is not. *)
Theorem enforce_tier_denies_below_allows_otherwise required active w :
  defined_tier required -> defined_tier active -> active_tier_is w active ->
  (level (tier_def active) < level (tier_def required) ->
   exists w', enforce_tier env required w = (Raises StopException, w') \/
              enforce_tier env required w = (Raises RerunException, w')) /\
  (level (tier_def required) <= level (tier_def active) ->
   exists w', enforce_tier env required w = (Returns true, w')).
Proof.
  intros _ _ Hact.
  destruct (enforce_tier_outcome required active w Hact) as [w' H].
  split; intros Hlev; exists w'.
  - apply Z.ltb_lt in Hlev. rewrite Hlev in H. rewrite H.
    unfold page_exit. destruct (page_button_pressed env _); [now right | now left].
  - apply Z.ltb_ge in Hlev. now rewrite Hlev in H.
Qed.


Lemma tier_from_supabase_returns w :
  exists found w', tier_from_supabase env w = (Returns found, w') /\
                   rpc_log w' = rpc_log w.
Proof.
  unfold tier_from_supabase.
  destruct (supabase env) as [client|]; [|do 2 eexists; split; reflexivity].
  unfold try_except, bind, call.
  destruct (fetch_profile client) as [[p|]|msg]; simpl;
    try (do 2 eexists; split; reflexivity).
  unfold user_info_or_empty, get_world, bind, ret, put_user_info, now.
  destruct (user_info w) as [u|]; simpl.
  - destruct (ui_login_time u); simpl; do 2 eexists; split; reflexivity.
  - do 2 eexists; split; reflexivity.
Qed.

Lemma get_user_tier_returns w :
  exists t w', get_user_tier env w = (Returns t, w') /\ rpc_log w' = rpc_log w.
Proof.
  unfold get_user_tier, bind, get_world.
  destruct (user_info w) as [u|] eqn:Hu.
  - destruct (ui_tier u) as [t|] eqn:Ht.
    + do 2 eexists. split; reflexivity.
    + destruct (tier_from_supabase_returns w) as (found & w' & H & Hlog). rewrite H.
      do 2 eexists. split; [reflexivity | exact Hlog].
  - destruct (tier_from_supabase_returns w) as (found & w' & H & Hlog). rewrite H.
    do 2 eexists. split; [reflexivity | exact Hlog].
Qed.

Lemma enforce_tier_allows_level_zero required w :
  level (tier_def required) = 0 ->
  exists w', enforce_tier env required w = (Returns true, w').
Proof.
  intros Hzero. unfold enforce_tier.
  destruct (get_user_tier_returns w) as (t & w1 & Hget & _).
  rewrite (bind_returns _ _ _ _ _ Hget).
  rewrite (bind_returns _ _ _ _ _ (tier_info_of_returns _ _)).
  rewrite (bind_returns _ _ _ _ _ (tier_info_returns _ _)).
  rewrite Hzero.
  pose proof (level_of_nonneg t) as Hnn. apply Z.ltb_ge in Hnn. rewrite Hnn.
  destruct (track_feature_usage_returns ("access_" +:+ required +:+ "_feature") w1)
    as (w' & H).
  exists w'. unfold bind at 1. simpl. unfold bind. now rewrite H.
Qed.

Lemma session_with_tier_active t w : active_tier_is (session_with_tier t w) t.
Proof. eexists. split; reflexivity. Qed.

(** The three lookups in a session whose tier is [t]. *)
Lemma get_tier_percentage_active t w :
  active_tier_is w t ->
  exists w', get_tier_percentage env w = (Returns (data_percentage (tier_def t)), w').
Proof.
  intros (u & Hu & Ht). unfold get_tier_percentage.
  rewrite (bind_returns _ _ _ _ _ (get_user_tier_active w u (Some t) Hu Ht)).
  rewrite (bind_returns _ _ _ _ _ (tier_info_of_returns _ _)).
  cbn [tier_def_of].
  eexists. reflexivity.
Qed.

Lemma can_access_feature_active t feature_name w :
  active_tier_is w t ->
  exists w', can_access_feature env feature_name w =
    (Returns (feature_allowed (dict_get feature_name (features (tier_def t)))), w').
Proof.
  intros (u & Hu & Ht). unfold can_access_feature.
  rewrite (bind_returns _ _ _ _ _ (get_user_tier_active w u (Some t) Hu Ht)).
  rewrite (bind_returns _ _ _ _ _ (tier_info_of_returns _ _)).
  cbn [tier_def_of].
  unfold dict_in, dict_subscript, lift, bind.
  destruct (dict_get feature_name (features (tier_def t))) as [[b|s]|];
    eexists; reflexivity.
Qed.

Lemma get_feature_limitations_active t feature_name w :
  active_tier_is w t ->
  exists w', get_feature_limitations env feature_name w =
    (Returns (feature_text (dict_get feature_name (features (tier_def t)))), w').
Proof.
  intros (u & Hu & Ht). unfold get_feature_limitations.
  rewrite (bind_returns _ _ _ _ _ (get_user_tier_active w u (Some t) Hu Ht)).
  rewrite (bind_returns _ _ _ _ _ (tier_info_of_returns _ _)).
  cbn [tier_def_of].
  unfold dict_in, dict_subscript, lift, bind.
  destruct (dict_get feature_name (features (tier_def t))) as [[b|s]|];
    eexists; reflexivity.
Qed.

(** C9: [can_access_feature] answers true exactly when the feature is a key
    of the active tier's feature map whose value is [True] or a text; it
    answers false for the value [False] and for an absent key. *)
Theorem can_access_feature_iff_present_and_not_false t feature_name w :
  active_tier_is w t ->
  exists b w',
    can_access_feature env feature_name w = (Returns b, w') /\
    (b = true <->
       exists v, dict_get feature_name (features (tier_def t)) = Some v /\
                 (v = FBool true \/ exists s, v = FText s)) /\
    (dict_get feature_name (features (tier_def t)) = Some (FBool false) -> b = false) /\
    (dict_get feature_name (features (tier_def t)) = None -> b = false).
Proof.
  intros Hact.
  destruct (can_access_feature_active t feature_name w Hact) as [w' H].
  eexists _, w'. split; [exact H|].
  destruct (dict_get feature_name (features (tier_def t))) as [[[|]|s]|]; simpl;
    (split; [split|split]); try discriminate; try reflexivity; eauto.
  all: intros (v & Hv & [Hv' | [s' Hv']]); congruence.
Qed.

(** X24: in a session that holds a tier, a tier name outside the three
    defined ones gives, in every registry operation (percentage lookup,
    feature check, limitation lookup, enforcement as active and as
    required tier), the result that "Free" gives; and there no operation
    raises an [Exception] for any name: the lookups return, and
    [enforce_tier] returns or ends the script run. *)
Theorem unknown_tier_behaves_as_free t :
  ~ defined_tier t ->
  forall w feature_name required,
    (* an unknown active tier *)
    fst (get_tier_percentage env (session_with_tier t w))
      = fst (get_tier_percentage env (session_with_tier "Free" w)) /\
    fst (DataAccess.get_tier_percentage env (session_with_tier t w))
      = fst (DataAccess.get_tier_percentage env (session_with_tier "Free" w)) /\
    fst (can_access_feature env feature_name (session_with_tier t w))
      = fst (can_access_feature env feature_name (session_with_tier "Free" w)) /\
    fst (get_feature_limitations env feature_name (session_with_tier t w))
      = fst (get_feature_limitations env feature_name (session_with_tier "Free" w)) /\
    fst (enforce_tier env required (session_with_tier t w))
      = fst (enforce_tier env required (session_with_tier "Free" w)) /\
    (* an unknown required tier *)
    fst (enforce_tier env t w) = fst (enforce_tier env "Free" w) /\
    (* in a session that holds a tier nothing is raised, whatever the
       names: the only way out of [enforce_tier] other than returning is
       the script control of the upgrade page *)
    (forall name,
       (exists p, fst (get_tier_percentage env (session_with_tier name w)) = Returns p) /\
       (exists b, fst (can_access_feature env feature_name (session_with_tier name w))
                  = Returns b) /\
       (exists l, fst (get_feature_limitations env feature_name (session_with_tier name w))
                  = Returns l) /\
       (forall e, fst (enforce_tier env required (session_with_tier name w)) = Raises e ->
                  is_Exception e = false)).
Proof.
  intros Hundef w feature_name required.
  pose proof (tier_def_undefined t Hundef) as Hdef.
  pose proof (session_with_tier_active t w) as Ht.
  pose proof (session_with_tier_active "Free" w) as Hf.
  repeat split.
  - destruct (get_tier_percentage_active _ _ Ht) as [w1 ->].
    destruct (get_tier_percentage_active _ _ Hf) as [w2 ->].
    simpl. now rewrite Hdef.
  - destruct Ht as (u1 & Hu1 & Ht1), Hf as (u2 & Hu2 & Ht2).
    unfold DataAccess.get_tier_percentage.
    rewrite (bind_returns _ _ _ _ _ (get_user_tier_active _ _ _ Hu1 Ht1)).
    rewrite (bind_returns _ _ _ _ _ (get_user_tier_active _ _ _ Hu2 Ht2)).
    unfold ret. cbn [fst]. f_equal.
    unfold dict_get_default, DataAccess.TIER_ACCESS. cbn [dict_get].
    destruct (String.eqb_spec t "Free") as [->|H1]; [reflexivity|].
    destruct (String.eqb_spec t "Accelerate") as [->|H2];
      [exfalso; apply Hundef; right; now left|].
    destruct (String.eqb_spec t "Scale") as [->|H3];
      [exfalso; apply Hundef; right; now right|].
    reflexivity.
  - destruct (can_access_feature_active _ feature_name _ Ht) as [w1 ->].
    destruct (can_access_feature_active _ feature_name _ Hf) as [w2 ->].
    simpl. now rewrite Hdef.
  - destruct (get_feature_limitations_active _ feature_name _ Ht) as [w1 ->].
    destruct (get_feature_limitations_active _ feature_name _ Hf) as [w2 ->].
    simpl. now rewrite Hdef.
  - destruct (enforce_tier_outcome required _ _ Ht) as [w1 ->].
    destruct (enforce_tier_outcome required _ _ Hf) as [w2 ->].
    simpl. now rewrite Hdef.
  - destruct (enforce_tier_allows_level_zero t w) as [w1 ->];
      [now rewrite Hdef|].
    destruct (enforce_tier_allows_level_zero "Free" w) as [w2 ->]; reflexivity.
  - destruct (get_tier_percentage_active _ _ (session_with_tier_active name w)) as [w1 ->].
    eexists; reflexivity.
  - destruct (can_access_feature_active _ feature_name _ (session_with_tier_active name w))
      as [w1 ->].
    eexists; reflexivity.
  - destruct (get_feature_limitations_active _ feature_name _
                (session_with_tier_active name w)) as [w1 ->].
    eexists; reflexivity.
  - destruct (enforce_tier_outcome required _ _ (session_with_tier_active name w))
      as [w1 ->].
    simpl. intros e.
    destruct (level (tier_def name) <? level (tier_def required)); [|discriminate].
    intros [= <-]. unfold page_exit. now destruct (page_button_pressed env _).
Qed.


(** C10: [set_user_tier] returns [False] and leaves the whole world as it
    was for a name outside the defined tiers; for a defined tier it
    returns [True] with the tier, the change time and one more history
    entry recorded. *)
Theorem set_user_tier_validates_before_mutating tier w :
  (~ defined_tier tier -> set_user_tier env tier w = (Returns false, w)) /\
  (defined_tier tier ->
   exists w' u',
     set_user_tier env tier w = (Returns true, w') /\
     user_info w' = Some u' /\
     ui_tier u' = Some (Some tier) /\
     ui_tier_change_time u' = Some (isoformat_at env (clock w)) /\
     ui_tier_history u' =
       Some (previous_history w ++
             [mkTierChange (previous_tier w) tier (isoformat_at env (S (clock w)))])%list).
Proof.
  split; intros H.
  - unfold set_user_tier. now rewrite (dict_in_undefined _ H).
  - apply dict_in_defined in H. unfold set_user_tier. rewrite H. simpl.
    unfold previous_history, previous_tier.
    destruct w as [[u|] c pw rl]; simpl.
    + unfold bind, user_info_or_empty, get_world, now, put_user_info, ret,
        try_except, call, log_profile_write, raise; simpl.
      destruct u as [t0 n0 e0 i0 la lt fu dc tct th]; simpl.
      destruct th as [h|], (supabase env) as [client|]; simpl;
        try destruct i0 as [uid|]; simpl;
        try destruct (update_profile_tier client uid tier); simpl;
        do 2 eexists; (split; [reflexivity|]); simpl; auto.
    + unfold bind, user_info_or_empty, get_world, now, put_user_info, ret,
        try_except, call, log_profile_write, raise; simpl.
      destruct (supabase env) as [client|]; simpl;
        do 2 eexists; (split; [reflexivity|]); simpl; auto.
Qed.


End TierFacts.

(** ** The coordinate sanitizer *)

Section Clean.
Import DataAccess.
Context (env : Env).

Lemma to_numeric_cases v :
  (exists q, to_numeric env v = PNum q) \/ to_numeric env v = PNaN.
Proof.
  destruct v; simpl; eauto.
  destruct (str_to_numeric env s); eauto.
Qed.

Lemma cell_set_eq c v (r : pydict) : cell c (dict_set c v r) = v.
Proof. unfold cell, dict_get_default. now rewrite dict_get_set_eq. Qed.

Lemma cell_set_ne c c' v (r : pydict) : c <> c' -> cell c (dict_set c' v r) = cell c r.
Proof. intros H. unfold cell, dict_get_default. now rewrite dict_get_set_ne. Qed.

Lemma to_numeric_frame_cell records c r :
  to_numeric env (frame_cell records c r) = to_numeric env (cell c r).
Proof.
  destruct (frame_cell_cases records c r) as [-> | [E ->]]; [reflexivity|].
  now rewrite E.
Qed.

Lemma cell_cleaned_latitude records r :
  cell "latitude" (cleaned env records r) = to_numeric env (cell "latitude" r).
Proof.
  unfold cleaned. rewrite cell_set_ne by discriminate. apply cell_set_eq.
Qed.

Lemma cell_cleaned_longitude records r :
  cell "longitude" (cleaned env records r) = to_numeric env (cell "longitude" r).
Proof. unfold cleaned. apply cell_set_eq. Qed.

Lemma filter_twice {A} (p q : A -> bool) l :
  List.filter p (List.filter q l) = List.filter (fun x => q x && p x) l.
Proof.
  induction l as [|x l IH]; simpl; [reflexivity|].
  destruct (q x); simpl; [destruct (p x)|]; now rewrite IH.
Qed.

Lemma kept_iff_valid records r :
  forallb (fun c => negb (isna (cell c (cleaned env records r)))) ["latitude"; "longitude"]
  && (cell_ge (-90) (cell "latitude" (cleaned env records r))
      && cell_le 90 (cell "latitude" (cleaned env records r))
      && (cell_ge (-180) (cell "longitude" (cleaned env records r))
          && cell_le 180 (cell "longitude" (cleaned env records r))))
  = valid_coordinates env r.
Proof.
  cbn [forallb]. rewrite cell_cleaned_latitude, cell_cleaned_longitude.
  unfold valid_coordinates.
  destruct (to_numeric_cases (cell "latitude" r)) as [[a ->] | ->],
           (to_numeric_cases (cell "longitude" r)) as [[b ->] | ->]; simpl;
    rewrite ?andb_true_r, ?andb_false_r; try reflexivity.
  now rewrite andb_assoc.
Qed.

Lemma clean_lat_lon_records records :
  In "latitude" (all_columns records) ->
  In "longitude" (all_columns records) ->
  clean_lat_lon env (DVal (records_val records)) "latitude" "longitude"
  = Returns (mkDataFrame (all_columns records) (sanitized env records)).
Proof.
  intros Hlat Hlon.
  unfold clean_lat_lon, records_val. rewrite frame_of_records. cbn [obind].
  unfold column, from_records. cbn [df_columns df_rows assign].
  pose proof (proj2 (str_in_In _ _) Hlat) as Elat.
  pose proof (proj2 (str_in_In _ _) Hlon) as Elon.
  rewrite Elat. cbn [obind].
  unfold add_column. rewrite Elat, Elon. cbn [obind].
  unfold dropna, select_rows, assign, add_column. cbn [df_columns df_rows].
  rewrite Elat, Elon.
  f_equal. f_equal.
  rewrite !map_map.
  rewrite (map_ext _ (cleaned env records)).
  2:{ intros r. unfold cleaned.
      rewrite cell_set_ne by discriminate.
      rewrite !cell_lay_out by assumption.
      now rewrite !to_numeric_frame_cell. }
  rewrite !filter_map_swap, !filter_twice.
  unfold sanitized. f_equal.
  apply filter_ext. intros r. apply kept_iff_valid.
Qed.

(** Without a latitude column nothing is cleaned env: the lookup fails. *)
Lemma clean_lat_lon_no_latitude records :
  ~ In "latitude" (all_columns records) ->
  clean_lat_lon env (DVal (records_val records)) "latitude" "longitude"
  = Raises (KeyError "latitude").
Proof.
  intros Hlat.
  unfold clean_lat_lon, records_val. rewrite frame_of_records. cbn [obind].
  unfold column, from_records. cbn [df_columns].
  destruct (str_in "latitude" (all_columns records)) eqn:E; [|reflexivity].
  apply str_in_In in E. contradiction.
Qed.


End Clean.

(** ** The gateway *)

Section Gateway.
Import DataAccess.
Context (env : Env).

Lemma execute_supabase_function_runs function_name params w :
  execute_supabase_function env function_name params w
  = (Returns (rpc_result env function_name params), logged function_name params w).
Proof.
  unfold execute_supabase_function, rpc_result, log_rpc, bind, try_except, call.
  destruct (get_supabase_client env) as [rpc|]; [|reflexivity].
  destruct (rpc function_name params) as [[|row rows]|msg]; reflexivity.
Qed.

Lemma get_tier_percentage_returns w :
  exists p w1, get_tier_percentage env w = (Returns p, w1) /\ rpc_log w1 = rpc_log w.
Proof.
  unfold get_tier_percentage.
  destruct (get_user_tier_returns env w) as (t & w1 & H & Hlog).
  rewrite (bind_returns _ _ _ _ _ H). do 2 eexists. split; [reflexivity | exact Hlog].
Qed.

Lemma current_percentage_runs w p w1 :
  get_tier_percentage env w = (Returns p, w1) -> current_percentage env w = p.
Proof. intros H. unfold current_percentage. now rewrite H. Qed.

Lemma clean_lat_lon_exceptions data :
  raises_only_exceptions (clean_lat_lon env data "latitude" "longitude").
Proof.
  intros e. unfold clean_lat_lon.
  assert (Hframe : forall l, raises_only_exceptions (frame_of_list l)).
  { intros l e'. unfold frame_of_list.
    destruct l as [|[] l]; try discriminate.
    destruct (as_records _); [discriminate|]. now intros [= <-]. }
  destruct data as [v|df].
  - destruct v; try (now intros [= <-]).
    destruct (frame_of_list l) as [df|e'] eqn:E.
    + cbn [obind]. unfold column.
      repeat (match goal with
              | |- context [if ?b then _ else _] => destruct b
              end; cbn [obind]); try discriminate; now intros [= <-].
    + cbn [obind]. intros [= <-]. now apply (Hframe l).
  - cbn [obind]. unfold column.
    repeat (match goal with
            | |- context [if ?b then _ else _] => destruct b
            end; cbn [obind]); try discriminate; now intros [= <-].
Qed.

Lemma filter_by_state_exceptions state_filter cities :
  raises_only_exceptions (filter_by_state state_filter cities).
Proof.
  induction cities as [|city rest IH]; intros e; simpl; [discriminate|].
  unfold dict_subscript. destruct (dict_get "state" city); cbn [obind].
  - destruct (filter_by_state state_filter rest) as [kept|e'] eqn:E; cbn [obind].
    + discriminate.
    + intros [= <-]. now apply IH.
  - now intros [= <-].
Qed.

Lemma limit_field_exceptions key p d :
  raises_only_exceptions (limit_field key p d).
Proof.
  intros e. unfold limit_field, dict_subscript.
  destruct (dict_in key d); [|discriminate].
  destruct (dict_get key d) as [v|]; cbn [obind]; [|now intros [= <-]].
  destruct v; cbn [obind py_len py_slice_to]; try discriminate; now intros [= <-].
Qed.

Lemma clean_step_runs data w :
  try_except
    (let* df := lift (clean_lat_lon env (DVal data) "latitude" "longitude") in
     ret (PDict [("data", to_records df)]))
    (fun _ => ret (PDict [("data", data); ("error", PStr "Lat/lon cleaning failed")])) w
  = (Returns (cleaned_answer env data), w).
Proof.
  unfold try_except, bind, lift, cleaned_answer.
  pose proof (clean_lat_lon_exceptions (DVal data)) as Hexc.
  destruct (clean_lat_lon env (DVal data) "latitude" "longitude") as [df|e];
    [reflexivity|].
  now rewrite (Hexc e eq_refl).
Qed.

Lemma map_fallback_body state_filter p w :
  map_fallback env state_filter p w =
    match get_sample_map_data env with
    | Failed msg => (Raises (ExternalError msg), w)
    | Ok sample =>
        match map_quota state_filter p sample with
        | Raises e => (Raises e, w)
        | Returns quota => (Returns (cleaned_answer env (records_val quota)), w)
        end
    end.
Proof.
  unfold map_fallback, map_quota.
  destruct (get_sample_map_data env) as [sample|msg]; [|reflexivity].
  unfold bind at 1. cbn [call ret].
  destruct state_filter as [[|s l]|].
  - unfold bind at 1. cbn [ret obind]. apply clean_step_runs.
  - destruct (filter_by_state (s :: l) sample) as [filtered|e];
      unfold bind at 1; cbn [lift obind]; [apply clean_step_runs | reflexivity].
  - unfold bind at 1. cbn [ret obind]. apply clean_step_runs.
Qed.

Lemma map_quota_exceptions state_filter p sample :
  raises_only_exceptions (map_quota state_filter p sample).
Proof.
  intros e. unfold map_quota.
  destruct state_filter as [[|s l]|]; try discriminate.
  pose proof (filter_by_state_exceptions (s :: l) sample) as H.
  destruct (filter_by_state (s :: l) sample); [discriminate|].
  cbn [obind]. intros [= <-]. now apply H.
Qed.

Lemma map_fallback_runs state_filter p reason w :
  try_except (map_fallback env state_filter p) (fun _ => ret (map_total_failure reason)) w
  = (Returns
       match get_sample_map_data env with
       | Failed _ => map_total_failure reason
       | Ok sample =>
           match map_quota state_filter p sample with
           | Raises _ => map_total_failure reason
           | Returns quota => cleaned_answer env (records_val quota)
           end
       end, w).
Proof.
  unfold try_except. rewrite map_fallback_body.
  destruct (get_sample_map_data env) as [sample|msg]; [|reflexivity].
  pose proof (map_quota_exceptions state_filter p sample) as H.
  destruct (map_quota state_filter p sample) as [quota|e]; [reflexivity|].
  now rewrite (H e eq_refl).
Qed.

Lemma demographic_fallback_runs p reason w :
  try_except (demographic_fallback env p)
    (fun _ => ret (demographic_total_failure reason)) w
  = (Returns
       match get_sample_demographic_data env with
       | Failed _ => demographic_total_failure reason
       | Ok sample =>
           if p <? 100 then
             match limit_field "summary" p sample with
             | Returns limited => PDict limited
             | Raises _ => demographic_total_failure reason
             end
           else PDict sample
       end, w).
Proof.
  unfold try_except, demographic_fallback.
  destruct (get_sample_demographic_data env) as [sample|msg]; [|reflexivity].
  unfold bind at 1. cbn [call ret].
  destruct (p <? 100); [|reflexivity].
  pose proof (limit_field_exceptions "summary" p sample) as H.
  destruct (limit_field "summary" p sample) as [limited|e];
    unfold bind; cbn [lift]; [reflexivity|].
  now rewrite (H e eq_refl).
Qed.

Lemma insights_fallback_runs p reason w :
  try_except (insights_fallback env p)
    (fun _ => ret (insights_total_failure reason)) w
  = (Returns
       match get_sample_market_insights env with
       | Failed _ => insights_total_failure reason
       | Ok sample =>
           if p <? 100 then
             match (let+ limited := limit_field "by_state" p sample in
                    limit_field "by_segment" p limited) with
             | Returns limited => PDict limited
             | Raises _ => insights_total_failure reason
             end
           else PDict sample
       end, w).
Proof.
  unfold try_except, insights_fallback.
  destruct (get_sample_market_insights env) as [sample|msg]; [|reflexivity].
  unfold bind at 1. cbn [call ret].
  destruct (p <? 100); [|reflexivity].
  pose proof (limit_field_exceptions "by_state" p sample) as H1.
  destruct (limit_field "by_state" p sample) as [limited|e];
    unfold bind; cbn [lift obind].
  - pose proof (limit_field_exceptions "by_segment" p limited) as H2.
    destruct (limit_field "by_segment" p limited) as [limited'|e]; [reflexivity|].
    now rewrite (H2 e eq_refl).
  - now rewrite (H1 e eq_refl).
Qed.

Lemma judge_failed name result :
  is_error_dict result = true -> judge env name result = Failure (reason_of result).
Proof.
  destruct result; try discriminate. cbn [is_error_dict]. intros H.
  unfold judge. cbn [py_in py_subscript reason_of]. rewrite H.
  unfold dict_in, dict_subscript, dict_get_default in *.
  destruct (dict_get "error" d); [reflexivity | discriminate].
Qed.

Lemma judge_row name row :
  dict_in "error" row = false ->
  judge env name (PDict row) = Payload (payload env name row).
Proof.
  intros H. unfold judge, extract, payload, unwrapped. cbn [py_in py_get obind].
  rewrite H. now destruct (dict_in name row).
Qed.

Lemma judge_escapes name result e :
  judge env name result = Escapes e -> is_Exception e = true.
Proof.
  unfold judge, extract.
  destruct result; cbn [py_in py_subscript py_get obind];
    try (now intros [= <-]);
    repeat match goal with
           | |- context [if ?b then _ else _] => destruct b
           end;
    try discriminate; try (now intros [= <-]).
  unfold dict_subscript. destruct (dict_get "error" d); [discriminate|now intros [= <-]].
Qed.

Lemma demographic_fallback_body p w :
  demographic_fallback env p w =
    (match get_sample_demographic_data env with
     | Failed msg => Raises (ExternalError msg)
     | Ok sample =>
         if p <? 100 then
           match limit_field "summary" p sample with
           | Returns limited => Returns (PDict limited)
           | Raises e => Raises e
           end
         else Returns (PDict sample)
     end, w).
Proof.
  unfold demographic_fallback.
  destruct (get_sample_demographic_data env) as [sample|msg]; [|reflexivity].
  unfold bind at 1. cbn [call ret].
  destruct (p <? 100); [|reflexivity].
  destruct (limit_field "summary" p sample); reflexivity.
Qed.

Lemma insights_fallback_body p w :
  insights_fallback env p w =
    (match get_sample_market_insights env with
     | Failed msg => Raises (ExternalError msg)
     | Ok sample =>
         if p <? 100 then
           match (let+ limited := limit_field "by_state" p sample in
                  limit_field "by_segment" p limited) with
           | Returns limited => Returns (PDict limited)
           | Raises e => Raises e
           end
         else Returns (PDict sample)
     end, w).
Proof.
  unfold insights_fallback.
  destruct (get_sample_market_insights env) as [sample|msg]; [|reflexivity].
  unfold bind at 1. cbn [call ret].
  destruct (p <? 100); [|reflexivity].
  destruct (limit_field "by_state" p sample) as [limited|e];
    unfold bind; cbn [lift obind]; [|reflexivity].
  destruct (limit_field "by_segment" p limited); reflexivity.
Qed.

(** A fallback that raises does so in every world, with an [Exception], and
    leaves the world as it was. *)
Lemma map_fallback_fails state_filter p w e w' :
  fst (map_fallback env state_filter p w) = Raises e ->
  map_fallback env state_filter p w' = (Raises e, w') /\ is_Exception e = true.
Proof.
  rewrite !map_fallback_body.
  destruct (get_sample_map_data env) as [sample|msg].
  - pose proof (map_quota_exceptions state_filter p sample) as H.
    destruct (map_quota state_filter p sample) as [quota|e']; [discriminate|].
    cbn [fst]. intros [= <-]. split; [reflexivity | now apply H].
  - cbn [fst]. intros [= <-]. split; reflexivity.
Qed.

Lemma demographic_fallback_fails p w e w' :
  fst (demographic_fallback env p w) = Raises e ->
  demographic_fallback env p w' = (Raises e, w') /\ is_Exception e = true.
Proof.
  rewrite !demographic_fallback_body. cbn [fst].
  destruct (get_sample_demographic_data env) as [sample|msg].
  - destruct (p <? 100); [|discriminate].
    pose proof (limit_field_exceptions "summary" p sample) as H.
    destruct (limit_field "summary" p sample) as [limited|e']; [discriminate|].
    intros [= <-]. split; [reflexivity | now apply H].
  - intros [= <-]. split; reflexivity.
Qed.

Lemma insights_fallback_fails p w e w' :
  fst (insights_fallback env p w) = Raises e ->
  insights_fallback env p w' = (Raises e, w') /\ is_Exception e = true.
Proof.
  rewrite !insights_fallback_body. cbn [fst].
  destruct (get_sample_market_insights env) as [sample|msg].
  - destruct (p <? 100); [|discriminate].
    pose proof (limit_field_exceptions "by_state" p sample) as H1.
    destruct (limit_field "by_state" p sample) as [limited|e']; cbn [obind].
    + pose proof (limit_field_exceptions "by_segment" p limited) as H2.
      destruct (limit_field "by_segment" p limited) as [limited'|e']; [discriminate|].
      intros [= <-]. split; [reflexivity | now apply H2].
    + intros [= <-]. split; [reflexivity | now apply H1].
  - intros [= <-]. split; reflexivity.
Qed.

Lemma try_except_handles {A} (body : M A) handler w e :
  body w = (Raises e, w) -> is_Exception e = true ->
  try_except body handler w = handler e w.
Proof. intros H He. unfold try_except. now rewrite H, He. Qed.

Ltac read_answer :=
  unfold judge, bind, lift;
  destruct (py_in "error" _) as [[|]|?]; [| |reflexivity];
  [ destruct (py_subscript "error" _); reflexivity
  | destruct (extract _ _); [|reflexivity] ].

Section Runs.
Context (state_filter : option (list string)) (w w1 : World) (p : Z).
Hypothesis Hp : get_tier_percentage env w = (Returns p, w1).

Lemma get_map_data_runs :
  get_map_data env state_filter w =
    let params := mkRpcParams p state_filter None in
    let primary := "get_map_data_with_tooltips" in
    let alternate := "get_enhanced_map_data" in
    let w2 := after_requests env primary alternate params w1 in
    match judge env primary (last_answer env primary alternate params) with
    | Failure reason =>
        try_except (map_fallback env state_filter p)
          (fun _ => ret (map_total_failure reason)) w2
    | Payload data => (Returns (cleaned_answer env data), w2)
    | Escapes e => (Raises e, w2)
    end.
Proof.
  unfold get_map_data. rewrite (bind_returns _ _ _ _ _ Hp).
  rewrite (bind_returns _ _ _ _ _ (execute_supabase_function_runs _ _ _)).
  cbv zeta. unfold last_answer, after_requests, remote_failed.
  destruct (is_error_dict (rpc_result env "get_map_data_with_tooltips" _)) eqn:E1.
  - rewrite (bind_returns _ _ _ _ _ (execute_supabase_function_runs _ _ _)).
    read_answer. apply clean_step_runs.
  - unfold bind at 1, ret. read_answer. apply clean_step_runs.
Qed.

Lemma get_demographic_summary_runs :
  get_demographic_summary env state_filter w =
    let params := mkRpcParams p state_filter None in
    let primary := "get_demographic_summary" in
    let alternate := "get_demographic_and_psychographic_metrics" in
    let w2 := after_requests env primary alternate params w1 in
    match judge env primary (last_answer env primary alternate params) with
    | Failure reason =>
        try_except (demographic_fallback env p)
          (fun _ => ret (demographic_total_failure reason)) w2
    | Payload data => (Returns data, w2)
    | Escapes e => (Raises e, w2)
    end.
Proof.
  unfold get_demographic_summary. rewrite (bind_returns _ _ _ _ _ Hp).
  rewrite (bind_returns _ _ _ _ _ (execute_supabase_function_runs _ _ _)).
  cbv zeta. unfold last_answer, after_requests, remote_failed.
  destruct (is_error_dict (rpc_result env "get_demographic_summary" _)) eqn:E1.
  - rewrite (bind_returns _ _ _ _ _ (execute_supabase_function_runs _ _ _)).
    read_answer. reflexivity.
  - unfold bind at 1, ret. read_answer. reflexivity.
Qed.

Lemma get_market_insights_runs metric :
  get_market_insights env state_filter metric w =
    let name := "generate_market_insights" in
    let params := mkRpcParams p state_filter (Some metric) in
    let w2 := logged name params w1 in
    match judge env name (rpc_result env name params) with
    | Failure reason =>
        try_except (insights_fallback env p)
          (fun _ => ret (insights_total_failure reason)) w2
    | Payload data => (Returns data, w2)
    | Escapes e => (Raises e, w2)
    end.
Proof.
  unfold get_market_insights. rewrite (bind_returns _ _ _ _ _ Hp).
  rewrite (bind_returns _ _ _ _ _ (execute_supabase_function_runs _ _ _)).
  cbv zeta.
  read_answer. reflexivity.
Qed.

(** Both requests failed: the fetch goes on with the alternate's reason. *)
Lemma judge_both_failed primary alternate params :
  remote_failed env primary params = true ->
  remote_failed env alternate params = true ->
  judge env primary (last_answer env primary alternate params)
  = Failure (reason_of (rpc_result env alternate params)).
Proof.
  intros H1 H2. unfold last_answer. rewrite H1. now apply judge_failed.
Qed.

End Runs.


End Gateway.

(** ** Truncation *)

Section Truncation.
Import DataAccess TierControl.

Lemma limit_size_floor n p :
  0 <= n -> Z.max 1 (int_percent n p) = Z.max 1 (n * p / 100).
Proof.
  intros Hn. unfold int_percent.
  destruct (Z.le_gt_cases 0 p) as [Hp | Hp].
  - rewrite Z.quot_div_nonneg by nia. reflexivity.
  - assert (n * p <= 0) by nia.
    assert (n * p ÷ 100 <= 0) by (apply Z.quot_le_upper_bound; lia).
    assert (n * p / 100 <= 0) by (apply Z.div_le_upper_bound; lia).
    lia.
Qed.

Lemma limit_size_within n p : 0 < n -> p < 100 -> 1 <= limit_size n p <= n.
Proof.
  intros Hn Hp. unfold limit_size. rewrite limit_size_floor by lia.
  assert (n * p / 100 <= n).
  { apply Z.div_le_upper_bound; nia. }
  lia.
Qed.

Lemma slice_to_length {A} n (l : list A) :
  0 <= n <= len l -> length (slice_to n l) = Z.to_nat n.
Proof.
  unfold slice_to, len. intros [H0 Hn].
  apply Z.leb_le in H0 as E. rewrite E. rewrite length_take. lia.
Qed.

Lemma slice_to_prefix {A} n (l : list A) :
  0 <= n -> slice_to n l = take (Z.to_nat n) l.
Proof. intros H. unfold slice_to. apply Z.leb_le in H. now rewrite H. Qed.

(** The generic tier-limit operation on a list. *)
Lemma apply_tier_limit_list env (l : list pyval) p w :
  apply_tier_limit env (DVal (PList l)) (Some p) w =
    (Returns (DVal (PList
       (if 100 <=? p then l
        else match l with
             | [] => []
             | _ => take (Z.to_nat (Z.max 1 (len l * p / 100))) l
             end))), w).
Proof.
  unfold apply_tier_limit. unfold bind at 1. cbn [ret].
  destruct l as [|x l]; cbn [truthy negb].
  - now destruct (100 <=? p).
  - destruct (100 <=? p); [reflexivity|].
    unfold ret, limit_size. rewrite limit_size_floor by (unfold len; lia).
    rewrite slice_to_prefix by lia. reflexivity.
Qed.

Lemma apply_tier_limit_list_length env (l : list pyval) p w :
  l <> [] -> p < 100 ->
  exists l', apply_tier_limit env (DVal (PList l)) (Some p) w = (Returns (DVal (PList l')), w) /\
             l' = take (length l') l /\
             len l' = Z.max 1 (len l * p / 100).
Proof.
  intros Hne Hp. rewrite apply_tier_limit_list.
  apply Z.leb_gt in Hp as E. rewrite E.
  destruct l as [|x l]; [contradiction|].
  eexists. split; [reflexivity|].
  assert (Hlen : 0 < len (x :: l)) by (unfold len; simpl; lia).
  pose proof (limit_size_within _ _ Hlen Hp) as Hb.
  unfold limit_size in Hb. rewrite limit_size_floor in Hb by lia.
  assert (Hl : length (take (Z.to_nat (Z.max 1 (len (x :: l) * p / 100))) (x :: l))
               = Z.to_nat (Z.max 1 (len (x :: l) * p / 100))).
  { rewrite length_take. unfold len in *. lia. }
  split.
  - now rewrite Hl.
  - unfold len at 1. rewrite Hl. lia.
Qed.

(** The list fields of the demographic and insights fallbacks. *)
Lemma limit_field_list key p d (l : list pyval) :
  dict_get key d = Some (PList l) ->
  limit_field key p d
  = Returns (dict_set key (PList (take (Z.to_nat (Z.max 1 (len l * p / 100))) l)) d).
Proof.
  intros H. unfold limit_field, dict_in, dict_subscript. rewrite H.
  cbn [obind py_len py_slice_to].
  rewrite limit_size_floor by (unfold len; lia).
  rewrite slice_to_prefix by lia. reflexivity.
Qed.

(** The map fallback has no floor of one record. *)
Lemma truncated_length p (records : list pydict) :
  0 <= p < 100 ->
  length (truncated p records) = Z.to_nat (len records * p / 100).
Proof.
  intros [H0 Hp]. unfold truncated. apply Z.ltb_lt in Hp as E. rewrite E.
  unfold int_percent. rewrite Z.quot_div_nonneg by (unfold len; nia).
  apply slice_to_length. split.
  - apply Z.div_pos; unfold len; nia.
  - apply Z.div_le_upper_bound; unfold len; nia.
Qed.

End Truncation.

(** ** Claims about the sanitizer and the map fallback *)

Section CleanClaims.
Import DataAccess.
Context (env : Env).

(** C7 (amended): when some record carries a latitude and some record a
    longitude, [clean_lat_lon] keeps exactly the records whose two
    coordinates read as numbers within [-90, 90] and [-180, 180], in their
    original order, and returns without an error.  A kept record has its
    coordinates replaced by the numbers they were read as (unchanged when
    they were numbers already).  Every other field it carried keeps its
    value, with one exception that the frame makes: in a column whose
    cells over the record set are all numbers, [None] or missing, with a
    number or a missing one among them, a [None] comes back as NaN. *)
Theorem clean_lat_lon_drops_exactly_invalid (records : list pydict) :
  (exists r, In r records /\ dict_in "latitude" r = true) ->
  (exists r, In r records /\ dict_in "longitude" r = true) ->
  exists df,
    clean_lat_lon env (DVal (records_val records)) "latitude" "longitude" = Returns df /\
    (* exactly the valid records, in their order *)
    df_rows df = map (cleaned env records)
                   (List.filter (valid_coordinates env) records) /\
    (* what a kept record looks like *)
    (forall r, In r records ->
       let r' := cleaned env records r in
       dict_get "latitude" r' = Some (to_numeric env (cell "latitude" r)) /\
       dict_get "longitude" r' = Some (to_numeric env (cell "longitude" r)) /\
       (forall q, dict_get "latitude" r = Some (PNum q) -> dict_get "latitude" r' = Some (PNum q)) /\
       (forall q, dict_get "longitude" r = Some (PNum q) -> dict_get "longitude" r' = Some (PNum q)) /\
       (forall c v, c <> "latitude" -> c <> "longitude" ->
                    dict_get c r = Some v -> v <> PNone -> dict_get c r' = Some v) /\
       (forall c, c <> "latitude" -> c <> "longitude" ->
                  dict_get c r = Some PNone ->
                  dict_get c r' = Some (if is_float_column (column_cells c records)
                                        then PNaN else PNone))).
Proof.
  intros (r1 & Hr1 & Hlat) (r2 & Hr2 & Hlon).
  assert (Clat : In "latitude" (all_columns records))
    by (apply In_all_columns; exists r1; split; [assumption | now apply dict_in_keys]).
  assert (Clon : In "longitude" (all_columns records))
    by (apply In_all_columns; exists r2; split; [assumption | now apply dict_in_keys]).
  eexists. split; [now apply clean_lat_lon_records|]. split; [reflexivity|].
  intros r Hr r'. subst r'. unfold cleaned.
  assert (Hcol : forall c v, dict_get c r = Some v -> In c (all_columns records)).
  { intros c v Hv. apply In_all_columns. exists r. split; [assumption|].
    apply dict_in_keys. unfold dict_in. now rewrite Hv. }
  split; [|split; [|split; [|split; [|split]]]].
  - rewrite dict_get_set_ne by discriminate. apply dict_get_set_eq.
  - apply dict_get_set_eq.
  - intros q Hq. rewrite dict_get_set_ne by discriminate. rewrite dict_get_set_eq.
    unfold cell, dict_get_default. now rewrite Hq.
  - intros q Hq. rewrite dict_get_set_eq.
    unfold cell, dict_get_default. now rewrite Hq.
  - intros c v Hc1 Hc2 Hv Hnone. rewrite !dict_get_set_ne by assumption.
    rewrite dict_get_lay_out by eauto.
    unfold frame_cell, dict_get_default. rewrite Hv.
    destruct (is_float_column _); [|reflexivity].
    destruct v; try reflexivity. contradiction.
  - intros c Hc1 Hc2 Hv. rewrite !dict_get_set_ne by assumption.
    rewrite dict_get_lay_out by eauto.
    unfold frame_cell, dict_get_default. rewrite Hv.
    now destruct (is_float_column _).
Qed.

Lemma filter_by_state_keyed state_filter sample :
  Forall has_map_keys sample ->
  filter_by_state state_filter sample
  = Returns (List.filter (fun city => state_matches (cell "state" city) state_filter) sample).
Proof.
  induction 1 as [|city rest (Hstate & _) _ IH]; simpl; [reflexivity|].
  unfold dict_subscript, cell, dict_get_default, dict_in in *.
  destruct (dict_get "state" city) as [state|]; [|discriminate].
  cbn [obind]. rewrite IH. cbn [obind].
  now destruct (state_matches state state_filter).
Qed.

Lemma map_quota_keyed state_filter p sample :
  Forall has_map_keys sample ->
  map_quota state_filter p sample
  = Returns (truncated p (state_filtered state_filter sample)).
Proof.
  intros Hkeys. unfold map_quota, truncated, state_filtered.
  destruct state_filter as [[|s l]|]; try reflexivity.
  now rewrite filter_by_state_keyed.
Qed.

Lemma Forall_filter_list {A} (P : A -> Prop) (f : A -> bool) l :
  Forall P l -> Forall P (List.filter f l).
Proof.
  induction 1; simpl; [constructor|]. destruct (f x); auto.
Qed.

Lemma Forall_slice_to {A} (P : A -> Prop) n (l : list A) :
  Forall P l -> Forall P (slice_to n l).
Proof.
  intros H. unfold slice_to. destruct (0 <=? n); now apply Forall_take.
Qed.

Lemma quota_keyed state_filter p sample :
  Forall has_map_keys sample ->
  Forall has_map_keys (truncated p (state_filtered state_filter sample)).
Proof.
  intros H. unfold truncated, state_filtered.
  assert (Hf : Forall has_map_keys
                 match state_filter with
                 | Some (s :: l) =>
                     List.filter (fun city => state_matches (cell "state" city) (s :: l)) sample
                 | _ => sample
                 end)
    by (destruct state_filter as [[|s l]|]; auto using Forall_filter_list).
  destruct (p <? 100); [now apply Forall_slice_to | exact Hf].
Qed.

Lemma cleaned_answer_keyed quota :
  Forall has_map_keys quota ->
  exists d, cleaned_answer env (records_val quota) = PDict d /\
            dict_get "data" d = Some (records_val (sanitized env quota)).
Proof.
  intros Hkeys. unfold cleaned_answer.
  destruct quota as [|r quota].
  - eexists. split; reflexivity.
  - inversion_clear Hkeys as [|? ? (_ & Hlat & Hlon) _].
    rewrite clean_lat_lon_records.
    + eexists. split; reflexivity.
    + apply In_all_columns. exists r. split; [now left | now apply dict_in_keys].
    + apply In_all_columns. exists r. split; [now left | now apply dict_in_keys].
Qed.



End CleanClaims.

(** ** Claims about the fetches *)

Section GatewayClaims.
Import DataAccess.
Context (env : Env).

(** C2 (amended): the map fetch and the demographic fetch both issue, after
    a failure of their primary function, exactly one more request, to the
    alternate function with the same parameters, and answer from the
    sample data when that fails too; the insights fetch issues one request
    only and answers from the sample data as soon as it fails. *)
Theorem alternate_name_retry state_filter metric w :
  let p := current_percentage env w in
  let params := mkRpcParams p state_filter None in
  let iparams := mkRpcParams p state_filter (Some metric) in
  (* map data *)
  rpc_log (snd (get_map_data env state_filter w))
    = (rpc_log w ++ ("get_map_data_with_tooltips", params)
         :: (if remote_failed env "get_map_data_with_tooltips" params
             then [("get_enhanced_map_data", params)] else []))%list /\
  (remote_failed env "get_map_data_with_tooltips" params = true ->
   remote_failed env "get_enhanced_map_data" params = true ->
   fst (get_map_data env state_filter w)
   = fst (try_except (map_fallback env state_filter p)
            (fun _ => ret (map_total_failure
                             (reason_of (rpc_result env "get_enhanced_map_data" params)))) w)) /\
  (* demographic summary *)
  rpc_log (snd (get_demographic_summary env state_filter w))
    = (rpc_log w ++ ("get_demographic_summary", params)
         :: (if remote_failed env "get_demographic_summary" params
             then [("get_demographic_and_psychographic_metrics", params)] else []))%list /\
  (remote_failed env "get_demographic_summary" params = true ->
   remote_failed env "get_demographic_and_psychographic_metrics" params = true ->
   fst (get_demographic_summary env state_filter w)
   = fst (try_except (demographic_fallback env p)
            (fun _ => ret (demographic_total_failure
                             (reason_of (rpc_result env
                                "get_demographic_and_psychographic_metrics" params)))) w)) /\
  (* market insights *)
  rpc_log (snd (get_market_insights env state_filter metric w))
    = (rpc_log w ++ [("generate_market_insights", iparams)])%list /\
  (remote_failed env "generate_market_insights" iparams = true ->
   fst (get_market_insights env state_filter metric w)
   = fst (try_except (insights_fallback env p)
            (fun _ => ret (insights_total_failure
                             (reason_of (rpc_result env "generate_market_insights" iparams)))) w)).
Proof.
  destruct (get_tier_percentage_returns env w) as (p & w1 & Hp & Hlog).
  rewrite (current_percentage_runs env w p w1 Hp). cbv zeta.
  rewrite (get_map_data_runs env state_filter w w1 p Hp),
          (get_demographic_summary_runs env state_filter w w1 p Hp),
          (get_market_insights_runs env state_filter w w1 p Hp metric).
  cbv zeta.
  assert (Hw : forall primary alternate params,
            rpc_log (after_requests env primary alternate params w1)
            = (rpc_log w ++ (primary, params)
                 :: (if remote_failed env primary params
                     then [(alternate, params)] else []))%list).
  { intros primary alternate params. unfold after_requests.
    destruct (remote_failed env primary params);
      simpl; rewrite Hlog, <- ?app_assoc; reflexivity. }
  split; [|split; [|split; [|split; [|split]]]].
  - destruct (judge env _ _); rewrite ?map_fallback_runs; cbn [snd]; apply Hw.
  - intros H1 H2. rewrite (judge_both_failed env _ _ _ H1 H2).
    now rewrite !map_fallback_runs.
  - destruct (judge env _ _); rewrite ?demographic_fallback_runs; cbn [snd]; apply Hw.
  - intros H1 H2. rewrite (judge_both_failed env _ _ _ H1 H2).
    now rewrite !demographic_fallback_runs.
  - destruct (judge env _ _); rewrite ?insights_fallback_runs; cbn [snd];
      simpl; now rewrite Hlog.
  - intros H1. rewrite (judge_failed env _ _ H1).
    now rewrite !insights_fallback_runs.
Qed.

Lemma cleaned_answer_has_data data :
  exists d, cleaned_answer env data = PDict d /\ dict_in "data" d = true.
Proof.
  unfold cleaned_answer.
  destruct (clean_lat_lon env (DVal data) "latitude" "longitude");
    eexists; split; reflexivity.
Qed.

(** The verdict on an answer that is a JSON object. *)
Lemma judge_object name row :
  judge env name (PDict row)
  = if dict_in "error" row then Failure (reason_of (PDict row))
    else Payload (payload env name row).
Proof.
  destruct (dict_in "error" row) eqn:E.
  - now apply judge_failed.
  - now apply judge_row.
Qed.

(** C4 (amended): provided every answer of the remote is a JSON object, no
    fetch lets an exception escape and each returns on every path.  The
    map fetch always returns a dict with a data field.  The demographic
    and the insights fetch return a dict, unless the remote's row wraps
    its payload under the function's name: then the answer is that payload
    as it is (parsed when it is JSON text).  When the remote call fails
    and the sample-data fallback fails too, for whatever reason, the answer
    is a dict that carries the remote error under "error" and the
    dataset's own list fields empty: "data" for the map, "summary" for the
    demographic summary, "by_state" and "by_segment" for the insights. *)
Theorem gateway_returns_on_every_path state_filter metric w :
  object_rows env ->
  let p := current_percentage env w in
  let params := mkRpcParams p state_filter None in
  let iparams := mkRpcParams p state_filter (Some metric) in
  let demographic_row :=
    last_answer env "get_demographic_summary"
      "get_demographic_and_psychographic_metrics" params in
  let insights_row := rpc_result env "generate_market_insights" iparams in
  (* no exception escapes, and the answers are dicts *)
  (exists d w', get_map_data env state_filter w = (Returns (PDict d), w') /\
                dict_in "data" d = true) /\
  (exists v w', get_demographic_summary env state_filter w = (Returns v, w') /\
     (wraps "get_demographic_summary" demographic_row = false -> exists d, v = PDict d) /\
     (forall row, demographic_row = PDict row ->
        wraps "get_demographic_summary" demographic_row = true ->
        v = parse_if_str env (dict_get_default "get_demographic_summary" PNone row))) /\
  (exists v w', get_market_insights env state_filter metric w = (Returns v, w') /\
     (wraps "generate_market_insights" insights_row = false -> exists d, v = PDict d) /\
     (forall row, insights_row = PDict row ->
        wraps "generate_market_insights" insights_row = true ->
        v = parse_if_str env (dict_get_default "generate_market_insights" PNone row))) /\
  (* the remote call fails and the fallback fails too *)
  (forall e,
     remote_failed env "get_map_data_with_tooltips" params = true ->
     remote_failed env "get_enhanced_map_data" params = true ->
     fst (map_fallback env state_filter p w) = Raises e ->
     fst (get_map_data env state_filter w)
     = Returns (PDict [("data", PList []);
                       ("error", reason_of (rpc_result env "get_enhanced_map_data" params))])) /\
  (forall e,
     remote_failed env "get_demographic_summary" params = true ->
     remote_failed env "get_demographic_and_psychographic_metrics" params = true ->
     fst (demographic_fallback env p w) = Raises e ->
     fst (get_demographic_summary env state_filter w)
     = Returns (PDict [("summary", PList []);
                       ("error", reason_of (rpc_result env
                                   "get_demographic_and_psychographic_metrics" params))])) /\
  (forall e,
     remote_failed env "generate_market_insights" iparams = true ->
     fst (insights_fallback env p w) = Raises e ->
     fst (get_market_insights env state_filter metric w)
     = Returns (PDict [("by_state", PList []); ("by_segment", PList []);
                       ("error", reason_of (rpc_result env "generate_market_insights" iparams))])).
Proof.
  intros Hrows.
  destruct (get_tier_percentage_returns env w) as (p & w1 & Hp & Hlog).
  rewrite (current_percentage_runs env w p w1 Hp). cbv zeta.
  rewrite (get_map_data_runs env state_filter w w1 p Hp),
          (get_demographic_summary_runs env state_filter w w1 p Hp),
          (get_market_insights_runs env state_filter w w1 p Hp metric).
  cbv zeta.
  assert (Hlast : forall primary alternate params,
            exists row, last_answer env primary alternate params = PDict row).
  { intros primary alternate params. unfold last_answer.
    destruct (remote_failed env primary params); apply Hrows. }
  split; [|split; [|split; [|split; [|split]]]].
  - destruct (Hlast "get_map_data_with_tooltips" "get_enhanced_map_data"
                (mkRpcParams p state_filter None)) as [row ->].
    rewrite judge_object. destruct (dict_in "error" row).
    + rewrite map_fallback_runs.
      destruct (get_sample_map_data env) as [sample|msg].
      * destruct (map_quota state_filter p sample) as [quota|e].
        -- destruct (cleaned_answer_has_data (records_val quota)) as (d & -> & Hd). eauto.
        -- do 2 eexists. split; reflexivity.
      * do 2 eexists. split; reflexivity.
    + destruct (cleaned_answer_has_data
                  (payload env "get_map_data_with_tooltips" row)) as (d & -> & Hd).
      eauto.
  - destruct (Hlast "get_demographic_summary" "get_demographic_and_psychographic_metrics"
                (mkRpcParams p state_filter None)) as [row ->].
    rewrite judge_object. cbn [wraps]. destruct (dict_in "error" row); cbn [negb andb].
    + rewrite demographic_fallback_runs. do 2 eexists. split; [reflexivity|].
      split; [|discriminate]. intros _.
      destruct (get_sample_demographic_data env) as [sample|msg]; [|eexists; reflexivity].
      destruct (p <? 100); [|eexists; reflexivity].
      destruct (limit_field "summary" p sample); eexists; reflexivity.
    + do 2 eexists. split; [reflexivity|]. unfold payload, unwrapped. split.
      * intros ->. eexists. reflexivity.
      * intros row' [= <-] ->. reflexivity.
  - destruct (Hrows "generate_market_insights"
                (mkRpcParams p state_filter (Some metric))) as [row ->].
    rewrite judge_object. cbn [wraps]. destruct (dict_in "error" row); cbn [negb andb].
    + rewrite insights_fallback_runs. do 2 eexists. split; [reflexivity|].
      split; [|discriminate]. intros _.
      destruct (get_sample_market_insights env) as [sample|msg]; [|eexists; reflexivity].
      destruct (p <? 100); [|eexists; reflexivity].
      destruct (let+ limited := limit_field "by_state" p sample in
                limit_field "by_segment" p limited); eexists; reflexivity.
    + do 2 eexists. split; [reflexivity|]. unfold payload, unwrapped. split.
      * intros ->. eexists. reflexivity.
      * intros row' [= <-] ->. reflexivity.
  - intros e H1 H2 Hfail. rewrite (judge_both_failed env _ _ _ H1 H2).
    destruct (map_fallback_fails env _ _ _ _
                (after_requests env "get_map_data_with_tooltips" "get_enhanced_map_data"
                   (mkRpcParams p state_filter None) w1) Hfail) as [Hraise He].
    now rewrite (try_except_handles _ _ _ _ Hraise He).
  - intros e H1 H2 Hfail. rewrite (judge_both_failed env _ _ _ H1 H2).
    destruct (demographic_fallback_fails env _ _ _
                (after_requests env "get_demographic_summary"
                   "get_demographic_and_psychographic_metrics"
                   (mkRpcParams p state_filter None) w1) Hfail) as [Hraise He].
    now rewrite (try_except_handles _ _ _ _ Hraise He).
  - intros e H1 Hfail. rewrite (judge_failed env _ _ H1).
    destruct (insights_fallback_fails env _ _ _
                (logged "generate_market_insights"
                   (mkRpcParams p state_filter (Some metric)) w1) Hfail) as [Hraise He].
    now rewrite (try_except_handles _ _ _ _ Hraise He).
Qed.

End GatewayClaims.

(** ** The opportunity score *)

Section Score.
Import OpportunityMap.
Context (env : Env).

Lemma frame_cell_number all c r q :
  dict_get c r = Some (PNum q) -> frame_cell all c r = PNum q.
Proof.
  intros H. unfold frame_cell, dict_get_default. rewrite H.
  now destruct (is_float_column _).
Qed.

Lemma with_scores_laid_out all cols (records : list pydict) :
  In "growth_rate" cols -> In "market_size" cols ->
  (forall r, In r records ->
     exists g m, dict_get "growth_rate" r = Some (PNum g) /\
                 dict_get "market_size" r = Some (PNum m)) ->
  exists rows,
    with_scores env (map (lay_out all cols) records) = Returns rows /\
    Forall2 (fun r r' => exists g m,
               dict_get "growth_rate" r = Some (PNum g) /\
               dict_get "market_size" r = Some (PNum m) /\
               r' = dict_set "opportunity_score"
                      (PNum (float_round1 env (float_div env (float_mul env g m) 1000)))
                      (lay_out all cols r))
      records rows.
Proof.
  intros Cg Cm. induction records as [|r records IH]; intros Hnum.
  - eexists. split; [reflexivity | constructor].
  - destruct (Hnum r (or_introl eq_refl)) as (g & m & Hg & Hm).
    destruct IH as (rows & Hrows & Hall); [intros r' Hr'; apply Hnum; now right|].
    cbn [map with_scores]. unfold row_score.
    rewrite !cell_lay_out by assumption.
    rewrite (frame_cell_number _ _ _ _ Hg), (frame_cell_number _ _ _ _ Hm).
    cbn [operand obind].
    rewrite Hrows. cbn [obind].
    eexists. split; [reflexivity|]. constructor; [|exact Hall].
    exists g, m. repeat split; assumption.
Qed.

(** C8: on a record set without an opportunity-score field every record
    gets [round(growth_rate * market_size / 1000, 1)] as its score (the
    product, the quotient and the rounding being those of the floats); a
    record set that carries the field comes back unchanged. *)
Theorem opportunity_score_derived_when_absent (records : list pydict) :
  In "growth_rate" (all_columns records) ->
  In "market_size" (all_columns records) ->
  (* the record set lacks the field: every record gets the derived score *)
  ((forall r, In r records -> dict_in "opportunity_score" r = false) ->
   (forall r, In r records ->
      exists g m, dict_get "growth_rate" r = Some (PNum g) /\
                  dict_get "market_size" r = Some (PNum m)) ->
   exists df,
     add_opportunity_score env (from_records records) = Returns df /\
     Forall2 (fun r r' => exists g m,
                dict_get "growth_rate" r = Some (PNum g) /\
                dict_get "market_size" r = Some (PNum m) /\
                r' = dict_set "opportunity_score"
                       (PNum (float_round1 env (float_div env (float_mul env g m) 1000)))
                       (lay_out records (all_columns records) r))
       records (df_rows df)) /\
  (* the record set carries the field: nothing changes *)
  ((exists r, In r records /\ dict_in "opportunity_score" r = true) ->
   add_opportunity_score env (from_records records) = Returns (from_records records)).
Proof.
  intros Cg Cm. split.
  - intros Habsent Hnum. unfold add_opportunity_score, from_records.
    cbn [df_columns df_rows].
    destruct (str_in "opportunity_score" (all_columns records)) eqn:E.
    { apply str_in_In, In_all_columns in E. destruct E as (r & Hr & Hk).
      apply dict_in_keys in Hk. rewrite (Habsent r Hr) in Hk. discriminate. }
    unfold column. cbn [df_columns].
    rewrite (proj2 (str_in_In _ _) Cg), (proj2 (str_in_In _ _) Cm). cbn [obind].
    destruct (with_scores_laid_out records (all_columns records) records Cg Cm Hnum)
      as (rows & -> & Hall).
    cbn [obind]. eexists. split; [reflexivity | exact Hall].
  - intros (r & Hr & Hk). unfold add_opportunity_score, from_records.
    cbn [df_columns].
    assert (E : str_in "opportunity_score" (all_columns records) = true).
    { apply str_in_In, In_all_columns. exists r. split; [assumption|].
      now apply dict_in_keys. }
    now rewrite E.
Qed.

End Score.

(** ** Concrete runs *)

Section Runs.
Import DataAccess TierControl.

(** C1: the map fallback has no floor of one record.  With the remote
    unavailable, the Free tier (33 percent) and the state filter ["NY"],
    one sample city matches and the claimed size is max(1, floor(1 * 33 /
    100)) = 1, but the answer holds no record at all (and, the list being
    empty, the cleaning step fails). *)
Theorem map_fallback_single_match_returns_nothing :
  let env := offline (Ok sample_cities) (Failed "unused") (Failed "unused") in
  state_filtered (Some ["NY"]) sample_cities
    = [city "New York" "NY" (407128 # 10000) (-740060 # 10000) 8804190] /\
  current_percentage env (demo_session "Free") = 33 /\
  Z.max 1 (1 * 33 / 100) = 1 /\
  fst (get_map_data env (Some ["NY"]) (demo_session "Free"))
  = Returns (PDict [("data", PList []); ("error", PStr "Lat/lon cleaning failed")]).
Proof. repeat split; vm_compute; reflexivity. Qed.

(** The nine pairs of tiers with no button pressed: the three pairs below
    the diagonal stop the script, the six others return [True]. *)
Example enforce_tier_table :
  map (fun pair =>
         fst (enforce_tier (offline (Failed "unused") (Failed "unused") (Failed "unused"))
                (fst pair) (demo_session (snd pair))))
    [ ("Free", "Free"); ("Free", "Accelerate"); ("Free", "Scale");
      ("Accelerate", "Free"); ("Accelerate", "Accelerate"); ("Accelerate", "Scale");
      ("Scale", "Free"); ("Scale", "Accelerate"); ("Scale", "Scale") ]
  = [ Returns true; Returns true; Returns true;
      Raises StopException; Returns true; Returns true;
      Raises StopException; Raises StopException; Returns true ].
Proof. vm_compute. reflexivity. Qed.

(** C6: the last part of the claim fails on the code.  In a session without
    [user_info] and with no Supabase client, [enforce_tier "Scale"] takes
    the tier for "Free" and shows the upgrade page; with the "View Session
    Info" box of that page ticked it reads [st.session_state.user_info]
    unguarded and raises [AttributeError], an ordinary [Exception], where
    the claim has no operation raise for any tier name.  With the box
    unticked the same call stops the script, and the sibling operations,
    which create the missing [user_info] first, return on that session. *)
Theorem enforce_tier_raises_without_user_info :
  user_info no_session = None /\
  fst (enforce_tier viewing_session_info "Scale" no_session)
  = Raises (AttributeError "user_info") /\
  is_Exception (AttributeError "user_info") = true /\
  fst (enforce_tier (offline (Failed "unused") (Failed "unused") (Failed "unused"))
         "Scale" no_session)
  = Raises StopException /\
  fst (get_user_tier viewing_session_info no_session) = Returns (Some "Free") /\
  fst (set_user_tier viewing_session_info "Scale" no_session) = Returns true /\
  fst (track_feature_usage "export" no_session) = Returns tt.
Proof. repeat split; vm_compute; reflexivity. Qed.

(** The sibling path on the same tier: of the five sample segments one is
    kept, max(1, int(5 * 33 / 100)) = 1; a single segment would be kept
    too. *)
Example demographic_fallback_keeps_one_segment :
  fst (get_demographic_summary (offline (Failed "unused") (Ok sample_segments) (Failed "unused"))
         None (demo_session "Free"))
  = Returns (PDict [("summary", PList [PStr "Empathetic Dreamers"])]) /\
  fst (get_demographic_summary
         (offline (Failed "unused") (Ok [("summary", PList [PStr "Only"])]) (Failed "unused"))
         None (demo_session "Free"))
  = Returns (PDict [("summary", PList [PStr "Only"])]).
Proof. split; vm_compute; reflexivity. Qed.

End Runs.

(** ** Instances and counterexamples *)

Section Instances.
Import DataAccess TierControl.

Lemma clean_lat_lon_drops_exactly_invalid_witness :
  exists df,
    DataAccess.clean_lat_lon (offline (Failed "unused") (Failed "unused") (Failed "unused"))
      (DVal (DataAccess.records_val mixed_records)) "latitude" "longitude" = Returns df /\
    map (dict_get "city") (df_rows df) = [Some (PStr "Austin"); Some (PStr "Boston")].
Proof.
  destruct (clean_lat_lon_drops_exactly_invalid
              (offline (Failed "unused") (Failed "unused") (Failed "unused")) mixed_records)
    as (df & Hdf & Hrows & _).
  - eexists. split; [left; reflexivity | reflexivity].
  - eexists. split; [left; reflexivity | reflexivity].
  - exists df. split; [exact Hdf|]. rewrite Hrows. reflexivity.
Defined.

(** C7, as stated, fails: of two records with valid coordinates, the one
    whose population is [None] does not come back with its field values
    intact, for its population comes back as NaN; and records none of
    which carries a coordinate (here, no record at all) are not sanitized,
    for the lookup of the latitude column raises. *)
Lemma sanitizer_does_not_keep_records_intact :
  let env := offline (Failed "unused") (Failed "unused") (Failed "unused") in
  List.filter (valid_coordinates env) unknown_population = unknown_population /\
  ~ sanitizer_keeps_records_intact env unknown_population /\
  ~ sanitizer_keeps_records_intact env [].
Proof.
  intros env. split; [reflexivity|].
  split; [|intros (df & Hdf & _); vm_compute in Hdf; discriminate].
  intros (df & Hdf & Hrows).
  change (List.filter (valid_coordinates env) unknown_population)
    with unknown_population in Hrows.
  vm_compute in Hdf. injection Hdf as <-.
  unfold unknown_population in Hrows. cbn [df_rows] in Hrows.
  inversion Hrows as [|r r' l l' Hkeep _]; subst.
  specialize (Hkeep "population" ltac:(discriminate) ltac:(discriminate) eq_refl).
  vm_compute in Hkeep. discriminate.
Qed.

Lemma opportunity_score_derived_when_absent_witness :
  exists df,
    OpportunityMap.add_opportunity_score (offline (Failed "unused") (Failed "unused") (Failed "unused"))
      (from_records scored_input) = Returns df /\
    map (dict_get "opportunity_score") (df_rows df)
    = [Some (PNum (2500 # 10)); Some (PNum (100 # 10))].
Proof.
  destruct (opportunity_score_derived_when_absent
              (offline (Failed "unused") (Failed "unused") (Failed "unused")) scored_input)
    as [Habsent _].
  - vm_compute. tauto.
  - vm_compute. tauto.
  - destruct Habsent as (df & Hdf & _).
    + intros r [<- | [<- | []]]; reflexivity.
    + intros r [<- | [<- | []]]; do 2 eexists; split; reflexivity.
    + exists df. split; [exact Hdf|].
      vm_compute in Hdf. injection Hdf as <-. reflexivity.
Defined.

Lemma sample_cities_keyed : Forall has_map_keys sample_cities.
Proof. repeat constructor. Qed.


(** C2, as stated, fails: the demographic fetch does not fall back directly;
    it asks the alternate function first. *)
Lemma demographic_summary_retries_alternate_name :
  remote_failed only_alternate_demographic "get_demographic_summary"
    (mkRpcParams 33 None None) = true /\
  rpc_log (snd (get_demographic_summary only_alternate_demographic None
                  (demo_session "Free")))
  = [("get_demographic_summary", mkRpcParams 33 None None);
     ("get_demographic_and_psychographic_metrics", mkRpcParams 33 None None)] /\
  fst (get_demographic_summary only_alternate_demographic None (demo_session "Free"))
  = Returns (PDict [("age", PDict [("25-34", PNum (31 # 1))])]) /\
  ~ demographic_falls_back_directly only_alternate_demographic None (demo_session "Free").
Proof.
  repeat split; try (vm_compute; reflexivity).
  intros H. specialize (H eq_refl). vm_compute in H. discriminate.
Qed.

Lemma alternate_name_retry_witness :
  let env := offline (Ok sample_cities) (Failed "unused") (Ok []) in
  fst (get_map_data env None (demo_session "Free"))
  = fst (try_except (map_fallback env None 33)
           (fun _ => ret (map_total_failure (PStr "Supabase client not available")))
           (demo_session "Free")) /\
  fst (get_market_insights env None "market_size" (demo_session "Free"))
  = fst (try_except (insights_fallback env 33)
           (fun _ => ret (insights_total_failure (PStr "Supabase client not available")))
           (demo_session "Free")).
Proof.
  pose proof (alternate_name_retry (offline (Ok sample_cities) (Failed "unused") (Ok []))
                None "market_size" (demo_session "Free"))
    as (_ & Hmap & _ & _ & _ & Hinsights).
  split.
  - exact (Hmap eq_refl eq_refl).
  - exact (Hinsights eq_refl).
Defined.

(** C4, as stated, fails in two places.  A row that wraps a list under the
    function's name makes the demographic fetch return that list, which is
    no dict; and when everything fails the demographic answer has a
    "summary" field and no "data" field. *)
Lemma demographic_answer_is_a_list_and_failure_has_no_data :
  fst (get_demographic_summary (remote_answering "get_demographic_summary" wrapped_segments)
         None (demo_session "Free"))
  = Returns (PList [PStr "Empathetic Dreamers"; PStr "Practical Realists"]) /\
  ~ demographic_answer_is_dict (remote_answering "get_demographic_summary" wrapped_segments)
      None (demo_session "Free") /\
  fst (get_demographic_summary
         (offline (Failed "no sample") (Failed "no sample") (Failed "no sample"))
         None (demo_session "Free"))
  = Returns (PDict [("summary", PList []);
                    ("error", PStr "Supabase client not available")]) /\
  ~ demographic_failure_has_empty_data
      (offline (Failed "no sample") (Failed "no sample") (Failed "no sample"))
      None (demo_session "Free").
Proof.
  split; [vm_compute; reflexivity|].
  split; [intros (d & Hd); vm_compute in Hd; discriminate|].
  split; [vm_compute; reflexivity|].
  intros H. destruct (H eq_refl eq_refl (ex_intro _ "no sample" eq_refl)) as (d & Hd & Hdata).
  vm_compute in Hd. injection Hd as <-. vm_compute in Hdata. discriminate.
Qed.

Lemma gateway_returns_on_every_path_witness :
  let env := offline (Failed "no sample") (Failed "no sample") (Failed "no sample") in
  object_rows env /\
  fst (get_map_data env None (demo_session "Free"))
  = Returns (PDict [("data", PList []);
                    ("error", PStr "Supabase client not available")]) /\
  fst (get_market_insights env None "market_size" (demo_session "Free"))
  = Returns (PDict [("by_state", PList []); ("by_segment", PList []);
                    ("error", PStr "Supabase client not available")]).
Proof.
  intros env.
  assert (Hrows : object_rows env) by (intros fn params; eexists; reflexivity).
  split; [exact Hrows|].
  pose proof (gateway_returns_on_every_path env None "market_size" (demo_session "Free")
                Hrows)
    as (_ & _ & _ & Hmap & _ & Hinsights).
  split.
  - exact (Hmap (ExternalError "no sample") eq_refl eq_refl eq_refl).
  - exact (Hinsights (ExternalError "no sample") eq_refl eq_refl).
Defined.

Lemma enforce_tier_denies_below_allows_otherwise_witness :
  let env := offline (Failed "unused") (Failed "unused") (Failed "unused") in
  (exists w', enforce_tier env "Scale" (demo_session "Free") = (Raises StopException, w') \/
              enforce_tier env "Scale" (demo_session "Free") = (Raises RerunException, w')) /\
  (exists w', enforce_tier env "Free" (demo_session "Free") = (Returns true, w')).
Proof.
  assert (Hactive : active_tier_is (demo_session "Free") "Free")
    by (eexists; split; reflexivity).
  split.
  - apply (proj1 (enforce_tier_denies_below_allows_otherwise
                    (offline (Failed "unused") (Failed "unused") (Failed "unused"))
                    "Scale" "Free" (demo_session "Free")
                    (or_intror (or_intror eq_refl)) (or_introl eq_refl) Hactive)).
    reflexivity.
  - apply (proj2 (enforce_tier_denies_below_allows_otherwise
                    (offline (Failed "unused") (Failed "unused") (Failed "unused"))
                    "Free" "Free" (demo_session "Free")
                    (or_introl eq_refl) (or_introl eq_refl) Hactive)).
    discriminate.
Defined.

Lemma can_access_feature_iff_present_and_not_false_witness :
  exists b w',
    can_access_feature (offline (Failed "unused") (Failed "unused") (Failed "unused")) "export"
      (demo_session "Accelerate") = (Returns b, w') /\
    b = true.
Proof.
  destruct (can_access_feature_iff_present_and_not_false
              (offline (Failed "unused") (Failed "unused") (Failed "unused"))
              "Accelerate" "export" (demo_session "Accelerate"))
    as (b & w' & Hrun & Hiff & _).
  - eexists. split; reflexivity.
  - exists b, w'. split; [exact Hrun|].
    apply Hiff. exists (FBool true). split; [reflexivity | now left].
Defined.

Lemma unknown_tier_behaves_as_free_witness :
  let env := offline (Failed "unused") (Failed "unused") (Failed "unused") in
  fst (TierControl.get_tier_percentage env (session_with_tier "Gold" (demo_session "Scale")))
  = fst (TierControl.get_tier_percentage env (session_with_tier "Free" (demo_session "Scale"))) /\
  fst (enforce_tier env "Scale" (session_with_tier "Gold" (demo_session "Scale")))
  = fst (enforce_tier env "Scale" (session_with_tier "Free" (demo_session "Scale"))).
Proof.
  assert (Hgold : ~ defined_tier "Gold")
    by (intros [H | [H | H]]; discriminate).
  pose proof (unknown_tier_behaves_as_free (offline (Failed "unused") (Failed "unused") (Failed "unused"))
                "Gold" Hgold (demo_session "Scale") "export" "Scale")
    as (Hpct & _ & _ & _ & Henforce & _).
  split; assumption.
Defined.

Lemma set_user_tier_validates_before_mutating_witness :
  let env := offline (Failed "unused") (Failed "unused") (Failed "unused") in
  set_user_tier env "Gold" (demo_session "Free") = (Returns false, demo_session "Free") /\
  exists w' u',
    set_user_tier env "Scale" (demo_session "Free") = (Returns true, w') /\
    user_info w' = Some u' /\
    ui_tier u' = Some (Some "Scale").
Proof.
  split.
  - apply (proj1 (set_user_tier_validates_before_mutating
                    (offline (Failed "unused") (Failed "unused") (Failed "unused")) "Gold"
                    (demo_session "Free"))).
    intros [H | [H | H]]; discriminate.
  - destruct (proj2 (set_user_tier_validates_before_mutating
                       (offline (Failed "unused") (Failed "unused") (Failed "unused")) "Scale"
                       (demo_session "Free")) (or_intror (or_intror eq_refl)))
      as (w' & u' & Hrun & Hinfo & Htier & _).
    exists w', u'. repeat split; assumption.
Defined.

End Instances.

(** * Further properties of the code *)

#[local] Arguments session_of : simpl never.

(** ** Computations that keep a property of the world *)

Section Keeping.
Context (P : World -> Prop).

Lemma preserves_ret {A} (a : A) : preserves P (ret a).
Proof. now intros w. Qed.

Lemma preserves_raise {A} e : preserves P (raise (A:=A) e).
Proof. now intros w. Qed.

Lemma preserves_lift {A} (o : outcome A) : preserves P (lift o).
Proof. now intros w. Qed.

Lemma preserves_call {A} (x : external A) : preserves P (call x).
Proof. destruct x; now intros w. Qed.

Lemma preserves_get_world : preserves P get_world.
Proof. now intros w. Qed.

Lemma preserves_bind {A B} (m : M A) (k : A -> M B) :
  preserves P m -> (forall a, preserves P (k a)) -> preserves P (bind m k).
Proof.
  intros Hm Hk w Hw. unfold bind. specialize (Hm w Hw).
  destruct (m w) as [[a|e] w1]; simpl in *; [now apply Hk | exact Hm].
Qed.

Lemma preserves_try_except {A} (body : M A) handler :
  preserves P body -> (forall e, preserves P (handler e)) ->
  preserves P (try_except body handler).
Proof.
  intros Hm Hk w Hw. unfold try_except. specialize (Hm w Hw).
  destruct (body w) as [[a|e] w1]; simpl in *; [exact Hm|].
  destruct (is_Exception e); [now apply Hk | exact Hm].
Qed.

Lemma preserves_for_each {A} (l : list A) body :
  (forall x, preserves P (body x)) -> preserves P (for_each l body).
Proof.
  intros Hb. induction l as [|x l IH]; simpl.
  - apply preserves_ret.
  - apply preserves_bind; [apply Hb | intros _; exact IH].
Qed.

End Keeping.

(** Takes a computation apart along its binds, branches and handlers. *)
Ltac preserve :=
  repeat first
    [ assumption
    | solve [auto]
    | apply preserves_ret | apply preserves_raise | apply preserves_lift
    | apply preserves_call | apply preserves_get_world
    | apply preserves_bind; [|intros ?]
    | apply preserves_try_except; [|intros ?]
    | apply preserves_for_each; intros ?
    | match goal with
      | |- preserves _ (if ?b then _ else _) => destruct b
      | |- preserves _ (match ?x with _ => _ end) => destruct x
      end ].

Lemma never_returns_raise {A} e : never_returns (raise (A:=A) e).
Proof. intros w. now exists e, w. Qed.

Lemma never_returns_bind {A B} (m : M A) (k : A -> M B) :
  (forall a, never_returns (k a)) -> never_returns (bind m k).
Proof.
  intros Hk w. unfold bind. destruct (m w) as [[a|e] w1]; [apply Hk | now exists e, w1].
Qed.

Lemma yields_ret {A} (a : A) (Q : A -> Prop) : Q a -> yields (ret a) Q.
Proof. now intros H w. Qed.

Lemma yields_lift {A} (o : outcome A) (Q : A -> Prop) :
  raises_only_exceptions o -> (forall a, o = Returns a -> Q a) -> yields (lift o) Q.
Proof. intros He Hq w. unfold lift. destruct o as [a|e]; auto. Qed.

Lemma yields_bind {A B} (m : M A) (k : A -> M B) (R : A -> Prop) (Q : B -> Prop) :
  yields m R -> (forall a, R a -> yields (k a) Q) -> yields (bind m k) Q.
Proof.
  intros Hm Hk w. unfold bind. specialize (Hm w).
  destruct (m w) as [[a|e] w1]; [apply (Hk a Hm) | exact Hm].
Qed.

(** A [try] whose body raises ordinary exceptions only always reaches the
    [return] after it. *)
Lemma yields_try {A} (body : M (option A)) (Q : A -> Prop) (dflt : A) w :
  yields body (fun r => match r with Some a => Q a | None => True end) ->
  Q dflt ->
  exists a w',
    (let* returned := try_except body (fun _ => ret None) in ret (default dflt returned)) w
    = (Returns a, w') /\ Q a.
Proof.
  intros Hb Hd. unfold bind, try_except. specialize (Hb w).
  destruct (body w) as [[[a|]|e] w1].
  - exists a, w1. auto.
  - exists dflt, w1. auto.
  - rewrite Hb. exists dflt, w1. auto.
Qed.

(** Looks a key up through a chain of updates. *)
Ltac dict_lookup :=
  repeat first [ rewrite dict_get_set_eq
               | rewrite dict_get_set_ne by (discriminate || congruence) ];
  reflexivity.

(** The conjuncts one after the other, so that what an earlier one fixes is
    known to the later ones. *)
Ltac in_turn tac :=
  first [ apply conj; [solve [tac] | in_turn tac] | solve [tac] ].

(** ** The session's counters and history *)

Section SessionFacts.
Import TierControl.
Context (env : Env).

Lemma session_of_some u c pw rl : session_of (mkWorld (Some u) c pw rl) = u.
Proof. reflexivity. Qed.

Lemma track_feature_usage_runs feature_name w :
  track_feature_usage feature_name w =
    (Returns tt, mkWorld (Some (tracked feature_name (session_of w)))
                   (clock w) (profile_writes w) (rpc_log w)).
Proof.
  unfold track_feature_usage, user_info_or_empty, get_world, put_user_info, ret, bind,
    session_of, tracked.
  destruct (user_info w) as [u|]; simpl.
  - f_equal. f_equal. f_equal.
    destruct u as [t0 n0 e0 i0 la lt fu dc tct th]; simpl.
    unfold with_data_access_count, with_feature_usage; simpl.
    destruct (default ∅ fu !! feature_name) eqn:E; simpl.
    + rewrite E. destruct dc; reflexivity.
    + rewrite lookup_insert_eq, insert_insert_eq. destruct dc; reflexivity.
  - rewrite lookup_empty. simpl. rewrite lookup_insert_eq, insert_insert_eq. reflexivity.
Qed.

Lemma track_feature_usage_effect feature_name w :
  exists w',
    track_feature_usage feature_name w = (Returns tt, w') /\
    usage_of feature_name w' = usage_of feature_name w + 1 /\
    (forall other, other <> feature_name -> usage_of other w' = usage_of other w) /\
    access_count w' = access_count w + 1 /\
    ui_tier (session_of w') = ui_tier (session_of w) /\
    ui_tier_history (session_of w') = ui_tier_history (session_of w).
Proof.
  eexists. split; [apply track_feature_usage_runs|].
  unfold usage_of, access_count, session_of; simpl.
  repeat split.
  - now rewrite lookup_insert_eq.
  - intros other Hne. now rewrite lookup_insert_ne.
Qed.

(** X4: [track_feature_usage] always returns; it raises the named feature's
    counter and the access count by one each (starting either from 0 when
    absent), and leaves every other counter, every other key of the
    session, the clock and the logs as they were. *)
Theorem track_feature_usage_counts feature_name w :
  exists w',
    track_feature_usage feature_name w = (Returns tt, w') /\
    usage_of feature_name w' = usage_of feature_name w + 1 /\
    (forall other, other <> feature_name -> usage_of other w' = usage_of other w) /\
    access_count w' = access_count w + 1 /\
    session_of w' =
      with_data_access_count (access_count w')
        (with_feature_usage (default ∅ (ui_feature_usage (session_of w')))
           (session_of w)) /\
    clock w' = clock w /\ profile_writes w' = profile_writes w /\ rpc_log w' = rpc_log w.
Proof.
  eexists. split; [apply track_feature_usage_runs|].
  unfold usage_of, access_count. rewrite session_of_some. simpl.
  split; [now rewrite lookup_insert_eq|].
  split; [intros other Hne; now rewrite lookup_insert_ne|].
  repeat split.
Qed.

Lemma usage_total_insert feature_name n (usage : gmap string Z) :
  usage !! feature_name = None ->
  usage_total (<[feature_name := n]> usage) = n + usage_total usage.
Proof.
  intros H. unfold usage_total.
  rewrite map_fold_insert_L; [reflexivity | intros; lia | exact H].
Qed.

Lemma usage_total_increment feature_name (usage : gmap string Z) :
  usage_total (<[feature_name := default 0 (usage !! feature_name) + 1]> usage)
  = usage_total usage + 1.
Proof.
  destruct (usage !! feature_name) as [n|] eqn:E; simpl.
  - rewrite <- (insert_delete_id usage feature_name n E) at 2.
    rewrite <- insert_delete_eq.
    rewrite !usage_total_insert by apply lookup_delete_eq. lia.
  - rewrite usage_total_insert by exact E. lia.
Qed.

Lemma track_feature_usage_consistent feature_name :
  preserves usage_consistent (track_feature_usage feature_name).
Proof.
  intros w H. rewrite track_feature_usage_runs.
  unfold usage_consistent, access_count, session_of in *; simpl.
  rewrite usage_total_increment. lia.
Qed.

Lemma set_user_tier_runs tier w :
  defined_tier tier ->
  exists pw,
    set_user_tier env tier w =
      (Returns true,
       mkWorld (Some (tier_set tier (isoformat_at env (clock w))
                        (isoformat_at env (S (clock w))) (session_of w)))
         (S (S (clock w))) pw (rpc_log w)).
Proof.
  intros H. apply dict_in_defined in H. unfold set_user_tier. rewrite H. simpl.
  unfold session_of, tier_set.
  destruct w as [[u|] c pw rl]; simpl;
    unfold bind, user_info_or_empty, get_world, now, put_user_info, ret,
      try_except, call, log_profile_write, raise; simpl.
  - destruct u as [t0 n0 e0 i0 la lt fu dc tct th]; simpl.
    destruct th as [h|], (supabase env) as [client|]; simpl;
      try destruct i0 as [uid|]; simpl;
      try destruct (update_profile_tier client uid tier); simpl;
      eexists; reflexivity.
  - destruct (supabase env) as [client|]; simpl; eexists; reflexivity.
Qed.

Lemma set_user_tier_cases tier w :
  set_user_tier env tier w = (Returns false, w) \/
  exists pw,
    set_user_tier env tier w =
      (Returns true,
       mkWorld (Some (tier_set tier (isoformat_at env (clock w))
                        (isoformat_at env (S (clock w))) (session_of w)))
         (S (S (clock w))) pw (rpc_log w)).
Proof.
  destruct (dict_in tier TIER_DEFINITIONS) eqn:E.
  - right. apply set_user_tier_runs. now apply dict_in_defined.
  - left. unfold set_user_tier. now rewrite E.
Qed.

(** What [tier_from_supabase] leaves in the session: nothing new, or the
    profile's tier, identity and activity times. *)
Lemma tier_from_supabase_cases w :
  tier_from_supabase env w = (Returns None, w) \/
  exists tier u' c',
    tier_from_supabase env w =
      (Returns (Some tier), mkWorld (Some u') c' (profile_writes w) (rpc_log w)) /\
    ui_tier u' = Some tier /\
    ui_feature_usage u' = ui_feature_usage (session_of w) /\
    ui_data_access_count u' = ui_data_access_count (session_of w) /\
    ui_tier_history u' = ui_tier_history (session_of w).
Proof.
  unfold tier_from_supabase.
  destruct (supabase env) as [client|]; [|now left].
  unfold try_except, bind, call.
  destruct (fetch_profile client) as [[p|]|msg]; simpl; try (now left).
  right. unfold user_info_or_empty, get_world, bind, ret, put_user_info, now, session_of.
  destruct w as [[u|] c pw rl]; simpl.
  - destruct (ui_login_time u); simpl; do 3 eexists; (split; [reflexivity|]); simpl; auto.
  - do 3 eexists; (split; [reflexivity|]); simpl; auto.
Qed.

Lemma get_user_tier_cases w :
  (exists t u,
     user_info w = Some u /\ ui_tier u = Some t /\
     get_user_tier env w =
       (Returns t, mkWorld (Some (with_last_active (isoformat_at env (clock w)) u))
                     (S (clock w)) (profile_writes w) (rpc_log w))) \/
  (ui_tier (session_of w) = None /\
   (get_user_tier env w = (Returns (Some "Free"), w) \/
    exists tier u' c',
      get_user_tier env w =
        (Returns tier, mkWorld (Some u') c' (profile_writes w) (rpc_log w)) /\
      ui_tier u' = Some tier /\
      ui_feature_usage u' = ui_feature_usage (session_of w) /\
      ui_data_access_count u' = ui_data_access_count (session_of w) /\
      ui_tier_history u' = ui_tier_history (session_of w))).
Proof.
  unfold get_user_tier, bind, get_world.
  destruct (user_info w) as [u|] eqn:Hu.
  - destruct (ui_tier u) as [t|] eqn:Ht.
    + left. exists t, u. auto.
    + right. split; [unfold session_of; now rewrite Hu|].
      destruct (tier_from_supabase_cases w) as [H | (tier & u' & c' & H & Hrest)];
        rewrite H; [now left|].
      right. exists tier, u', c'. auto.
  - right. split; [unfold session_of; now rewrite Hu|].
    destruct (tier_from_supabase_cases w) as [H | (tier & u' & c' & H & Hrest)];
      rewrite H; [now left|].
    right. exists tier, u', c'. auto.
Qed.

(** The usage counters are touched by [track_feature_usage] alone. *)
Lemma get_user_tier_usage x :
  preserves (fun w => usage_fields w = x) (get_user_tier env).
Proof.
  intros w Hw.
  destruct (get_user_tier_cases w)
    as [(t & u & Hu & Ht & ->) | (_ & [-> | (tier & u' & c' & -> & _ & H1 & H2 & _)])];
    simpl; [|exact Hw|].
  - rewrite <- Hw. unfold usage_fields, session_of. simpl. now rewrite Hu.
  - rewrite <- Hw. unfold usage_fields. cbn [snd]. rewrite !session_of_some. now rewrite H1, H2.
Qed.

Lemma set_user_tier_usage tier x :
  preserves (fun w => usage_fields w = x) (set_user_tier env tier).
Proof.
  intros w Hw. destruct (set_user_tier_cases tier w) as [-> | (pw & ->)]; [exact Hw|].
  exact Hw.
Qed.

Lemma chained_snoc h e :
  chained h ->
  match last h with Some e0 => Some (tc_to e0) = tc_from e | None => True end ->
  chained (h ++ [e]).
Proof.
  induction h as [|a [|b h] IH]; simpl; intros Hc Hl; auto.
  destruct Hc as [Hab Hc]. split; [exact Hab|]. apply IH; assumption.
Qed.

Lemma get_user_tier_linked : preserves history_linked (get_user_tier env).
Proof.
  intros w Hw.
  destruct (get_user_tier_cases w)
    as [(t & u & Hu & Ht & ->) | (Hnone & [-> | (tier & u' & c' & -> & Ht & _ & _ & Hh)])];
    simpl; [|exact Hw|].
  - unfold history_linked, session_of in *. simpl. now rewrite Hu in Hw.
  - unfold history_linked in *. cbn [snd]. rewrite !session_of_some, Hh, Ht.
    destruct (ui_tier_history (session_of w)) as [h|]; [|exact I].
    destruct Hw as [Hc Hl]. split; [exact Hc|].
    destruct (last h); [congruence | exact I].
Qed.

Lemma set_user_tier_linked tier : preserves history_linked (set_user_tier env tier).
Proof.
  intros w Hw. destruct (set_user_tier_cases tier w) as [-> | (pw & ->)]; [exact Hw|].
  unfold history_linked in *. cbn [snd]. rewrite !session_of_some. simpl.
  rewrite last_snoc. split; [|reflexivity].
  apply chained_snoc.
  - destruct (ui_tier_history (session_of w)) as [h|]; [apply Hw | exact I].
  - destruct (ui_tier_history (session_of w)) as [h|]; simpl; [|exact I].
    destruct Hw as [_ Hl]. destruct (last h); [|exact I]. now rewrite Hl.
Qed.

Lemma track_feature_usage_linked feature_name :
  preserves history_linked (track_feature_usage feature_name).
Proof. intros w Hw. rewrite track_feature_usage_runs. exact Hw. Qed.

Lemma get_user_tier_consistent : preserves usage_consistent (get_user_tier env).
Proof.
  intros w Hw. pose proof (get_user_tier_usage _ w eq_refl) as H.
  unfold usage_consistent, access_count, usage_fields in *.
  injection H as H1 H2. now rewrite H1, H2.
Qed.

Lemma set_user_tier_consistent tier : preserves usage_consistent (set_user_tier env tier).
Proof.
  intros w Hw. pose proof (set_user_tier_usage tier _ w eq_refl) as H.
  unfold usage_consistent, access_count, usage_fields in *.
  injection H as H1 H2. now rewrite H1, H2.
Qed.

Lemma usage_of_fields w1 w2 feature_name :
  usage_fields w1 = usage_fields w2 -> usage_of feature_name w1 = usage_of feature_name w2.
Proof. unfold usage_fields, usage_of. now intros [= -> _]. Qed.

Lemma access_count_fields w1 w2 :
  usage_fields w1 = usage_fields w2 -> access_count w1 = access_count w2.
Proof. unfold usage_fields, access_count. now intros [= _ ->]. Qed.

End SessionFacts.

(** ** What holds of the base operations holds of the composed ones *)

Section Composite.
Import TierControl.
Context (env : Env) (P : World -> Prop).
Hypothesis Hget : preserves P (get_user_tier env).
Hypothesis Hset : forall tier, preserves P (set_user_tier env tier).
Hypothesis Htrack : forall feature_name, preserves P (track_feature_usage feature_name).

Lemma tier_info_preserves tier : preserves P (tier_info tier).
Proof. unfold tier_info. preserve. Qed.

Lemma tier_info_of_preserves tier : preserves P (tier_info_of tier).
Proof. destruct tier; [apply tier_info_preserves | apply preserves_lift]. Qed.

Lemma get_tier_percentage_preserves : preserves P (get_tier_percentage env).
Proof. unfold get_tier_percentage. pose proof tier_info_preserves. pose proof tier_info_of_preserves. preserve. Qed.

Lemma can_access_feature_preserves feature_name :
  preserves P (can_access_feature env feature_name).
Proof. unfold can_access_feature. pose proof tier_info_preserves. pose proof tier_info_of_preserves. preserve. Qed.

Lemma get_feature_limitations_preserves feature_name :
  preserves P (get_feature_limitations env feature_name).
Proof. unfold get_feature_limitations. pose proof tier_info_preserves. pose proof tier_info_of_preserves. preserve. Qed.

Lemma switch_button_preserves label tier : preserves P (switch_button env label tier).
Proof. unfold switch_button. preserve. Qed.

Lemma upgrade_column_preserves user_tier required_tier required_level item :
  preserves P (upgrade_column env user_tier required_tier required_level item).
Proof. unfold upgrade_column. preserve. Qed.

Lemma enforce_tier_preserves required_tier : preserves P (enforce_tier env required_tier).
Proof.
  unfold enforce_tier.
  pose proof tier_info_preserves. pose proof tier_info_of_preserves. pose proof switch_button_preserves.
  pose proof upgrade_column_preserves. preserve.
Qed.

Lemma tier_limited_preserves {A} func_name (func : M A) required_tier feature_name :
  preserves P func ->
  preserves P (tier_limited env func_name func required_tier feature_name).
Proof. intros Hf. unfold tier_limited. pose proof enforce_tier_preserves. preserve. Qed.

Lemma render_upgrade_button_preserves required_tier button_text :
  preserves P (render_upgrade_button env required_tier button_text).
Proof. unfold render_upgrade_button. pose proof tier_info_preserves. pose proof tier_info_of_preserves. preserve. Qed.

Lemma apply_tier_limit_preserves data tier_percentage :
  preserves P (apply_tier_limit env data tier_percentage).
Proof. unfold apply_tier_limit. pose proof get_tier_percentage_preserves. preserve. Qed.

End Composite.

(** ** The tier registry, continued *)

Section TierTheorems.
Import TierControl.
Context (env : Env).

Lemma init_session_cases w :
  (exists u, user_info w = Some u /\ init_session env w = (Returns tt, w)) \/
  (user_info w = None /\
   exists t t' c',
     init_session env w =
       (Returns tt,
        mkWorld (Some (mkUserInfo (Some (Some "Free")) (Some "Demo User")
                         (Some "demo@example.com") None (Some t) (Some t') (Some ∅)
                         (Some 0) None None)) c' (profile_writes w) (rpc_log w))).
Proof.
  unfold init_session, bind, get_world.
  destruct (user_info w) as [u|] eqn:Hu; [left; now exists u|].
  right. split; [reflexivity|]. do 3 eexists. reflexivity.
Qed.

Lemma upgrade_page_never_returns user_tier required_tier required_level :
  never_returns (upgrade_page env user_tier required_tier required_level).
Proof.
  unfold upgrade_page.
  repeat (apply never_returns_bind; intros ?). apply never_returns_raise.
Qed.

Lemma upgrade_page_usage user_tier required_tier required_level x :
  preserves (fun w => usage_fields w = x)
    (upgrade_page env user_tier required_tier required_level).
Proof.
  unfold upgrade_page.
  pose proof (fun l t => switch_button_preserves env _ (fun t => set_user_tier_usage env t x) l t).
  pose proof (fun a b c d => upgrade_column_preserves env _ (fun t => set_user_tier_usage env t x) a b c d).
  preserve.
Qed.

Lemma enforce_tier_unfolds required w :
  exists user_tier w1,
    get_user_tier env w = (Returns user_tier, w1) /\
    if level (tier_def_of user_tier) <? level (tier_def required)
    then exists e w',
           upgrade_page env user_tier required (level (tier_def required)) w1 = (Raises e, w') /\
           enforce_tier env required w = (Raises e, w')
    else enforce_tier env required w =
           (Returns true,
            snd (track_feature_usage ("access_" +:+ required +:+ "_feature") w1)).
Proof.
  destruct (get_user_tier_returns env w) as (t & w1 & Hget & _).
  exists t, w1. split; [exact Hget|].
  unfold enforce_tier.
  rewrite (bind_returns _ _ _ _ _ Hget).
  rewrite (bind_returns _ _ _ _ _ (tier_info_of_returns _ _)).
  rewrite (bind_returns _ _ _ _ _ (tier_info_returns _ _)).
  destruct (level (tier_def_of t) <? level (tier_def required)).
  - destruct (upgrade_page_never_returns t required (level (tier_def required)) w1)
      as (e & w' & Hpage).
    exists e, w'. split; [exact Hpage|].
    apply bind_raises. exact Hpage.
  - unfold bind at 1. unfold ret at 1. unfold bind.
    rewrite track_feature_usage_runs. reflexivity.
Qed.

(** [enforce_tier] counts an access when it grants one, and only then. *)
Lemma enforce_tier_usage required w :
  let key := "access_" +:+ required +:+ "_feature" in
  match enforce_tier env required w with
  | (Returns b, w') =>
      b = true /\
      usage_of key w' = usage_of key w + 1 /\
      (forall other, other <> key -> usage_of other w' = usage_of other w) /\
      access_count w' = access_count w + 1
  | (Raises e, w') => usage_fields w' = usage_fields w
  end.
Proof.
  intros key.
  destruct (enforce_tier_unfolds required w) as (t & w1 & Hget & H).
  pose proof (get_user_tier_usage env _ w eq_refl) as Hw1.
  rewrite Hget in Hw1. cbn [snd] in Hw1.
  destruct (level (tier_def_of t) <? level (tier_def required)).
  - destruct H as (e & w' & Hpage & ->).
    pose proof (upgrade_page_usage t required (level (tier_def required)) _ w1 eq_refl) as Hp.
    rewrite Hpage in Hp. cbn [snd] in Hp. congruence.
  - rewrite H. split; [reflexivity|].
    destruct (track_feature_usage_effect key w1) as (w' & Hrun & H1 & H2 & H3 & _).
    fold key. rewrite Hrun. cbn [snd].
    rewrite H1, H3, (usage_of_fields _ _ _ Hw1), (access_count_fields _ _ Hw1).
    repeat split. intros other Hne. rewrite (H2 other Hne). now apply usage_of_fields.
Qed.

(** X1: after a successful [set_user_tier tier], [get_user_tier] answers
    [tier] and [get_tier_percentage] the registry's percentage of that
    tier; no remote data function is called on the way. *)
Theorem set_then_get_user_tier tier w :
  defined_tier tier ->
  exists w1 w2,
    set_user_tier env tier w = (Returns true, w1) /\
    get_user_tier env w1 = (Returns (Some tier), w2) /\
    fst (get_tier_percentage env w1) = Returns (data_percentage (tier_def tier)) /\
    rpc_log w2 = rpc_log w.
Proof.
  intros H. destruct (set_user_tier_runs env tier w H) as [pw Hset].
  eexists. eexists. split; [exact Hset|]. split.
  - eapply get_user_tier_active; reflexivity.
  - split; [|reflexivity].
    unfold get_tier_percentage.
    erewrite bind_returns by (eapply get_user_tier_active; reflexivity).
    now rewrite (bind_returns _ _ _ _ _ (tier_info_of_returns _ _)).
Qed.

(** X2: the tier history stays an unbroken chain that ends at the active
    tier (each entry's "from" is the previous entry's "to", and the last
    "to" is the session's tier): this holds before the session is set up
    and is kept by every operation of the module, however it ends. *)
Theorem tier_history_stays_linked :
  (forall w, user_info w = None -> history_linked w) /\
  preserves history_linked (init_session env) /\
  preserves history_linked (get_user_tier env) /\
  (forall tier, preserves history_linked (set_user_tier env tier)) /\
  (forall feature_name, preserves history_linked (track_feature_usage feature_name)) /\
  (forall required_tier, preserves history_linked (enforce_tier env required_tier)) /\
  (forall A func_name (func : M A) required_tier feature_name,
     preserves history_linked func ->
     preserves history_linked
       (tier_limited env func_name func required_tier feature_name)) /\
  (forall data tier_percentage,
     preserves history_linked (apply_tier_limit env data tier_percentage)).
Proof.
  pose proof (get_user_tier_linked env) as Hget.
  pose proof (set_user_tier_linked env) as Hset.
  pose proof track_feature_usage_linked as Htrack.
  repeat split; auto.
  - intros w Hw. unfold history_linked, session_of. now rewrite Hw.
  - intros w Hw.
    destruct (init_session_cases w) as [(u & _ & ->) | (_ & t & t' & c' & ->)];
      [exact Hw | exact I].
  - intros required. now apply enforce_tier_preserves.
  - intros A func_name func required feature_name Hf. now apply tier_limited_preserves.
  - intros data tier_percentage. now apply apply_tier_limit_preserves.
Qed.

(** X3: once [set_user_tier tier] has succeeded, [enforce_tier required]
    returns [True] when the level of [tier] reaches the level of
    [required], and otherwise ends the script run on the upgrade page. *)
Theorem set_user_tier_then_enforce_tier tier required w :
  defined_tier tier ->
  exists w1 w2,
    set_user_tier env tier w = (Returns true, w1) /\
    enforce_tier env required w1 =
      (if level (tier_def tier) <? level (tier_def required)
       then Raises (page_exit env (level (tier_def required)))
       else Returns true, w2).
Proof.
  intros H. destruct (set_user_tier_runs env tier w H) as [pw Hset].
  eexists. 
  edestruct (enforce_tier_outcome env required tier) as [w2 Hw2];
    [|exists w2; split; [exact Hset | exact Hw2]].
  eexists. split; reflexivity.
Qed.

(** X5: [data_access_count] is the sum of the counters of [feature_usage]:
    this holds before the session is set up and is kept by every operation
    of the module, however it ends. *)
Theorem access_count_is_total_usage :
  (forall w, user_info w = None -> usage_consistent w) /\
  preserves usage_consistent (init_session env) /\
  preserves usage_consistent (get_user_tier env) /\
  (forall tier, preserves usage_consistent (set_user_tier env tier)) /\
  (forall feature_name, preserves usage_consistent (track_feature_usage feature_name)) /\
  (forall required_tier, preserves usage_consistent (enforce_tier env required_tier)) /\
  (forall A func_name (func : M A) required_tier feature_name,
     preserves usage_consistent func ->
     preserves usage_consistent
       (tier_limited env func_name func required_tier feature_name)) /\
  (forall data tier_percentage,
     preserves usage_consistent (apply_tier_limit env data tier_percentage)).
Proof.
  pose proof (get_user_tier_consistent env) as Hget.
  pose proof (set_user_tier_consistent env) as Hset.
  pose proof track_feature_usage_consistent as Htrack.
  repeat split; auto.
  - intros w Hw. unfold usage_consistent, access_count, session_of. now rewrite Hw.
  - intros w Hw.
    destruct (init_session_cases w) as [(u & _ & ->) | (_ & t & t' & c' & ->)];
      [exact Hw | reflexivity].
  - intros required. now apply enforce_tier_preserves.
  - intros A func_name func required feature_name Hf. now apply tier_limited_preserves.
  - intros data tier_percentage. now apply apply_tier_limit_preserves.
Qed.

(** X6: [enforce_tier] records a usage exactly when it grants access: when
    it raises (the upgrade page, whatever button is pressed there) both
    usage fields are as before; when it returns, it returns [True], the
    counter "access_<required>_feature" and the access count are one
    higher, and no other counter has changed. *)
Theorem enforce_tier_counts_granted_access_only required w :
  let key := "access_" +:+ required +:+ "_feature" in
  (forall e w', enforce_tier env required w = (Raises e, w') ->
     usage_fields w' = usage_fields w) /\
  (forall b w', enforce_tier env required w = (Returns b, w') ->
     b = true /\
     usage_of key w' = usage_of key w + 1 /\
     (forall other, other <> key -> usage_of other w' = usage_of other w) /\
     access_count w' = access_count w + 1).
Proof.
  intros key. pose proof (enforce_tier_usage required w) as H. cbv zeta in H.
  split; intros x w' E; rewrite E in H; exact H.
Qed.

Lemma track_feature_usage_active feature_name w t :
  active_tier_is w t ->
  active_tier_is (snd (track_feature_usage feature_name w)) t.
Proof.
  intros (u & Hu & Ht). rewrite track_feature_usage_runs. cbn [snd].
  eexists. split; [reflexivity|]. unfold session_of. now rewrite Hu.
Qed.

Lemma usage_of_tracked feature_name other w :
  usage_of other w <= usage_of other (snd (track_feature_usage feature_name w)).
Proof.
  destruct (track_feature_usage_effect feature_name w) as (w' & -> & H1 & H2 & _).
  cbn [snd]. destruct (String.eqb_spec other feature_name) as [->|Hne].
  - lia.
  - rewrite (H2 other Hne). lia.
Qed.

(** X7: a function wrapped by [tier_limited] runs only when the session's
    tier reaches the required one.  Below it the wrapper ends the script
    run with the same exception and the same world whatever the function
    is, having counted the attempt and nothing else; otherwise it runs the
    function in a world where the attempt, the granted access and the
    feature have been counted (three more accesses). *)
Theorem tier_limited_runs_only_when_allowed {A} func_name required_tier feature_name
    active w :
  let required := default "Free" required_tier in
  let feature := default func_name feature_name in
  active_tier_is w active ->
  (level (tier_def active) < level (tier_def required) ->
   exists w',
     (forall func : M A,
        tier_limited env func_name func required_tier feature_name w
        = (Raises (page_exit env (level (tier_def required))), w')) /\
     usage_of ("attempt_" +:+ feature) w' = usage_of ("attempt_" +:+ feature) w + 1 /\
     access_count w' = access_count w + 1) /\
  (level (tier_def required) <= level (tier_def active) ->
   exists w',
     (forall func : M A,
        tier_limited env func_name func required_tier feature_name w = func w') /\
     usage_of ("attempt_" +:+ feature) w + 1 <= usage_of ("attempt_" +:+ feature) w' /\
     usage_of feature w + 1 <= usage_of feature w' /\
     access_count w' = access_count w + 3).
Proof.
  intros required feature Hact.
  destruct (track_feature_usage_effect ("attempt_" +:+ feature) w)
    as (w1 & Hrun & Hattempt & _ & Hcount & _).
  pose proof (track_feature_usage_active ("attempt_" +:+ feature) w active Hact) as Hact1.
  rewrite Hrun in Hact1. cbn [snd] in Hact1.
  destruct (enforce_tier_outcome env required active w1 Hact1) as [w2 Henf].
  pose proof (enforce_tier_usage required w1) as Huse. cbv zeta in Huse.
  rewrite Henf in Huse.
  split; intros Hlev.
  - apply Z.ltb_lt in Hlev. rewrite Hlev in Henf, Huse.
    exists w2. split.
    + intros func. unfold tier_limited. fold required feature.
      rewrite (bind_returns _ _ _ _ _ Hrun). now apply bind_raises.
    + rewrite (usage_of_fields _ _ _ Huse), (access_count_fields _ _ Huse). lia.
  - apply Z.ltb_ge in Hlev. rewrite Hlev in Henf, Huse.
    destruct Huse as (_ & Hk & Hother & Hc).
    exists (snd (track_feature_usage feature w2)). split.
    + intros func. unfold tier_limited. fold required feature.
      rewrite (bind_returns _ _ _ _ _ Hrun), (bind_returns _ _ _ _ _ Henf).
      unfold bind. now rewrite track_feature_usage_runs.
    + assert (Hmono : forall k, usage_of k w1 <= usage_of k w2).
      { intros k.
        destruct (String.eqb_spec k ("access_" +:+ required +:+ "_feature")) as [->|Hne].
        - lia.
        - rewrite (Hother k Hne). lia. }
      destruct (track_feature_usage_effect feature w2) as (w3 & Hrun3 & Hf & _ & Hc3 & _).
      rewrite Hrun3. cbn [snd].
      pose proof (usage_of_tracked feature ("attempt_" +:+ feature) w2) as Hm3.
      rewrite Hrun3 in Hm3. cbn [snd] in Hm3.
      pose proof (Hmono ("attempt_" +:+ feature)).
      pose proof (Hmono feature).
      pose proof (usage_of_tracked ("attempt_" +:+ feature) feature w) as Hm1.
      rewrite Hrun in Hm1. cbn [snd] in Hm1.
      repeat split; lia.
Qed.

(** X8: a feature for which [get_feature_limitations] answers a text is a
    feature that [can_access_feature] allows, in every world. *)
Theorem limitation_implies_access feature_name w s :
  fst (get_feature_limitations env feature_name w) = Returns (Some s) ->
  fst (can_access_feature env feature_name w) = Returns true.
Proof.
  destruct (get_user_tier_returns env w) as (t & w1 & Hget & _).
  unfold get_feature_limitations, can_access_feature.
  rewrite !(bind_returns _ _ _ _ _ Hget).
  rewrite !(bind_returns _ _ _ _ _ (tier_info_of_returns _ _)).
  unfold dict_in, dict_subscript, lift, bind.
  destruct (dict_get feature_name (features (tier_def_of t))) as [[b|s']|]; simpl;
    try discriminate; reflexivity.
Qed.

(** X9: a tier of a higher level loses nothing: every feature the lower
    tier may access the higher tier may access too, and the data
    percentages are ordered like the levels, within 1..100. *)
Theorem higher_tier_never_loses lower higher feature_name wl wh :
  active_tier_is wl lower -> active_tier_is wh higher ->
  level (tier_def lower) <= level (tier_def higher) ->
  (fst (can_access_feature env feature_name wl) = Returns true ->
   fst (can_access_feature env feature_name wh) = Returns true) /\
  (exists p q,
     fst (get_tier_percentage env wl) = Returns p /\
     fst (get_tier_percentage env wh) = Returns q /\
     0 < p <= q /\ q <= 100).
Proof.
  intros Hl Hh Hlev.
  destruct (can_access_feature_active env lower feature_name wl Hl) as [w1 ->].
  destruct (can_access_feature_active env higher feature_name wh Hh) as [w2 ->].
  destruct (get_tier_percentage_active env lower wl Hl) as [w3 ->].
  destruct (get_tier_percentage_active env higher wh Hh) as [w4 ->].
  cbn [fst].
  revert Hlev. unfold tier_def. simpl.
  repeat match goal with
         | |- context [String.eqb ?a ?b] => destruct (String.eqb a b); simpl
         end;
    intros Hlev; try lia;
    (split; [intros H; first [reflexivity | discriminate H]
            | do 2 eexists; repeat split; lia]).
Qed.

Lemma apply_tier_limit_session data w p w1 :
  get_tier_percentage env w = (Returns p, w1) ->
  apply_tier_limit env data None w = apply_tier_limit env data (Some p) w1.
Proof.
  intros H. unfold apply_tier_limit.
  rewrite (bind_returns _ _ _ _ _ H). reflexivity.
Qed.

(** X10: without an explicit percentage [apply_tier_limit] cuts a list to
    the percentage of the session's tier: the result is a prefix of the
    list, the whole list at 100 percent, and otherwise max(1, floor(N * P /
    100)) items of a non-empty list of N, so never an empty list. *)
Theorem apply_tier_limit_session_percentage (l : list pyval) tier w :
  active_tier_is w tier ->
  let p := data_percentage (tier_def tier) in
  exists l' w',
    apply_tier_limit env (DVal (PList l)) None w = (Returns (DVal (PList l')), w') /\
    l' = take (length l') l /\
    (l <> [] -> l' <> []) /\
    len l' = (if 100 <=? p then len l
              else if len l =? 0 then 0 else Z.max 1 (len l * p / 100)).
Proof.
  intros Hact p.
  destruct (get_tier_percentage_active env tier w Hact) as [w1 Hp].
  rewrite (apply_tier_limit_session _ _ _ _ Hp), apply_tier_limit_list. fold p.
  eexists. exists w1. split; [reflexivity|].
  destruct (100 <=? p) eqn:E.
  - repeat split; [now rewrite firstn_all | auto].
  - destruct l as [|x l]; [repeat split; auto|].
    apply Z.leb_gt in E.
    assert (Hlen : 0 < len (x :: l)) by (unfold len; simpl; lia).
    pose proof (limit_size_within _ _ Hlen E) as Hb.
    unfold limit_size in Hb. rewrite limit_size_floor in Hb by lia.
    assert (Hl : length (take (Z.to_nat (Z.max 1 (len (x :: l) * p / 100))) (x :: l))
                 = Z.to_nat (Z.max 1 (len (x :: l) * p / 100))).
    { rewrite length_take. unfold len in *. lia. }
    repeat split.
    + now rewrite Hl.
    + intros _ Hnil. rewrite Hnil in Hl. simpl in Hl. lia.
    + unfold len at 1. rewrite Hl.
      replace (len (x :: l) =? 0) with false by (symmetry; apply Z.eqb_neq; lia).
      lia.
Qed.

Lemma apply_tier_limit_dict_runs (d : pydict) (l : list pyval) p w :
  dict_get "data" d = Some (PList l) ->
  p < 100 ->
  let limit := Z.max 1 (len l * p / 100) in
  apply_tier_limit env (DVal (PDict d)) (Some p) w =
    match tier_meta (dict_set "data" (PList (take (Z.to_nat limit) l)) d) p limit (len l) with
    | Returns d' => (Returns (DVal (PDict d')), w)
    | Raises e => (Raises e, w)
    end.
Proof.
  intros Hdata Hp limit.
  assert (Htruthy : TierControl.truthy (PDict d) = true).
  { destruct d; [discriminate Hdata | reflexivity]. }
  assert (Hlimit : limit_size (len l) p = limit).
  { unfold limit_size, limit. apply limit_size_floor. unfold len. lia. }
  apply Z.leb_gt in Hp as E.
  unfold apply_tier_limit. unfold bind at 1. cbn [ret].
  rewrite Htruthy, E, Hdata. cbn [negb]. rewrite Hlimit.
  rewrite slice_to_prefix by (unfold limit; lia).
  unfold bind, lift, ret. now destruct (tier_meta _ _ _ _).
Qed.

(** X11: on an API-style response (a dictionary whose "data" is a list of N
    items) and a percentage below 100, [apply_tier_limit] keeps the first
    max(1, floor(N * P / 100)) items and records under "meta" that the
    response is tier-limited, the percentage, the limit as "showing" (1
    even when the list is empty) and N as "total"; the other keys of the
    response are unchanged.  A "meta" that is no dictionary makes it raise
    a [TypeError]. *)
Theorem apply_tier_limit_dict_meta (d : pydict) (l : list pyval) p w :
  dict_get "data" d = Some (PList l) ->
  p < 100 ->
  let limit := Z.max 1 (len l * p / 100) in
  ((dict_get "meta" d = None \/ exists meta, dict_get "meta" d = Some (PDict meta)) ->
   exists d' meta',
     apply_tier_limit env (DVal (PDict d)) (Some p) w = (Returns (DVal (PDict d')), w) /\
     dict_get "data" d' = Some (PList (take (Z.to_nat limit) l)) /\
     dict_get "meta" d' = Some (PDict meta') /\
     dict_get "tier_limited" meta' = Some (PBool true) /\
     dict_get "tier_percentage" meta' = Some (PInt p) /\
     dict_get "showing" meta' = Some (PInt limit) /\
     dict_get "total" meta' = Some (PInt (len l)) /\
     (forall key, key <> "data" -> key <> "meta" -> dict_get key d' = dict_get key d)) /\
  (forall v, dict_get "meta" d = Some v -> (forall meta, v <> PDict meta) ->
     exists msg,
       apply_tier_limit env (DVal (PDict d)) (Some p) w = (Raises (TypeError msg), w)).
Proof.
  intros Hdata Hp limit.
  rewrite (apply_tier_limit_dict_runs d l p w Hdata Hp). fold limit.
  unfold tier_meta, dict_in.
  rewrite dict_get_set_ne by discriminate.
  split.
  - intros [Hnone | [meta Hmeta]].
    + rewrite Hnone. rewrite dict_get_set_eq.
      do 2 eexists. split; [reflexivity|].
      in_turn ltac:(try (intros key H1 H2); dict_lookup).
    + rewrite Hmeta. rewrite dict_get_set_ne by discriminate. rewrite Hmeta.
      do 2 eexists. split; [reflexivity|].
      in_turn ltac:(try (intros key H1 H2); dict_lookup).
  - intros v Hv Hnd. rewrite Hv.
    rewrite dict_get_set_ne by discriminate. rewrite Hv.
    destruct v; try (eexists; reflexivity).
    exfalso. now apply (Hnd d0).
Qed.

(** X12: when the session has no tier and the profile table has a row for
    the signed-in user, [get_user_tier] answers the row's tier as it is (a
    name, or [None] when the column is NULL) and stores it with the user's
    id and email, so that the next call is answered from the session,
    whatever the remote says then; the percentage lookup that follows
    reads the stored tier, a [None] like an unknown name as Free. *)
Theorem get_user_tier_caches_profile_tier client profile w :
  supabase env = Some client ->
  fetch_profile client = Ok (Some profile) ->
  ui_tier (session_of w) = None ->
  let tier := p_tier profile in
  exists w1,
    get_user_tier env w = (Returns tier, w1) /\
    ui_tier (session_of w1) = Some tier /\
    ui_id (session_of w1) = Some (p_id profile) /\
    ui_email (session_of w1) = Some (p_email profile) /\
    (forall env', exists w2, get_user_tier env' w1 = (Returns tier, w2)) /\
    fst (get_tier_percentage env w1) = Returns (data_percentage (tier_def_of tier)).
Proof.
  intros Hclient Hfetch Hnone tier.
  assert (Hrun : exists u' c',
            get_user_tier env w =
              (Returns tier, mkWorld (Some u') c' (profile_writes w) (rpc_log w)) /\
            ui_tier u' = Some tier /\ ui_id u' = Some (p_id profile) /\
            ui_email u' = Some (p_email profile)).
  { unfold get_user_tier, bind at 1, get_world.
    assert (Hsup : exists u' c',
              tier_from_supabase env w =
                (Returns (Some tier),
                 mkWorld (Some u') c' (profile_writes w) (rpc_log w)) /\
              ui_tier u' = Some tier /\ ui_id u' = Some (p_id profile) /\
              ui_email u' = Some (p_email profile)).
    { unfold tier_from_supabase. rewrite Hclient.
      unfold try_except, bind, call. rewrite Hfetch. cbn [ret].
      unfold user_info_or_empty, get_world, bind, ret, put_user_info, now.
      destruct w as [[u|] c pw rl]; simpl.
      - destruct (ui_login_time u); simpl; do 2 eexists; (split; [reflexivity|]); simpl; auto.
      - do 2 eexists; (split; [reflexivity|]); simpl; auto. }
    destruct Hsup as (u' & c' & Hsup & Hrest).
    unfold session_of in Hnone.
    destruct (user_info w) as [u|]; simpl in Hnone.
    - rewrite Hnone. unfold bind. rewrite Hsup. exists u', c'. auto.
    - unfold bind. rewrite Hsup. exists u', c'. auto. }
  destruct Hrun as (u' & c' & Hrun & Ht & Hid & Hemail).
  eexists. split; [exact Hrun|].
  split; [exact Ht|]. split; [exact Hid|]. split; [exact Hemail|]. split.
  - intros env'. eexists. eapply get_user_tier_active; [reflexivity | exact Ht].
  - unfold get_tier_percentage.
    erewrite bind_returns by (eapply get_user_tier_active; [reflexivity | exact Ht]).
    now rewrite (bind_returns _ _ _ _ _ (tier_info_of_returns _ _)).
Qed.

(** X13: [render_upgrade_button] shows its button only below the required
    level: it answers [False] wherever [enforce_tier] grants access, and
    where it answers [True], [enforce_tier] ends the script run. *)
Theorem upgrade_button_only_below_required required button_text active w :
  active_tier_is w active ->
  (fst (enforce_tier env required w) = Returns true ->
   fst (render_upgrade_button env required button_text w) = Returns false) /\
  (fst (render_upgrade_button env required button_text w) = Returns true ->
   fst (enforce_tier env required w) = Raises (page_exit env (level (tier_def required)))).
Proof.
  intros Hact.
  destruct (enforce_tier_outcome env required active w Hact) as [w' ->].
  destruct Hact as (u & Hu & Ht).
  unfold render_upgrade_button.
  rewrite (bind_returns _ _ _ _ _ (get_user_tier_active env w u (Some active) Hu Ht)).
  rewrite (bind_returns _ _ _ _ _ (tier_info_of_returns _ _)).
  rewrite (bind_returns _ _ _ _ _ (tier_info_returns _ _)).
  cbn [fst tier_def_of].
  destruct (level (tier_def active) <? level (tier_def required)).
  - split; [discriminate | reflexivity].
  - split; [reflexivity | discriminate].
Qed.

Lemma hex_digit_bounds c d : hex_digit c = Some d -> 0 <= d <= 15.
Proof.
  unfold hex_digit.
  set (n := Z.of_N (Ascii.N_of_ascii c)).
  destruct ((48 <=? n) && (n <=? 57)) eqn:E1; [intros [= <-]; lia|].
  destruct ((97 <=? n) && (n <=? 102)) eqn:E2; [intros [= <-]; lia|].
  destruct ((65 <=? n) && (n <=? 70)) eqn:E3; [intros [= <-]; lia | discriminate].
Qed.

Lemma hex_digit_not_hash c d : hex_digit c = Some d -> Ascii.eqb c (Ascii.ascii_of_nat 35) = false.
Proof.
  intros H. destruct (Ascii.eqb_spec c (Ascii.ascii_of_nat 35)) as [->|]; [|reflexivity].
  discriminate H.
Qed.

(** X14: on a colour of six hexadecimal digits, with or without the leading
    hash and whatever follows the digits, [hex_to_rgb] returns the three
    channels as the fractions n/255 of the two-digit numbers, each between
    0 and 255. *)
Theorem hex_to_rgb_six_digits (hashed : bool) c1 c2 c3 c4 c5 c6 d1 d2 d3 d4 d5 d6 rest :
  hex_digit c1 = Some d1 -> hex_digit c2 = Some d2 -> hex_digit c3 = Some d3 ->
  hex_digit c4 = Some d4 -> hex_digit c5 = Some d5 -> hex_digit c6 = Some d6 ->
  let digits :=
    String c1 (String c2 (String c3 (String c4 (String c5 (String c6 rest))))) in
  let hex_color := if hashed then String (Ascii.ascii_of_nat 35) digits else digits in
  hex_to_rgb hex_color
  = Returns ((16 * d1 + d2 # 255)%Q, (16 * d3 + d4 # 255)%Q, (16 * d5 + d6 # 255)%Q) /\
  0 <= 16 * d1 + d2 <= 255 /\ 0 <= 16 * d3 + d4 <= 255 /\ 0 <= 16 * d5 + d6 <= 255.
Proof.
  intros H1 H2 H3 H4 H5 H6 digits hex_color.
  pose proof (hex_digit_bounds _ _ H1). pose proof (hex_digit_bounds _ _ H2).
  pose proof (hex_digit_bounds _ _ H3). pose proof (hex_digit_bounds _ _ H4).
  pose proof (hex_digit_bounds _ _ H5). pose proof (hex_digit_bounds _ _ H6).
  split; [|lia].
  assert (Hstrip : lstrip_hash hex_color = digits).
  { pose proof (hex_digit_not_hash _ _ H1) as Hc.
    unfold hex_color, digits. destruct hashed.
    - change (lstrip_hash (String (Ascii.ascii_of_nat 35) ?s)) with (lstrip_hash s).
      cbn [lstrip_hash]. now rewrite Hc.
    - cbn [lstrip_hash]. now rewrite Hc. }
  unfold hex_to_rgb. rewrite Hstrip. unfold digits.
  cbn [String.substring]. unfold int16. cbn [hex_digits].
  rewrite H1, H2, H3, H4, H5, H6. cbn [hex_digits].
  destruct rest; cbn [String.substring hex_digits];
    rewrite ?Z.mul_0_r, ?Z.add_0_l; reflexivity.
Qed.

End TierTheorems.

(** ** The sanitizer and the map fetch, continued *)

Section DictMore.
Context {V : Type}.
Implicit Types (d : list (string * V)) (k : string) (v : V).

Lemma dict_set_same k v d : dict_get k d = Some v -> dict_set k v d = d.
Proof.
  induction d as [|[k' v'] d IH]; simpl; [discriminate|].
  destruct (String.eqb_spec k k') as [->|Hne].
  - now intros [= ->].
  - intros H. now rewrite IH.
Qed.

End DictMore.

Lemma cell_number c (r : pydict) q : cell c r = PNum q -> dict_get c r = Some (PNum q).
Proof.
  unfold cell, dict_get_default. destruct (dict_get c r); [now intros -> | discriminate].
Qed.

Lemma filter_all {A} (f : A -> bool) l :
  Forall (fun x => f x = true) l -> List.filter f l = l.
Proof.
  induction 1 as [|x l Hx _ IH]; simpl; [reflexivity|]. now rewrite Hx, IH.
Qed.

Lemma Forall_filter_true {A} (f : A -> bool) l :
  Forall (fun x => f x = true) (List.filter f l).
Proof.
  induction l as [|x l IH]; simpl; [constructor|].
  destruct (f x) eqn:E; [constructor|]; assumption.
Qed.

Lemma Forall_both {A} (P Q : A -> Prop) l :
  Forall P l -> Forall Q l -> Forall (fun x => P x /\ Q x) l.
Proof. induction 1; inversion 1; subst; constructor; auto. Qed.

Section CleanMore.
Import TierControl DataAccess.
Context (env : Env).

Lemma in_range_of_tests r :
  cell_ge (-90) (cell "latitude" r) && cell_le 90 (cell "latitude" r) = true ->
  cell_ge (-180) (cell "longitude" r) && cell_le 180 (cell "longitude" r) = true ->
  numeric_in_range r = true.
Proof.
  unfold numeric_in_range, cell_ge, cell_le.
  destruct (cell "latitude" r); try discriminate.
  destruct (cell "longitude" r); try discriminate.
  intros H1 H2. now rewrite <- andb_assoc, H1, H2.
Qed.

(** What a frame that left [clean_lat_lon] looks like. *)
Lemma clean_lat_lon_result data df :
  clean_lat_lon env data "latitude" "longitude" = Returns df ->
  str_in "latitude" (df_columns df) = true /\
  str_in "longitude" (df_columns df) = true /\
  Forall (fun r => numeric_in_range r = true) (df_rows df).
Proof.
  unfold clean_lat_lon.
  destruct (match data with
            | DVal (PList l) => frame_of_list l
            | DFrame df0 => Returns df0
            | DVal _ => Raises (ValueError "Input must be a list of dicts or a DataFrame")
            end) as [df0|e]; cbn [obind]; [|discriminate].
  unfold column. cbn [assign df_columns df_rows].
  destruct (str_in "latitude" (df_columns df0)) eqn:Elat; cbn [obind]; [|discriminate].
  unfold add_column. rewrite Elat.
  destruct (str_in "longitude" (df_columns df0)) eqn:Elon; cbn [obind]; [|discriminate].
  intros [= <-]. unfold dropna, select_rows. cbn [df_columns df_rows].
  unfold assign, add_column. cbn [df_columns df_rows]. rewrite Elat, Elon.
  split; [assumption|]. split; [assumption|].
  set (rows := List.filter _ (map _ _)).
  eapply Forall_impl.
  - apply Forall_both.
    + apply Forall_filter_list. apply Forall_filter_true.
    + apply Forall_filter_true.
  - cbv beta. intros r [H1 H2]. now apply in_range_of_tests.
Qed.

Lemma clean_lat_lon_fixed df :
  str_in "latitude" (df_columns df) = true ->
  str_in "longitude" (df_columns df) = true ->
  Forall (fun r => numeric_in_range r = true) (df_rows df) ->
  clean_lat_lon env (DFrame df) "latitude" "longitude" = Returns df.
Proof.
  intros Elat Elon Hrows. unfold clean_lat_lon. cbn [obind].
  unfold column. cbn [assign df_columns df_rows].
  rewrite Elat. cbn [obind]. unfold add_column. rewrite Elat, Elon. cbn [obind].
  unfold dropna, select_rows, assign, add_column. cbn [df_columns df_rows].
  rewrite Elat, Elon.
  destruct df as [cols rows]. cbn [df_columns df_rows] in *. f_equal. f_equal.
  assert (Hsame : map (fun r => dict_set "longitude" (to_numeric env (cell "longitude" r)) r)
                    (map (fun r => dict_set "latitude" (to_numeric env (cell "latitude" r)) r)
                       rows) = rows).
  { induction Hrows as [|r rows Hr _ IH]; [reflexivity|]. cbn [map]. rewrite IH. f_equal.
    unfold numeric_in_range in Hr.
    destruct (cell "latitude" r) as [| | |lat| | |] eqn:Clat; try discriminate.
    destruct (cell "longitude" r) as [| | |lon| | |] eqn:Clon; try discriminate.
    cbn [to_numeric].
    rewrite (dict_set_same "latitude" (PNum lat) r (cell_number _ _ _ Clat)).
    rewrite Clon. cbn [to_numeric].
    apply dict_set_same. now apply cell_number. }
  rewrite Hsame.
  assert (Hin : forall r, numeric_in_range r = true ->
            forallb (fun c => negb (isna (cell c r))) ["latitude"; "longitude"] = true /\
            cell_ge (-90) (cell "latitude" r) && cell_le 90 (cell "latitude" r) = true /\
            cell_ge (-180) (cell "longitude" r) && cell_le 180 (cell "longitude" r) = true).
  { intros r. unfold numeric_in_range, cell_ge, cell_le. cbn [forallb].
    destruct (cell "latitude" r); try discriminate.
    destruct (cell "longitude" r); try discriminate.
    rewrite <- andb_assoc. intros H. apply andb_prop in H as [H1 H2].
    now rewrite H1, H2. }
  rewrite (filter_all (fun r => forallb _ _) rows)
    by (eapply Forall_impl; [exact Hrows | intros r Hr; now apply Hin]).
  rewrite (filter_all _ rows)
    by (eapply Forall_impl; [exact Hrows | intros r Hr; now apply Hin]).
  rewrite (filter_all _ rows)
    by (eapply Forall_impl; [exact Hrows | intros r Hr; now apply Hin]).
  reflexivity.
Qed.

(** X18: [clean_lat_lon] is idempotent: a frame it returned, whatever the
    input was, comes back unchanged when it is cleaned again. *)
Theorem clean_lat_lon_idempotent data df :
  clean_lat_lon env data "latitude" "longitude" = Returns df ->
  clean_lat_lon env (DFrame df) "latitude" "longitude" = Returns df.
Proof.
  intros H. apply clean_lat_lon_result in H as (Hlat & Hlon & Hrows).
  now apply clean_lat_lon_fixed.
Qed.

Lemma numeric_in_range_cleaned cols r :
  numeric_in_range (cleaned env cols r) = valid_coordinates env r.
Proof.
  unfold numeric_in_range, valid_coordinates.
  now rewrite cell_cleaned_latitude, cell_cleaned_longitude.
Qed.

Lemma cleaned_answer_shape data d :
  cleaned_answer env data = PDict d ->
  dict_in "error" d = false ->
  exists rows,
    d = [("data", records_val rows)] /\
    Forall (fun r => numeric_in_range r = true) rows.
Proof.
  unfold cleaned_answer.
  destruct (clean_lat_lon env (DVal data) "latitude" "longitude") as [df|e] eqn:E.
  - intros [= <-] _. exists (df_rows df). split; [reflexivity|].
    now apply clean_lat_lon_result in E as (_ & _ & H).
  - intros [= <-]. discriminate.
Qed.

(** Every answer of the map fetch is the answer of a cleaning step or the
    dictionary of total failure; what it raises instead is an [Exception]
    of reading the remote's answer. *)
Lemma get_map_data_shape state_filter w :
  match fst (get_map_data env state_filter w) with
  | Returns v =>
      (exists data, v = cleaned_answer env data) \/
      (exists reason, v = map_total_failure reason)
  | Raises e => is_Exception e = true
  end.
Proof.
  destruct (get_tier_percentage_returns env w) as (p & w1 & Hp & _).
  rewrite (get_map_data_runs env state_filter w w1 p Hp). cbv zeta.
  destruct (judge env _ _) as [reason|data|e] eqn:E.
  - rewrite map_fallback_runs. cbn [fst].
    destruct (get_sample_map_data env) as [sample|msg]; [|eauto].
    destruct (map_quota state_filter p sample) as [quota|e]; eauto.
  - cbn [fst]. eauto.
  - cbn [fst]. now apply judge_escapes in E.
Qed.

(** X15: an answer of [get_map_data] without an "error" key has the "data"
    key only, and every record under it has numeric coordinates within
    [-90, 90] and [-180, 180], on every path (remote, alternate remote,
    sample data). *)
Theorem map_answer_without_error_is_clean state_filter w d :
  fst (get_map_data env state_filter w) = Returns (PDict d) ->
  dict_in "error" d = false ->
  exists rows,
    d = [("data", records_val rows)] /\
    Forall (fun r => numeric_in_range r = true) rows.
Proof.
  pose proof (get_map_data_shape state_filter w) as Hshape.
  intros Hrun. rewrite Hrun in Hshape.
  destruct Hshape as [[data Hd] | [reason Hd]].
  - now apply cleaned_answer_shape with (data := data).
  - injection Hd as ->. discriminate.
Qed.

Lemma In_slice_to {A} n (l : list A) x : In x (slice_to n l) -> In x l.
Proof.
  assert (H : Forall (fun y => In y l) (slice_to n l)).
  { apply Forall_slice_to. apply List.Forall_forall. auto. }
  intros Hx. now apply (proj1 (List.Forall_forall _ _) H).
Qed.

Lemma In_truncated p (records : list pydict) r :
  In r (truncated p records) -> In r records.
Proof. unfold truncated. destruct (p <? 100); [apply In_slice_to | auto]. Qed.

(** X16: the map fallback honours the state filter: with a non-empty filter
    every record it returns is of a state of the filter and has valid
    numeric coordinates, and below 100 percent it returns at most floor(N *
    P / 100) of the N sample records that match the filter. *)
Theorem map_fallback_honours_state_filter s l w p w1 sample :
  let state_filter := Some (s :: l) in
  get_tier_percentage env w = (Returns p, w1) ->
  remote_failed env "get_map_data_with_tooltips" (mkRpcParams p state_filter None) = true ->
  remote_failed env "get_enhanced_map_data" (mkRpcParams p state_filter None) = true ->
  get_sample_map_data env = Ok sample ->
  Forall has_map_keys sample ->
  exists d rows,
    fst (get_map_data env state_filter w) = Returns (PDict d) /\
    dict_get "data" d = Some (records_val rows) /\
    Forall (fun r => state_matches (cell "state" r) (s :: l) = true /\
                     numeric_in_range r = true) rows /\
    (0 <= p < 100 ->
     len rows <= len (state_filtered state_filter sample) * p / 100).
Proof.
  intros state_filter Hp H1 H2 Hsample Hkeys.
  rewrite (get_map_data_runs env state_filter w w1 p Hp). cbv zeta.
  rewrite (judge_both_failed env _ _ _ H1 H2).
  rewrite map_fallback_runs, Hsample, (map_quota_keyed _ _ _ Hkeys).
  set (quota := truncated p (state_filtered state_filter sample)).
  destruct (cleaned_answer_keyed env quota (quota_keyed _ _ _ Hkeys)) as (d & -> & Hd).
  exists d, (sanitized env quota). split; [reflexivity|]. split; [exact Hd|]. split.
  - apply List.Forall_forall. intros r' Hr'. unfold sanitized in Hr'.
    apply List.in_map_iff in Hr' as (r & <- & Hr).
    apply List.filter_In in Hr as [Hr Hvalid].
    rewrite numeric_in_range_cleaned. split; [|exact Hvalid].
    pose proof (proj1 (List.Forall_forall _ _) (quota_keyed state_filter p _ Hkeys) r Hr)
      as (Hstate & _).
    assert (Hcol : In "state" (all_columns quota)).
    { apply In_all_columns. exists r. split; [exact Hr | now apply dict_in_keys]. }
    unfold cleaned. rewrite !cell_set_ne by discriminate.
    rewrite (cell_lay_out _ _ _ _ Hcol).
    apply In_truncated in Hr. unfold state_filtered, state_filter in Hr.
    apply List.filter_In in Hr as [_ Hr].
    destruct (frame_cell_cases quota "state" r) as [-> | [E _]]; [exact Hr|].
    rewrite E in Hr. discriminate.
  - intros Hrange.
    assert (Hle : (length (sanitized env quota) <= length quota)%nat).
    { unfold sanitized. rewrite length_map. apply filter_length_le. }
    pose proof (truncated_length p (state_filtered state_filter sample) Hrange) as Hq.
    fold quota in Hq.
    assert (0 <= len (state_filtered state_filter sample) * p / 100)
      by (apply Z.div_pos; unfold len; nia).
    unfold len at 1. lia.
Qed.

End CleanMore.

Section FallbackLists.
Import TierControl DataAccess.
Context (env : Env).

(** X17: in the sample fallback of the demographic summary and of the
    market insights, each list ("summary"; "by_state" and "by_segment") is
    cut to its first max(1, floor(N * P / 100)) items below 100 percent
    and kept whole otherwise, so a non-empty list never becomes empty; the
    other keys of the sample data are unchanged. *)
Theorem fallback_lists_keep_a_floor_of_one state_filter metric w p w1 :
  get_tier_percentage env w = (Returns p, w1) ->
  let kept (l : list pyval) :=
    if p <? 100 then take (Z.to_nat (Z.max 1 (len l * p / 100))) l else l in
  (forall sample l,
     remote_failed env "get_demographic_summary" (mkRpcParams p state_filter None) = true ->
     remote_failed env "get_demographic_and_psychographic_metrics"
       (mkRpcParams p state_filter None) = true ->
     get_sample_demographic_data env = Ok sample ->
     dict_get "summary" sample = Some (PList l) ->
     exists d,
       fst (get_demographic_summary env state_filter w) = Returns (PDict d) /\
       dict_get "summary" d = Some (PList (kept l)) /\
       (l <> [] -> kept l <> []) /\
       (forall key, key <> "summary" -> dict_get key d = dict_get key sample)) /\
  (forall sample ls lg,
     remote_failed env "generate_market_insights"
       (mkRpcParams p state_filter (Some metric)) = true ->
     get_sample_market_insights env = Ok sample ->
     dict_get "by_state" sample = Some (PList ls) ->
     dict_get "by_segment" sample = Some (PList lg) ->
     exists d,
       fst (get_market_insights env state_filter metric w) = Returns (PDict d) /\
       dict_get "by_state" d = Some (PList (kept ls)) /\
       dict_get "by_segment" d = Some (PList (kept lg)) /\
       (ls <> [] -> kept ls <> []) /\
       (lg <> [] -> kept lg <> []) /\
       (forall key, key <> "by_state" -> key <> "by_segment" ->
                    dict_get key d = dict_get key sample)).
Proof.
  intros Hp kept.
  assert (Hfloor : forall l : list pyval, l <> [] -> kept l <> []).
  { intros l Hl. unfold kept. destruct (p <? 100); [|exact Hl].
    destruct l as [|x l]; [contradiction|].
    replace (Z.to_nat (Z.max 1 (len (x :: l) * p / 100)))
      with (S (Z.to_nat (Z.max 1 (len (x :: l) * p / 100) - 1))) by lia.
    discriminate. }
  split.
  - intros sample l H1 H2 Hsample Hl.
    rewrite (get_demographic_summary_runs env state_filter w w1 p Hp). cbv zeta.
    rewrite (judge_both_failed env _ _ _ H1 H2).
    rewrite demographic_fallback_runs, Hsample. unfold kept.
    destruct (p <? 100).
    + rewrite (limit_field_list _ _ _ _ Hl).
      eexists. split; [reflexivity|]. split; [apply dict_get_set_eq|].
      split; [apply Hfloor|].
      intros key Hkey. now apply dict_get_set_ne.
    + exists sample. split; [reflexivity|]. split; [exact Hl|]. split; [auto|]. auto.
  - intros sample ls lg H1 Hsample Hls Hlg.
    rewrite (get_market_insights_runs env state_filter w w1 p Hp). cbv zeta.
    rewrite (judge_failed env _ _ H1).
    rewrite insights_fallback_runs, Hsample. unfold kept.
    destruct (p <? 100).
    + rewrite (limit_field_list _ _ _ _ Hls). cbn [obind].
      erewrite limit_field_list
        by (rewrite dict_get_set_ne by discriminate; exact Hlg).
      eexists. split; [reflexivity|].
      split; [rewrite dict_get_set_ne by discriminate; apply dict_get_set_eq|].
      split; [apply dict_get_set_eq|].
      split; [apply Hfloor|]. split; [apply Hfloor|].
      intros key Hk1 Hk2. now rewrite !dict_get_set_ne.
    + exists sample. repeat split; auto.
Qed.

End FallbackLists.

(** ** The dashboard helpers *)

Section DashboardFacts.
Import TierControl DataAccess.
Context (env : Env) (sorted_by_avg_value : list pydict -> option (list pydict))
  (round1 : Q -> Q).

Lemma get_market_insights_yields state_filter metric :
  yields (get_market_insights env state_filter metric) (fun _ => True).
Proof.
  intros w.
  destruct (get_tier_percentage_returns env w) as (p & w1 & Hp & _).
  rewrite (get_market_insights_runs env state_filter w w1 p Hp). cbv zeta.
  destruct (judge env _ _) as [reason|data|e] eqn:E.
  - now rewrite insights_fallback_runs.
  - exact I.
  - now apply judge_escapes in E.
Qed.

Lemma as_dict_exceptions v : raises_only_exceptions (as_dict v).
Proof. intros e. destruct v; try discriminate; now intros [= <-]. Qed.

Lemma as_dicts_exceptions l : raises_only_exceptions (as_dicts l).
Proof.
  induction l as [|v l IH]; intros e; simpl; [discriminate|].
  pose proof (as_dict_exceptions v) as Hv.
  destruct (as_dict v) as [d|e']; cbn [obind]; [|intros [= <-]; now apply Hv].
  destruct (as_dicts l) as [ds|e']; cbn [obind]; [discriminate|].
  intros [= <-]. now apply IH.
Qed.

Lemma sorted_desc_exceptions v :
  raises_only_exceptions (sorted_desc sorted_by_avg_value v).
Proof.
  intros e. destruct v; try (now intros [= <-]). simpl.
  pose proof (as_dicts_exceptions l) as Hl.
  destruct (as_dicts l) as [ds|e']; cbn [obind]; [|intros [= <-]; now apply Hl].
  destruct (sorted_by_avg_value ds); [discriminate | now intros [= <-]].
Qed.

Lemma first_of_exceptions {A} (l : list A) : raises_only_exceptions (first_of l).
Proof. intros e. destruct l; [now intros [= <-] | discriminate]. Qed.

Lemma region_of_exceptions v : raises_only_exceptions (region_of v).
Proof. intros e. destruct v; try discriminate; now intros [= <-]. Qed.

Lemma divided_by_exceptions k v : raises_only_exceptions (divided_by env k v).
Proof. intros e. destruct v; try discriminate; now intros [= <-]. Qed.

Lemma rounded_exceptions v : raises_only_exceptions (rounded round1 v).
Proof. intros e. destruct v; try discriminate; now intros [= <-]. Qed.

(** X19: [get_region_growth_data] never raises: whatever the insights are,
    it returns a dictionary with exactly the keys region_name, growth_rate,
    market_value, state_code and _source, which is the fixed sample region
    unless its source is labelled "api". *)
Theorem region_growth_always_answers w :
  exists v w',
    get_region_growth_data env sorted_by_avg_value round1 w = (Returns (PDict v), w') /\
    dict_keys v = region_keys /\
    (PDict v = SAMPLE_REGION \/ dict_get "_source" v = Some (PStr "api")).
Proof.
  set (Q := fun v : pyval =>
              exists d, v = PDict d /\ dict_keys d = region_keys /\
                        (PDict d = SAMPLE_REGION \/ dict_get "_source" d = Some (PStr "api"))).
  assert (Hsample : Q SAMPLE_REGION).
  { eexists. split; [reflexivity|]. split; [reflexivity | now left]. }
  destruct (yields_try (region_growth_body env sorted_by_avg_value round1) Q SAMPLE_REGION w)
    as (a & w' & Hrun & (d & -> & Hkeys & Hsrc)); [|exact Hsample|].
  - unfold region_growth_body.
    apply (yields_bind _ _ _ _ (get_market_insights_yields None "growth_rate")).
    intros insights _.
    destruct (is_error_dict insights); [now apply yields_ret|].
    eapply yields_bind; [apply yields_lift; [apply as_dict_exceptions | intros ? _; exact I]|].
    intros d _. cbv zeta.
    destruct (truthy _); [|now apply yields_ret].
    eapply yields_bind;
      [apply yields_lift; [apply sorted_desc_exceptions | intros ? _; exact I]|].
    intros sorted_states _.
    eapply yields_bind;
      [apply yields_lift; [apply first_of_exceptions | intros ? _; exact I]|].
    intros top_state _.
    eapply yields_bind;
      [apply yields_lift; [apply region_of_exceptions | intros ? _; exact I]|].
    intros region_name _.
    eapply yields_bind;
      [apply yields_lift; [apply divided_by_exceptions | intros ? _; exact I]|].
    intros market_value _.
    eapply yields_bind;
      [apply yields_lift; [apply rounded_exceptions | intros ? _; exact I]|].
    intros growth_rate' _.
    eapply yields_bind;
      [apply yields_lift; [apply rounded_exceptions | intros ? _; exact I]|].
    intros market_value' _.
    apply yields_ret. eexists. split; [reflexivity|]. split; [reflexivity | now right].
  - exists d, w'. auto.
Qed.

(** X20: whenever the insights carry no "error" key, a non-empty "by_state"
    list of dictionaries and a top state with a numeric value,
    [get_region_growth_data] answers that state's region, its value rounded
    and half of it rounded, and labels the answer "api", so also when the
    insights are the sample data that [get_market_insights] fell back
    to. *)
Theorem region_growth_labels_any_insights_as_api w d l ds top rest code g :
  fst (get_market_insights env None "growth_rate" w) = Returns (PDict d) ->
  dict_in "error" d = false ->
  dict_get "by_state" d = Some (PList l) ->
  l <> [] ->
  as_dicts l = Returns ds ->
  sorted_by_avg_value ds = Some (top :: rest) ->
  dict_get "state" top = Some (PStr code) ->
  dict_get "avg_value" top = Some (PNum g) ->
  fst (get_region_growth_data env sorted_by_avg_value round1 w)
  = Returns (PDict [ ("region_name",
                      PStr (dict_get_default code "Other Region" state_region_map));
                     ("growth_rate", PNum (round1 g));
                     ("market_value", PNum (round1 (float_div env g 2)));
                     ("state_code", PStr code);
                     ("_source", PStr "api") ]).
Proof.
  intros Hrun Herr Hstates Hne Hds Hsorted Hcode Hg.
  destruct (get_market_insights env None "growth_rate" w) as [o w1] eqn:E.
  cbn [fst] in Hrun. subst o.
  unfold get_region_growth_data, region_growth_body.
  unfold bind at 1. unfold try_except. rewrite (bind_returns _ _ _ _ _ E).
  cbn [is_error_dict]. rewrite Herr.
  unfold bind at 1. cbn [lift as_dict].
  unfold dict_get_default at 1 2. rewrite Hstates.
  destruct l as [|x l]; [contradiction|]. cbn [truthy].
  unfold bind at 1. cbn [lift sorted_desc]. rewrite Hds. cbn [obind]. rewrite Hsorted.
  unfold bind at 1. cbn [lift first_of].
  unfold dict_get_default at 1 2 3. rewrite Hcode, Hg.
  unfold bind, lift, ret. cbn [region_of divided_by rounded].
  unfold dict_get_default at 2. rewrite Hcode. reflexivity.
Qed.

Lemma clamp_rate_bounds v :
  exists rate, clamp_rate v = PNum rate /\ (1 <= rate)%Q /\ (rate <= 100)%Q.
Proof.
  assert (Hone : exists rate, clamp_rate (PNum 1) = PNum rate /\ (1 <= rate)%Q /\ (rate <= 100)%Q).
  { exists 1%Q. repeat split; [apply Qle_refl | discriminate]. }
  destruct v; try exact Hone.
  unfold clamp_rate.
  destruct (Qle_bool q 1) eqn:E1; [exact Hone|].
  assert (H1 : (1 <= q)%Q).
  { apply Qlt_le_weak, Qnot_le_lt. intros H. apply Qle_bool_iff in H. congruence. }
  destruct (Qle_bool 100 q) eqn:E2.
  - exists 100%Q. repeat split; [discriminate | apply Qle_refl].
  - exists q. repeat split; [exact H1|].
    apply Qlt_le_weak, Qnot_le_lt. intros H. apply Qle_bool_iff in H. congruence.
Qed.

Lemma segment_entry_result segment :
  raises_only_exceptions (segment_entry env round1 segment) /\
  (forall entry, segment_entry env round1 segment = Returns entry ->
                 segment_within_bounds entry).
Proof.
  unfold segment_entry. cbv zeta.
  pose proof (divided_by_exceptions 3 (dict_get_default "avg_value" (PNum 0) segment)) as H1.
  destruct (divided_by env 3 _) as [third|e]; cbn [obind];
    [|split; [intros e' [= <-]; now apply H1 | discriminate]].
  pose proof (rounded_exceptions third) as H2.
  destruct (rounded round1 third) as [r|e]; cbn [obind];
    [|split; [intros e' [= <-]; now apply H2 | discriminate]].
  split; [discriminate|]. intros entry [= <-].
  destruct (clamp_rate_bounds r) as (rate & -> & Hlo & Hhi).
  now exists (dict_get_default "segment_name" (PStr "Unknown") segment), rate, "api".
Qed.

Lemma segment_entries_result segments :
  raises_only_exceptions (segment_entries env round1 segments) /\
  (forall entries, segment_entries env round1 segments = Returns entries ->
                   Forall segment_within_bounds entries /\
                   length entries = length segments).
Proof.
  induction segments as [|segment rest [IHe IHr]]; simpl.
  - split; [discriminate|]. intros entries [= <-]. split; [constructor | reflexivity].
  - destruct (segment_entry_result segment) as [He Hr].
    destruct (segment_entry env round1 segment) as [entry|e]; cbn [obind];
      [|split; [intros e' [= <-]; now apply He | discriminate]].
    destruct (segment_entries env round1 rest) as [entries|e]; cbn [obind];
      [|split; [intros e' [= <-]; now apply IHe | discriminate]].
    split; [discriminate|]. intros ? [= <-].
    destruct (IHr entries eq_refl) as [Hall Hlen].
    split; [constructor; [now apply Hr | exact Hall] | simpl; now rewrite Hlen].
Qed.

Lemma sample_segments_within_bounds : Forall segment_within_bounds SAMPLE_SEGMENTS.
Proof.
  repeat constructor;
    (do 3 eexists; split; [reflexivity|]; split; discriminate).
Qed.

Lemma slice_to_bound {A} limit (l : list A) : 0 <= limit -> len (slice_to limit l) <= limit.
Proof.
  intros H. rewrite slice_to_prefix by exact H. unfold len. rewrite length_take. lia.
Qed.

(** X21: [get_top_segments] never raises: it returns a list of entries with
    a name, a source label and a conversion rate between 1 and 100, and for
    a limit of at least 0 never more than max(1, limit) of them. *)
Theorem top_segments_rates_within_bounds limit w :
  exists entries w',
    get_top_segments env sorted_by_avg_value round1 limit w
    = (Returns (PList entries), w') /\
    Forall segment_within_bounds entries /\
    (0 <= limit -> len entries <= Z.max 1 limit).
Proof.
  set (Q := fun v : pyval =>
              exists entries, v = PList entries /\
                Forall segment_within_bounds entries /\
                (0 <= limit -> len entries <= Z.max 1 limit)).
  assert (Hdefault : Q (PList [sample_segment "Empathetic Dreamers" (32 # 1)])).
  { eexists. split; [reflexivity|]. split.
    - repeat constructor. do 3 eexists. split; [reflexivity|]. split; discriminate.
    - intros _. unfold len. simpl. lia. }
  destruct (yields_try (top_segments_body env sorted_by_avg_value round1 limit) Q
              (PList [sample_segment "Empathetic Dreamers" (32 # 1)]) w)
    as (a & w' & Hrun & (entries & -> & Hall & Hlen)); [|exact Hdefault|].
  - unfold top_segments_body.
    apply (yields_bind _ _ _ _ (get_market_insights_yields None "value")).
    intros insights _.
    destruct (is_error_dict insights).
    { apply yields_ret. eexists. split; [reflexivity|]. split.
      - apply Forall_slice_to, sample_segments_within_bounds.
      - intros H. pose proof (slice_to_bound limit SAMPLE_SEGMENTS H). lia. }
    eapply yields_bind; [apply yields_lift; [apply as_dict_exceptions | intros ? _; exact I]|].
    intros d _. cbv zeta.
    destruct (truthy _); [|now apply yields_ret].
    eapply yields_bind;
      [apply yields_lift; [apply sorted_desc_exceptions | intros ? _; exact I]|].
    intros sorted_segments _.
    destruct (segment_entries_result (slice_to limit sorted_segments)) as [He Hr].
    eapply yields_bind; [apply yields_lift; [exact He | intros result H; exact (Hr result H)]|].
    intros result [Hall Hlen]. apply yields_ret.
    eexists. split; [reflexivity|]. split; [exact Hall|].
    intros H. pose proof (slice_to_bound limit sorted_segments H).
    unfold len in *. lia.
  - exists entries, w'. auto.
Qed.

End DashboardFacts.

(** ** The frame the opportunity map is drawn from *)

Section Loader.
Import TierControl DataAccess OpportunityMap.
Context (env : Env).

Lemma with_scores_rows rows rows' :
  with_scores env rows = Returns rows' ->
  Forall2 (fun r r' => exists score, r' = dict_set "opportunity_score" score r) rows rows'.
Proof.
  revert rows'. induction rows as [|r rows IH]; simpl; intros rows'.
  - intros [= <-]. constructor.
  - destruct (row_score env r) as [score|e]; cbn [obind]; [|discriminate].
    destruct (with_scores env rows) as [rest|e]; cbn [obind]; [|discriminate].
    intros [= <-]. constructor; [now exists score | now apply IH].
Qed.

(** The score column is there afterwards, no column is lost, and no other
    cell changes. *)
Lemma add_opportunity_score_result df df' :
  add_opportunity_score env df = Returns df' ->
  In "opportunity_score" (df_columns df') /\
  (forall c, In c (df_columns df) -> In c (df_columns df')) /\
  Forall2 (fun r r' => forall c, c <> "opportunity_score" -> cell c r' = cell c r)
    (df_rows df) (df_rows df').
Proof.
  unfold add_opportunity_score.
  destruct (str_in "opportunity_score" (df_columns df)) eqn:E.
  - intros [= <-]. split; [now apply str_in_In|]. split; [auto|].
    induction (df_rows df); constructor; auto.
  - destruct (column "growth_rate" df); cbn [obind]; [|discriminate].
    destruct (column "market_size" df); cbn [obind]; [|discriminate].
    destruct (with_scores env (df_rows df)) as [rows|e] eqn:Hrows; cbn [obind];
      [|discriminate].
    intros [= <-]. cbn [df_columns df_rows].
    split; [apply In_add_column; now right|].
    split; [intros c Hc; apply In_add_column; now left|].
    apply with_scores_rows in Hrows.
    eapply Forall2_impl; [exact Hrows|].
    cbv beta. intros r r' [score ->] c Hc. now apply cell_set_ne.
Qed.

Lemma numeric_in_range_cells r r' :
  cell "latitude" r' = cell "latitude" r ->
  cell "longitude" r' = cell "longitude" r ->
  numeric_in_range r' = numeric_in_range r.
Proof. unfold numeric_in_range. now intros -> ->. Qed.

Lemma numeric_in_range_lay_out all cols r :
  In "latitude" cols -> In "longitude" cols ->
  numeric_in_range r = true -> numeric_in_range (lay_out all cols r) = true.
Proof.
  intros Hlat Hlon. unfold numeric_in_range.
  rewrite !cell_lay_out by assumption.
  destruct (frame_cell_cases all "latitude" r) as [-> | [-> _]]; [|discriminate].
  destruct (frame_cell_cases all "longitude" r) as [-> | [-> _]]; [auto|].
  destruct (cell "latitude" r); discriminate.
Qed.

Lemma Forall2_Forall_r {A B} (R : A -> B -> Prop) (P : A -> Prop) (Q : B -> Prop) l l' :
  Forall2 R l l' -> Forall P l -> (forall a b, R a b -> P a -> Q b) -> Forall Q l'.
Proof.
  intros H. induction H; intros HP HQ; [constructor|].
  inversion_clear HP. constructor; eauto.
Qed.

(** X22: when the loading step of the opportunity map hands over a frame,
    the frame has at least one row, the six required columns and the
    opportunity score, and every row has numeric coordinates within range
    and different from 0: the records on the equator or on the prime
    meridian have been dropped. *)
Theorem load_map_frame_result state_filter w df w' :
  load_map_frame env state_filter w = (Returns (Some df), w') ->
  df_rows df <> [] /\
  In "opportunity_score" (df_columns df) /\
  (forall c, In c required_columns -> In c (df_columns df)) /\
  Forall (fun r => numeric_in_range r = true /\
                   cell_nonzero (cell "latitude" r) = true /\
                   cell_nonzero (cell "longitude" r) = true) (df_rows df).
Proof.
  pose proof (get_map_data_shape env state_filter w) as Hshape.
  unfold load_map_frame. unfold bind at 1.
  destruct (get_map_data env state_filter w) as [[v|e] w1]; [|discriminate].
  cbn [fst] in Hshape.
  destruct Hshape as [[data ->] | [reason ->]]; [|discriminate].
  unfold cleaned_answer.
  destruct (clean_lat_lon env (DVal data) "latitude" "longitude") as [df0|e] eqn:Hclean;
    [|discriminate].
  apply clean_lat_lon_result in Hclean as (_ & _ & Hrange).
  cbn [dict_in dict_get]. 
  change (dict_in "error" [("data", to_records df0)]) with false. cbv iota.
  change (dict_get_default "data" (PList []) [("data", to_records df0)])
    with (to_records df0).
  unfold to_records.
  remember (df_rows df0) as rows eqn:Hrows0. clear Hrows0 df0.
  destruct rows as [|r0 rows0]; [discriminate|].
  change (negb (truthy (PList (map PDict (r0 :: rows0))))) with false. cbv iota.
  remember (r0 :: rows0) as rows eqn:Hrows. clear Hrows r0 rows0.
  unfold frame_of_data. rewrite frame_of_records.
  unfold bind at 1. cbn [lift].
  destruct (forallb _ required_columns) eqn:Hcols; cbn [negb]; [|discriminate].
  destruct (add_opportunity_score env (from_records rows)) as [df1|e] eqn:Hscore;
    unfold bind, lift; [|discriminate].
  cbv zeta.
  destruct (len _ =? 0) eqn:Hlen; [discriminate|].
  intros [= <- _]. cbn [select_rows df_rows df_columns].
  apply add_opportunity_score_result in Hscore as (Hcol & Hkeep & Hcells).
  assert (Hreq : forall c, In c required_columns -> In c (all_columns rows)).
  { intros c Hc. apply str_in_In.
    rewrite forallb_forall in Hcols. now apply Hcols. }
  split.
  { intros Hnil. cbn [select_rows df_rows] in Hlen. rewrite Hnil in Hlen. discriminate. }
  split; [exact Hcol|].
  split; [intros c Hc; apply Hkeep, Hreq, Hc|].
  assert (Hall : Forall (fun r => numeric_in_range r = true) (df_rows df1)).
  { eapply Forall2_Forall_r with (P := fun r => numeric_in_range r = true);
      [exact Hcells | |].
    - unfold from_records. cbn [df_rows]. apply Forall_map.
      eapply Forall_impl; [exact Hrange|]. cbv beta. intros r Hr.
      apply numeric_in_range_lay_out; [apply Hreq; cbn; auto | apply Hreq; cbn; auto | exact Hr].
    - cbv beta. intros r r' Hc Hr. rewrite <- Hr.
      apply numeric_in_range_cells; apply Hc; discriminate. }
  eapply Forall_impl.
  - apply Forall_both; [apply Forall_filter_list, Hall | apply Forall_filter_true].
  - cbv beta. intros r [H1 H2]. apply andb_prop in H2. tauto.
Qed.

End Loader.

(** ** The fetches and the account *)

Section GatewaySession.
Import TierControl DataAccess OpportunityMap.
Context (env : Env) (sorted_by_avg_value : list pydict -> option (list pydict))
  (round1 : Q -> Q).

Section Frame.
Context (P : World -> Prop).
Hypothesis Hget : preserves P (get_user_tier env).
Hypothesis Hlog : forall fn params, preserves P (log_rpc fn params).

Lemma gateway_percentage_preserves : preserves P (DataAccess.get_tier_percentage env).
Proof. unfold DataAccess.get_tier_percentage. preserve. Qed.

Lemma execute_supabase_function_preserves fn params :
  preserves P (execute_supabase_function env fn params).
Proof. unfold execute_supabase_function. preserve. Qed.

Lemma get_map_data_preserves state_filter : preserves P (get_map_data env state_filter).
Proof.
  pose proof gateway_percentage_preserves. pose proof execute_supabase_function_preserves.
  unfold get_map_data, map_fallback. preserve.
Qed.

Lemma get_demographic_summary_preserves state_filter :
  preserves P (get_demographic_summary env state_filter).
Proof.
  pose proof gateway_percentage_preserves. pose proof execute_supabase_function_preserves.
  unfold get_demographic_summary, demographic_fallback. preserve.
Qed.

Lemma get_market_insights_preserves state_filter metric :
  preserves P (get_market_insights env state_filter metric).
Proof.
  pose proof gateway_percentage_preserves. pose proof execute_supabase_function_preserves.
  unfold get_market_insights, insights_fallback. preserve.
Qed.

Lemma get_region_growth_data_preserves :
  preserves P (get_region_growth_data env sorted_by_avg_value round1).
Proof.
  pose proof get_market_insights_preserves.
  unfold get_region_growth_data, region_growth_body. preserve.
Qed.

Lemma get_top_segments_preserves limit :
  preserves P (get_top_segments env sorted_by_avg_value round1 limit).
Proof.
  pose proof get_market_insights_preserves.
  unfold get_top_segments, top_segments_body. preserve.
Qed.

Lemma load_map_frame_preserves state_filter :
  preserves P (load_map_frame env state_filter).
Proof.
  pose proof get_map_data_preserves.
  unfold load_map_frame. preserve.
Qed.

End Frame.

Lemma same_account_refl w : same_account w w.
Proof. repeat split; auto. Qed.

Lemma get_user_tier_account w0 : preserves (same_account w0) (get_user_tier env).
Proof.
  intros w (Husage & Hhist & Hpw & Htier).
  pose proof (get_user_tier_usage env _ w eq_refl) as Hu. cbv beta in Hu.
  unfold same_account.
  destruct (get_user_tier_cases env w)
    as [(t & u & Hu1 & Ht & Hrun) | (Hnone & [Hrun | (tier & u' & c' & Hrun & Ht & _ & _ & Hh)])];
    rewrite Hrun in Hu |- *; cbn [snd] in *.
  - assert (Hs : session_of w = u) by (unfold session_of; now rewrite Hu1).
    split; [congruence|]. split; [|split; [exact Hpw|]].
    + rewrite <- Hhist, Hs. reflexivity.
    + intros tier Htier0. rewrite <- (Htier tier Htier0), Hs. reflexivity.
  - auto.
  - split; [congruence|]. split; [|split; [exact Hpw|]].
    + rewrite session_of_some. congruence.
    + intros tier0 Htier0. specialize (Htier tier0 Htier0). congruence.
Qed.

Lemma log_rpc_account w0 fn params : preserves (same_account w0) (log_rpc fn params).
Proof. intros w H. exact H. Qed.

(** X23: no fetch touches the account: after each of the three fetches, the
    two dashboard helpers and the map's loading step, however they end,
    the usage counters, the tier history and the rows written to the
    profile table are as before, and a session that had a tier still has
    it. *)
Theorem fetches_leave_the_account state_filter metric limit w :
  same_account w (snd (get_map_data env state_filter w)) /\
  same_account w (snd (get_demographic_summary env state_filter w)) /\
  same_account w (snd (get_market_insights env state_filter metric w)) /\
  same_account w (snd (get_region_growth_data env sorted_by_avg_value round1 w)) /\
  same_account w (snd (get_top_segments env sorted_by_avg_value round1 limit w)) /\
  same_account w (snd (load_map_frame env state_filter w)).
Proof.
  pose proof (get_user_tier_account w) as Hget.
  pose proof (log_rpc_account w) as Hlog.
  pose proof (same_account_refl w) as Hw.
  split; [exact (get_map_data_preserves (same_account w) Hget Hlog state_filter w Hw)|].
  split; [exact (get_demographic_summary_preserves (same_account w) Hget Hlog
                   state_filter w Hw)|].
  split; [exact (get_market_insights_preserves (same_account w) Hget Hlog
                   state_filter metric w Hw)|].
  split; [exact (get_region_growth_data_preserves (same_account w) Hget Hlog w Hw)|].
  split; [exact (get_top_segments_preserves (same_account w) Hget Hlog limit w Hw)|].
  exact (load_map_frame_preserves (same_account w) Hget Hlog state_filter w Hw).
Qed.

End GatewaySession.

(** ** Answers of the remote that are no objects *)

Section ScalarRows.
Import TierControl DataAccess.
Context (env : Env).

Lemma judge_scalar name result :
  scalar result = true ->
  judge env name result = Escapes (TypeError "argument is not iterable").
Proof. destruct result; try discriminate; reflexivity. Qed.

Lemma scalar_not_failed function_name params :
  scalar (rpc_result env function_name params) = true ->
  remote_failed env function_name params = false.
Proof.
  unfold remote_failed. now destruct (rpc_result env function_name params).
Qed.

(** X25: the fetches return the first row of the remote's answer whatever
    it is, and test it for an "error" key before any [try].  A first row
    that is a number, a boolean or [None] is no error dictionary for the
    guarded test, so no other request follows; the unguarded test then
    raises [TypeError], which leaves the fetch. *)
Theorem scalar_row_escapes_the_fetches state_filter metric w :
  let p := current_percentage env w in
  let params := mkRpcParams p state_filter None in
  let iparams := mkRpcParams p state_filter (Some metric) in
  (scalar (rpc_result env "get_map_data_with_tooltips" params) = true ->
   fst (get_map_data env state_filter w) = Raises (TypeError "argument is not iterable") /\
   rpc_log (snd (get_map_data env state_filter w))
   = (rpc_log w ++ [("get_map_data_with_tooltips", params)])%list) /\
  (scalar (rpc_result env "get_demographic_summary" params) = true ->
   fst (get_demographic_summary env state_filter w)
   = Raises (TypeError "argument is not iterable") /\
   rpc_log (snd (get_demographic_summary env state_filter w))
   = (rpc_log w ++ [("get_demographic_summary", params)])%list) /\
  (scalar (rpc_result env "generate_market_insights" iparams) = true ->
   fst (get_market_insights env state_filter metric w)
   = Raises (TypeError "argument is not iterable")).
Proof.
  destruct (get_tier_percentage_returns env w) as (p & w1 & Hp & Hlog).
  rewrite (current_percentage_runs env w p w1 Hp). cbv zeta.
  rewrite (get_map_data_runs env state_filter w w1 p Hp),
          (get_demographic_summary_runs env state_filter w w1 p Hp),
          (get_market_insights_runs env state_filter w w1 p Hp metric).
  cbv zeta. unfold last_answer, after_requests.
  split; [|split]; intros Hrow.
  - rewrite (scalar_not_failed _ _ Hrow), (judge_scalar _ _ Hrow).
    split; [reflexivity|]. simpl. now rewrite Hlog.
  - rewrite (scalar_not_failed _ _ Hrow), (judge_scalar _ _ Hrow).
    split; [reflexivity|]. simpl. now rewrite Hlog.
  - now rewrite (judge_scalar _ _ Hrow).
Qed.

End ScalarRows.

(** ** Instances of the further properties *)

Section FurtherInstances.
Import TierControl DataAccess OpportunityMap.

Lemma set_then_get_user_tier_witness :
  let env := offline (Failed "unused") (Failed "unused") (Failed "unused") in
  exists w1 w2,
    set_user_tier env "Scale" (demo_session "Free") = (Returns true, w1) /\
    get_user_tier env w1 = (Returns (Some "Scale"), w2) /\
    fst (TierControl.get_tier_percentage env w1) = Returns 100.
Proof.
  destruct (set_then_get_user_tier
              (offline (Failed "unused") (Failed "unused") (Failed "unused"))
              "Scale" (demo_session "Free") (or_intror (or_intror eq_refl)))
    as (w1 & w2 & Hset & Hget & Hpct & _).
  exists w1, w2. repeat split; assumption.
Defined.

Lemma tier_history_stays_linked_witness :
  let env := offline (Failed "unused") (Failed "unused") (Failed "unused") in
  history_linked
    (snd (set_user_tier env "Scale"
            (snd (set_user_tier env "Accelerate" (demo_session "Free"))))) /\
  option_map (map (fun e => (tc_from e, tc_to e)))
    (ui_tier_history
       (session_of (snd (set_user_tier env "Scale"
                           (snd (set_user_tier env "Accelerate" (demo_session "Free")))))))
  = Some [(Some "Free", "Accelerate"); (Some "Accelerate", "Scale")].
Proof.
  split; [|reflexivity].
  pose proof (tier_history_stays_linked
                (offline (Failed "unused") (Failed "unused") (Failed "unused")))
    as (_ & _ & _ & Hset & _).
  apply Hset, Hset. exact I.
Defined.

Lemma set_user_tier_then_enforce_tier_witness :
  let env := offline (Failed "unused") (Failed "unused") (Failed "unused") in
  exists w1 w2 w3,
    set_user_tier env "Accelerate" (demo_session "Free") = (Returns true, w1) /\
    enforce_tier env "Accelerate" w1 = (Returns true, w2) /\
    enforce_tier env "Scale" w1 = (Raises StopException, w3).
Proof.
  destruct (set_user_tier_then_enforce_tier
              (offline (Failed "unused") (Failed "unused") (Failed "unused"))
              "Accelerate" "Accelerate" (demo_session "Free") (or_intror (or_introl eq_refl)))
    as (w1 & w2 & Hset & Hallow).
  destruct (set_user_tier_then_enforce_tier
              (offline (Failed "unused") (Failed "unused") (Failed "unused"))
              "Accelerate" "Scale" (demo_session "Free") (or_intror (or_introl eq_refl)))
    as (w1' & w3 & Hset' & Hdeny).
  assert (w1' = w1) by congruence. subst w1'.
  exists w1, w2, w3. repeat split; assumption.
Defined.

Lemma access_count_is_total_usage_witness :
  let env := offline (Failed "unused") (Failed "unused") (Failed "unused") in
  let w := snd (enforce_tier env "Free"
                  (snd (track_feature_usage "export" (demo_session "Free")))) in
  usage_consistent w /\ access_count w = 2.
Proof.
  split; [|reflexivity].
  pose proof (access_count_is_total_usage
                (offline (Failed "unused") (Failed "unused") (Failed "unused")))
    as (_ & _ & _ & _ & Htrack & Henforce & _).
  apply Henforce, Htrack. reflexivity.
Defined.

Lemma enforce_tier_counts_granted_access_only_witness :
  let env := offline (Failed "unused") (Failed "unused") (Failed "unused") in
  usage_fields (snd (enforce_tier env "Scale" (demo_session "Free")))
    = usage_fields (demo_session "Free") /\
  usage_of "access_Free_feature" (snd (enforce_tier env "Free" (demo_session "Free"))) = 1.
Proof.
  split.
  - apply (proj1 (enforce_tier_counts_granted_access_only
                    (offline (Failed "unused") (Failed "unused") (Failed "unused"))
                    "Scale" (demo_session "Free")) StopException).
    vm_compute. reflexivity.
  - destruct (proj2 (enforce_tier_counts_granted_access_only
                       (offline (Failed "unused") (Failed "unused") (Failed "unused"))
                       "Free" (demo_session "Free")) true
                (snd (enforce_tier (offline (Failed "unused") (Failed "unused")
                                      (Failed "unused")) "Free" (demo_session "Free"))))
      as (_ & H & _); [vm_compute; reflexivity|].
    transitivity (usage_of "access_Free_feature" (demo_session "Free") + 1);
      [exact H | reflexivity].
Defined.

Lemma tier_limited_runs_only_when_allowed_witness :
  let env := offline (Failed "unused") (Failed "unused") (Failed "unused") in
  (exists w',
     (forall func : M bool,
        tier_limited env "export_report" func (Some "Scale") None (demo_session "Free")
        = (Raises StopException, w')) /\
     usage_of "attempt_export_report" w' = 1 /\ access_count w' = 1) /\
  (exists w',
     (forall func : M bool,
        tier_limited env "export_report" func (Some "Scale") None (demo_session "Scale")
        = func w') /\
     usage_of "export_report" w' = 1 /\ access_count w' = 3).
Proof.
  split.
  - destruct (proj1 (tier_limited_runs_only_when_allowed (A:=bool)
                       (offline (Failed "unused") (Failed "unused") (Failed "unused"))
                       "export_report" (Some "Scale") None "Free" (demo_session "Free")
                       (ex_intro _ _ (conj eq_refl eq_refl))))
      as (w' & Hrun & Hattempt & Hcount); [reflexivity|].
    exists w'. split; [exact Hrun|]. split; [exact Hattempt | exact Hcount].
  - destruct (proj2 (tier_limited_runs_only_when_allowed (A:=bool)
                       (offline (Failed "unused") (Failed "unused") (Failed "unused"))
                       "export_report" (Some "Scale") None "Scale" (demo_session "Scale")
                       (ex_intro _ _ (conj eq_refl eq_refl))))
      as (w' & Hrun & _ & Hfeature & Hcount); [discriminate|].
    exists w'. split; [exact Hrun|]. split; [|exact Hcount].
    specialize (Hrun (ret true)). vm_compute in Hrun. injection Hrun as <-. reflexivity.
Defined.

Lemma limitation_implies_access_witness :
  fst (can_access_feature (offline (Failed "unused") (Failed "unused") (Failed "unused"))
         "market_map" (demo_session "Free")) = Returns true.
Proof.
  apply (limitation_implies_access
           (offline (Failed "unused") (Failed "unused") (Failed "unused"))
           "market_map" (demo_session "Free") "Limited to 10% of data points").
  reflexivity.
Defined.

Lemma higher_tier_never_loses_witness :
  let env := offline (Failed "unused") (Failed "unused") (Failed "unused") in
  fst (can_access_feature env "export" (demo_session "Scale")) = Returns true /\
  exists p q,
    fst (TierControl.get_tier_percentage env (demo_session "Accelerate")) = Returns p /\
    fst (TierControl.get_tier_percentage env (demo_session "Scale")) = Returns q /\
    0 < p <= q /\ q <= 100.
Proof.
  destruct (higher_tier_never_loses
              (offline (Failed "unused") (Failed "unused") (Failed "unused"))
              "Accelerate" "Scale" "export" (demo_session "Accelerate") (demo_session "Scale")
              (ex_intro _ _ (conj eq_refl eq_refl)) (ex_intro _ _ (conj eq_refl eq_refl)))
    as [Hfeature Hpct]; [discriminate|].
  split; [apply Hfeature; reflexivity | exact Hpct].
Defined.

Lemma apply_tier_limit_session_percentage_witness :
  let env := offline (Failed "unused") (Failed "unused") (Failed "unused") in
  exists l' w',
    apply_tier_limit env (DVal (records_val sample_cities)) None (demo_session "Free")
    = (Returns (DVal (PList l')), w') /\
    len l' = 3.
Proof.
  destruct (apply_tier_limit_session_percentage
              (offline (Failed "unused") (Failed "unused") (Failed "unused"))
              (map PDict sample_cities) "Free" (demo_session "Free")
              (ex_intro _ _ (conj eq_refl eq_refl)))
    as (l' & w' & Hrun & _ & _ & Hlen).
  exists l', w'. split; [exact Hrun | exact Hlen].
Defined.

Lemma apply_tier_limit_dict_meta_witness :
  let env := offline (Failed "unused") (Failed "unused") (Failed "unused") in
  exists d' meta',
    apply_tier_limit env (DVal (PDict paged_response)) (Some 50) (demo_session "Free")
    = (Returns (DVal (PDict d')), demo_session "Free") /\
    dict_get "data" d' = Some (PList [PStr "a"]) /\
    dict_get "meta" d' = Some (PDict meta') /\
    dict_get "showing" meta' = Some (PInt 1) /\
    dict_get "total" meta' = Some (PInt 3) /\
    dict_get "status" d' = Some (PStr "ok").
Proof.
  destruct (proj1 (apply_tier_limit_dict_meta
                     (offline (Failed "unused") (Failed "unused") (Failed "unused"))
                     paged_response [PStr "a"; PStr "b"; PStr "c"] 50 (demo_session "Free")
                     eq_refl eq_refl))
    as (d' & meta' & Hrun & Hdata & Hmeta & _ & _ & Hshowing & Htotal & Hrest).
  - right. eexists. reflexivity.
  - exists d', meta'. repeat apply conj; try assumption.
    rewrite Hrest by discriminate. reflexivity.
Defined.

Lemma get_user_tier_caches_profile_tier_witness :
  exists w1,
    get_user_tier (signed_in None) no_session = (Returns None, w1) /\
    ui_tier (session_of w1) = Some None /\
    (exists w2,
       get_user_tier (offline (Failed "unused") (Failed "unused") (Failed "unused")) w1
       = (Returns None, w2)) /\
    fst (TierControl.get_tier_percentage (signed_in None) w1) = Returns 10.
Proof.
  destruct (get_user_tier_caches_profile_tier (signed_in None)
              (mkSupabaseClient (Ok (Some (mkProfile "user-1" "ada@example.com" None)))
                 (fun _ _ => Ok tt))
              (mkProfile "user-1" "ada@example.com" None) no_session
              eq_refl eq_refl eq_refl)
    as (w1 & Hrun & Hcached & _ & _ & Hnext & Hpct).
  exists w1. split; [exact Hrun|]. split; [exact Hcached|].
  split; [apply Hnext | exact Hpct].
Defined.

Lemma upgrade_button_only_below_required_witness :
  let env := offline (Failed "unused") (Failed "unused") (Failed "unused") in
  fst (render_upgrade_button env "Accelerate" None (demo_session "Scale")) = Returns false.
Proof.
  apply (proj1 (upgrade_button_only_below_required
                  (offline (Failed "unused") (Failed "unused") (Failed "unused"))
                  "Accelerate" None "Scale" (demo_session "Scale")
                  (ex_intro _ _ (conj eq_refl eq_refl)))).
  reflexivity.
Defined.

Lemma hex_to_rgb_six_digits_witness :
  hex_to_rgb "#3498db" = Returns ((52 # 255)%Q, (152 # 255)%Q, (219 # 255)%Q).
Proof.
  exact (proj1 (hex_to_rgb_six_digits true
                  (Ascii.ascii_of_nat 51) (Ascii.ascii_of_nat 52) (Ascii.ascii_of_nat 57)
                  (Ascii.ascii_of_nat 56) (Ascii.ascii_of_nat 100) (Ascii.ascii_of_nat 98)
                  3 4 9 8 13 11 EmptyString
                  eq_refl eq_refl eq_refl eq_refl eq_refl eq_refl)).
Defined.

Lemma map_answer_without_error_is_clean_witness :
  let env := offline (Ok sample_cities) (Failed "unused") (Failed "unused") in
  exists rows,
    fst (get_map_data env None (demo_session "Scale"))
    = Returns (PDict [("data", records_val rows)]) /\
    Forall (fun r => numeric_in_range r = true) rows.
Proof.
  eassert (Hrun : fst (get_map_data
                         (offline (Ok sample_cities) (Failed "unused") (Failed "unused"))
                         None (demo_session "Scale")) = Returns (PDict _))
    by (vm_compute; reflexivity).
  destruct (map_answer_without_error_is_clean _ _ _ _ Hrun eq_refl) as (rows & Hd & Hall).
  exists rows. split; [|exact Hall]. cbv zeta. rewrite <- Hd. exact Hrun.
Defined.

Lemma map_fallback_honours_state_filter_witness :
  let env := offline (Ok sample_cities) (Failed "unused") (Failed "unused") in
  exists d rows,
    fst (get_map_data env (Some ["TX"]) (demo_session "Accelerate")) = Returns (PDict d) /\
    dict_get "data" d = Some (records_val rows) /\
    Forall (fun r => state_matches (cell "state" r) ["TX"] = true /\
                     numeric_in_range r = true) rows /\
    len rows <= 3.
Proof.
  edestruct (map_fallback_honours_state_filter
               (offline (Ok sample_cities) (Failed "unused") (Failed "unused"))
               "TX" [] (demo_session "Accelerate") 66
               (snd (DataAccess.get_tier_percentage
                       (offline (Ok sample_cities) (Failed "unused") (Failed "unused"))
                       (demo_session "Accelerate")))
               sample_cities)
    as (d & rows & Hrun & Hdata & Hall & Hlen).
  - reflexivity.
  - reflexivity.
  - reflexivity.
  - reflexivity.
  - exact sample_cities_keyed.
  - exists d, rows. split; [exact Hrun|]. split; [exact Hdata|]. split; [exact Hall|].
    apply Hlen. lia.
Defined.

Lemma fallback_lists_keep_a_floor_of_one_witness :
  let env := offline (Failed "unused") (Ok sample_segments) (Ok sample_insights) in
  (exists d,
     fst (get_demographic_summary env None (demo_session "Free")) = Returns (PDict d) /\
     dict_get "summary" d = Some (PList [PStr "Empathetic Dreamers"])) /\
  (exists d,
     fst (get_market_insights env None "value" (demo_session "Free")) = Returns (PDict d) /\
     dict_get "by_state" d = Some (PList (take 1 (map PDict state_rows))) /\
     dict_get "by_segment" d = Some (PList (take 1 (map PDict segment_rows)))).
Proof.
  edestruct (fallback_lists_keep_a_floor_of_one
               (offline (Failed "unused") (Ok sample_segments) (Ok sample_insights))
               None "value" (demo_session "Free") 33
               (snd (DataAccess.get_tier_percentage
                       (offline (Failed "unused") (Ok sample_segments) (Ok sample_insights))
                       (demo_session "Free")))
               eq_refl)
    as [Hdemographic Hinsights].
  split.
  - destruct (Hdemographic sample_segments _ eq_refl eq_refl eq_refl eq_refl)
      as (d & Hrun & Hsummary & _).
    exists d. split; [exact Hrun | exact Hsummary].
  - destruct (Hinsights sample_insights _ _ eq_refl eq_refl eq_refl eq_refl)
      as (d & Hrun & Hstates & Hsegments & _).
    exists d. split; [exact Hrun|]. split; [exact Hstates | exact Hsegments].
Defined.

Lemma clean_lat_lon_idempotent_witness :
  let env := offline (Failed "unused") (Failed "unused") (Failed "unused") in
  exists df,
    clean_lat_lon env (DVal (records_val mixed_records)) "latitude" "longitude" = Returns df /\
    map (dict_get "city") (df_rows df) = [Some (PStr "Austin"); Some (PStr "Boston")] /\
    clean_lat_lon env (DFrame df) "latitude" "longitude" = Returns df.
Proof.
  eexists. split; [vm_compute; reflexivity|]. split; [reflexivity|].
  apply (clean_lat_lon_idempotent
           (offline (Failed "unused") (Failed "unused") (Failed "unused"))
           (DVal (records_val mixed_records))).
  vm_compute. reflexivity.
Defined.

Lemma region_growth_labels_any_insights_as_api_witness :
  let env := offline (Failed "unused") (Failed "unused") (Ok sample_insights) in
  get_supabase_client env = None /\
  fst (get_region_growth_data env descending_by_avg_value exact_round1 (demo_session "Scale"))
  = Returns (PDict [ ("region_name", PStr "West Coast");
                     ("growth_rate", PNum (200 # 10));
                     ("market_value", PNum (100 # 10));
                     ("state_code", PStr "CA");
                     ("_source", PStr "api") ]).
Proof.
  split; [reflexivity|].
  apply (region_growth_labels_any_insights_as_api
           (offline (Failed "unused") (Failed "unused") (Ok sample_insights))
           descending_by_avg_value exact_round1 (demo_session "Scale")
           sample_insights (map PDict state_rows) state_rows
           [("state", PStr "CA"); ("avg_value", PNum (20 # 1))]
           [ [("state", PStr "TX"); ("avg_value", PNum (125 # 10))];
             [("state", PStr "NY"); ("avg_value", PNum (81 # 10))] ]
           "CA" (20 # 1)).
  - vm_compute. reflexivity.
  - reflexivity.
  - reflexivity.
  - discriminate.
  - reflexivity.
  - vm_compute. reflexivity.
  - reflexivity.
  - reflexivity.
Defined.

Lemma top_segments_rates_within_bounds_witness :
  let env := offline (Failed "unused") (Failed "unused") (Ok sample_insights) in
  exists entries,
    fst (get_top_segments env descending_by_avg_value exact_round1 2 (demo_session "Scale"))
    = Returns (PList entries) /\
    map (fun e => match e with
                  | PDict d => dict_get "conversion_rate" d
                  | _ => None
                  end) entries
    = [Some (PNum 100); Some (PNum (320 # 10))] /\
    Forall segment_within_bounds entries.
Proof.
  destruct (top_segments_rates_within_bounds
              (offline (Failed "unused") (Failed "unused") (Ok sample_insights))
              descending_by_avg_value exact_round1 2 (demo_session "Scale"))
    as (entries & w' & Hrun & Hall & _).
  exists entries. split; [now rewrite Hrun|]. split; [|exact Hall].
  vm_compute in Hrun. injection Hrun as <- _. reflexivity.
Defined.

Lemma load_map_frame_result_witness :
  let env := offline (Ok market_cities) (Failed "unused") (Failed "unused") in
  exists df w',
    load_map_frame env None (demo_session "Scale") = (Returns (Some df), w') /\
    map (dict_get "city") (df_rows df) = [Some (PStr "Austin")] /\
    map (dict_get "opportunity_score") (df_rows df) = [Some (PNum (2500 # 10))] /\
    Forall (fun r => numeric_in_range r = true /\
                     cell_nonzero (cell "latitude" r) = true /\
                     cell_nonzero (cell "longitude" r) = true) (df_rows df).
Proof.
  eassert (Hrun : load_map_frame
                    (offline (Ok market_cities) (Failed "unused") (Failed "unused"))
                    None (demo_session "Scale") = (Returns (Some _), _))
    by (vm_compute; reflexivity).
  destruct (load_map_frame_result _ _ _ _ _ Hrun) as (_ & _ & _ & Hall).
  do 2 eexists. split; [exact Hrun|]. split; [reflexivity|]. split; [reflexivity|].
  exact Hall.
Defined.

Lemma scalar_row_escapes_the_fetches_witness :
  fst (get_market_insights (remote_answering "generate_market_insights" [PNum 1])
         None "market_size" (demo_session "Free"))
  = Raises (TypeError "argument is not iterable").
Proof.
  exact (proj2 (proj2 (scalar_row_escapes_the_fetches
                         (remote_answering "generate_market_insights" [PNum 1])
                         None "market_size" (demo_session "Free"))) eq_refl).
Defined.

End FurtherInstances.
